(** * right-to-read-service: page enrichment and narration assembly

    A shallow embedding of the Python service's core modules

      - [src/main/utils/image_processing_utils.py]
      - [src/main/utils/generate_block_json_utils.py]
      - [src/main/utils/saving_utils.py]
      - [src/main/services/tts_service.py]
      - [src/main/controllers/tts_controller.py]

    Python text is modelled by [string], each character standing for one
    code point of the Latin-1 range; a finite float is the rational number
    it denotes.  Python objects that come out of the JSON decoder are
    values of [pyval]; dictionaries keep insertion order and are
    association lists.  Functions that touch the file system, the clock,
    the log or a remote provider run in a state-and-exception monad over
    [world].  Pure library functions the repository calls (json, os.path,
    base64) are the fields of [PyRuntime]; what the outside answers during
    a request (file system, document renderer, random source, the two
    providers) is read from an [environment].  The service's own [logger]
    is part of the world; the diagnostics the utility modules send to the
    root logger change no result and are left out.

    The model comes first, in the order of the source files; then a small
    runtime, the vocabulary of the properties and a one-page document to
    run the model on; then the properties. *)

From Stdlib Require Import Bool Arith ZArith QArith List Lia.
From Stdlib Require Import Ascii String DecimalString.
Import ListNotations.

Set Warnings "-register-all".
Close Scope Q_scope.
Open Scope string_scope.
Open Scope nat_scope.
Open Scope list_scope.

(** String concatenation, written apart from list concatenation. *)
Infix "+++" := String.append (right associativity, at level 60).

(* ================================================================== *)
(** * Python text primitives *)
(* ================================================================== *)

Module Text.

(** The double quote and the line feed, built from their codes. *)
Definition dquote : string := String (ascii_of_nat 34) EmptyString.
Definition newline : string := String (ascii_of_nat 10) EmptyString.

(** [str.isspace] on one character of the Latin-1 range: TAB..CR,
    FS..US, SPACE, NEL and NBSP. *)
Definition isspace (c : ascii) : bool :=
  let n := nat_of_ascii c in
  ((9 <=? n) && (n <=? 13)) || ((28 <=? n) && (n <=? 32))
  || (n =? 133) || (n =? 160).

(** [s.lstrip()] *)
Fixpoint lstrip (s : string) : string :=
  match s with
  | EmptyString => EmptyString
  | String c r => if isspace c then lstrip r else s
  end.

(** [s.rstrip()] *)
Fixpoint rstrip (s : string) : string :=
  match s with
  | EmptyString => EmptyString
  | String c r =>
      match rstrip r with
      | EmptyString => if isspace c then EmptyString else String c EmptyString
      | r' => String c r'
      end
  end.

(** [s.strip()] *)
Definition strip (s : string) : string := rstrip (lstrip s).

(** [s[n:]] and [s[:n]] for a non-negative [n]. *)
Fixpoint drop (n : nat) (s : string) : string :=
  match n, s with
  | O, _ => s
  | S _, EmptyString => EmptyString
  | S k, String _ r => drop k r
  end.

Fixpoint take (n : nat) (s : string) : string :=
  match n, s with
  | O, _ => EmptyString
  | S _, EmptyString => EmptyString
  | S k, String c r => String c (take k r)
  end.

(** [s[:-n]] for a positive [n]. *)
Definition drop_last (n : nat) (s : string) : string :=
  take (String.length s - n) s.

(** [s[a:b]] for indices [0 <= a]. *)
Definition slice (a b : Z) (s : string) : string :=
  take (Z.to_nat (b - a)) (drop (Z.to_nat a) s).

(** [s.startswith(p)] and [s.endswith(p)]. *)
Fixpoint startswith (s p : string) {struct p} : bool :=
  match p with
  | EmptyString => true
  | String a p' =>
      match s with
      | EmptyString => false
      | String b s' => Ascii.eqb a b && startswith s' p'
      end
  end.

Definition endswith (s p : string) : bool :=
  (String.length p <=? String.length s)
  && String.eqb (drop (String.length s - String.length p) s) p.

(** Position of the first and of the last occurrence of a character. *)
Fixpoint index_of (c : ascii) (s : string) : option nat :=
  match s with
  | EmptyString => None
  | String a r =>
      if Ascii.eqb a c then Some O
      else match index_of c r with Some i => Some (S i) | None => None end
  end.

Fixpoint rindex_of (c : ascii) (s : string) : option nat :=
  match s with
  | EmptyString => None
  | String a r =>
      match rindex_of c r with
      | Some i => Some (S i)
      | None => if Ascii.eqb a c then Some O else None
      end
  end.

(** [s.find(c)] and [s.rfind(c)]: the index, or -1. *)
Definition find (c : ascii) (s : string) : Z :=
  match index_of c s with Some i => Z.of_nat i | None => (-1)%Z end.

Definition rfind (c : ascii) (s : string) : Z :=
  match rindex_of c s with Some i => Z.of_nat i | None => (-1)%Z end.

(** [s.lower()] on the Latin-1 range. *)
Definition lower_char (c : ascii) : ascii :=
  let n := nat_of_ascii c in
  if ((65 <=? n) && (n <=? 90))
     || ((192 <=? n) && (n <=? 222) && negb (n =? 215))
  then ascii_of_nat (n + 32) else c.

Fixpoint lower (s : string) : string :=
  match s with
  | EmptyString => EmptyString
  | String c r => String (lower_char c) (lower r)
  end.

(** [str(n)] for integers. *)
Definition of_nat (n : nat) : string := NilEmpty.string_of_uint (Nat.to_uint n).
Definition of_Z (z : Z) : string := NilEmpty.string_of_int (Z.to_int z).

(** [bool(s)]: a string is truthy when it is not empty. *)
Definition nonempty (s : string) : bool :=
  match s with EmptyString => false | _ => true end.

(** [sep.join(l)] *)
Fixpoint join (sep : string) (l : list string) : string :=
  match l with
  | [] => EmptyString
  | [x] => x
  | x :: r => x +++ sep +++ join sep r
  end.

End Text.

(* ================================================================== *)
(** * generate_block_json_utils.py: candidate extraction *)
(* ================================================================== *)

(** Lines 108-113: the markdown fence is removed only when the text
    starts with it; the closing fence only when the text then ends with it. *)
Definition strip_markdown_fence (text : string) : string :=
  if Text.startswith text "```json" then
    let text := Text.drop 7 text in
    let text := if Text.endswith text "```" then Text.drop_last 3 text else text in
    Text.strip text
  else text.

(** Lines 117-124: slice from the first opening brace to the last closing one. *)
Definition slice_outer_braces (text : string) : string :=
  let first_brace := Text.find "{" text in
  let last_brace := Text.rfind "}" text in
  if negb (first_brace =? -1)%Z && negb (last_brace =? -1)%Z
     && (first_brace <? last_brace)%Z
  then Text.slice first_brace (last_brace + 1) text
  else text.

Definition clean_llm_response_to_json_string (llm_response_text : string) : string :=
  let text := Text.strip llm_response_text in
  let text := strip_markdown_fence text in
  slice_outer_braces text.

(* ================================================================== *)
(** * Python values, dictionaries and the runtime library *)
(* ================================================================== *)

(** The values [json.loads] produces.  [PyNone] is also what a function
    returns when it reports failure with [return None]. *)
Inductive pyval : Type :=
| PyNone
| PyBool (b : bool)
| PyInt (z : Z)
| PyFloat (q : Q)
| PyStr (s : string)
| PyList (l : list pyval)
| PyDict (d : list (string * pyval)).

(** [bool(v)] *)
Definition truthy (v : pyval) : bool :=
  match v with
  | PyNone => false
  | PyBool b => b
  | PyInt z => negb (z =? 0)%Z
  | PyFloat q => negb (Qeq_bool q 0)
  | PyStr s => Text.nonempty s
  | PyList l => match l with [] => false | _ :: _ => true end
  | PyDict d => match d with [] => false | _ :: _ => true end
  end.

(** [type(v).__name__], as it stands in the message of an AttributeError. *)
Definition type_name (v : pyval) : string :=
  match v with
  | PyNone => "NoneType"
  | PyBool _ => "bool"
  | PyInt _ => "int"
  | PyFloat _ => "float"
  | PyStr _ => "str"
  | PyList _ => "list"
  | PyDict _ => "dict"
  end.

(** Insertion-ordered dictionaries: an association list that holds a key
    at most once.  Assigning to a present key keeps its position. *)
Section OrderedDict.
Context {K V : Type}.
Variable key_eqb : K -> K -> bool.

Fixpoint od_get (k : K) (d : list (K * V)) : option V :=
  match d with
  | [] => None
  | (k', v) :: r => if key_eqb k' k then Some v else od_get k r
  end.

Fixpoint od_set (k : K) (v : V) (d : list (K * V)) : list (K * V) :=
  match d with
  | [] => [(k, v)]
  | (k', v') :: r =>
      if key_eqb k' k then (k', v) :: r else (k', v') :: od_set k v r
  end.

Definition od_has (k : K) (d : list (K * V)) : bool :=
  match od_get k d with Some _ => true | None => false end.

Definition od_remove (k : K) (d : list (K * V)) : list (K * V) :=
  filter (fun kv => negb (key_eqb (fst kv) k)) d.
End OrderedDict.

Definition dict := list (string * pyval).
Definition dict_get : string -> dict -> option pyval := od_get String.eqb.
Definition dict_set : string -> pyval -> dict -> dict := od_set String.eqb.
Definition dict_has : string -> dict -> bool := od_has String.eqb.
Definition dict_keys (d : dict) : list string := map fst d.

(** [d.get(k)] and [d.get(k, default)] *)
Definition dict_get_default (k : string) (default : pyval) (d : dict) : pyval :=
  match dict_get k d with Some v => v | None => default end.

(** [d.update(other)] for a dictionary [other]. *)
Definition dict_update (d other : dict) : dict :=
  fold_left (fun acc kv => dict_set (fst kv) (snd kv) acc) other d.

(** Exceptions: the class decides which [except] clause takes it, the
    message is [str(e)]. *)
Inductive exn_class :=
| TypeError | AttributeError | KeyError | ValueError | UnboundLocalError
| JSONDecodeError | ImportError | OSError | FileNotFoundError
| PermissionError | RuntimeError.

Record exn := mk_exn { exn_cls : exn_class; exn_msg : string }.

Inductive result (A : Type) : Type :=
| Ret (a : A)
| Raise (e : exn).
Arguments Ret {A} a.
Arguments Raise {A} e.

Definition is_PermissionError (e : exn) : bool :=
  match exn_cls e with PermissionError => true | _ => false end.

(** Words and blocks of image_processing_utils.py. *)
Definition point : Type := Q * Q.
Definition rect : Type := point * point.
Definition color : Type := Z * Z * Z.

Record word_tuple := mk_word {
  x0 : Q; y0 : Q; x1 : Q; y1 : Q;
  word : string; block_no : Z; line_no : Z; word_no : Z
}.

Record block := mk_block {
  text : string;
  words : list string;
  bounding_boxes : list rect
}.

Definition block_table := list (Z * block).

(** What [json.dump] writes for a block table: integer keys become their
    decimal text, tuples become arrays. *)
Definition rect_to_json (r : rect) : pyval :=
  PyList [PyList [PyFloat (fst (fst r)); PyFloat (snd (fst r))];
          PyList [PyFloat (fst (snd r)); PyFloat (snd (snd r))]].

Definition block_to_json (b : block) : pyval :=
  PyDict [("text", PyStr (text b));
          ("words", PyList (map PyStr (words b)));
          ("bounding_boxes", PyList (map rect_to_json (bounding_boxes b)))].

Definition block_details_to_json (bd : block_table) : pyval :=
  PyDict (map (fun kb => (Text.of_Z (fst kb), block_to_json (snd kb))) bd).

(** The library functions the code calls and this development leaves to
    the Python runtime. *)
Class PyRuntime := {
  (** [json.loads] on text; [None] stands for [JSONDecodeError]. *)
  json_loads : string -> option pyval;
  (** [json.dumps] *)
  json_dumps : pyval -> string;
  (** [repr] of a float, a list or a dictionary inside an f-string. *)
  py_repr : pyval -> string;
  (** the f-string rendering of a block table that was not serialised. *)
  py_repr_blocks : block_table -> string;
  (** [d.update(v)] for a truthy [v] that is no dictionary (the pair
      protocol); [None] stands for the [TypeError] or [ValueError]. *)
  dict_update_iterable : dict -> pyval -> option dict;
  os_path_join : string -> string -> string;
  (** first component of [os.path.splitext] *)
  os_path_splitext_root : string -> string;
  b64encode : string -> string
}.

(* ================================================================== *)
(** * The world: files, log, clock and provider calls *)
(* ================================================================== *)

Inductive file_content :=
| FileBytes (b : string)            (** written in binary mode *)
| FileJson (indent : nat) (v : pyval) (** written by [json.dump(v, f, indent)] *).

Inductive log_level := INFO | WARNING | ERROR.

Record world := mk_world {
  files : list (string * file_content);
  logs : list (log_level * string);
  sleeps : list Z;
  llm_calls : list string
}.

Definition world0 : world := mk_world [] [] [] [].

(** A state-and-exception monad: the world survives a raised exception. *)
Definition M (A : Type) : Type := world -> result A * world.

Definition ret {A} (a : A) : M A := fun w => (Ret a, w).
Definition raise {A} (e : exn) : M A := fun w => (Raise e, w).
Definition lift {A} (r : result A) : M A := fun w => (r, w).

Definition bind {A B} (m : M A) (k : A -> M B) : M B :=
  fun w =>
    match m w with
    | (Ret a, w') => k a w'
    | (Raise e, w') => (Raise e, w')
    end.

Notation "x <- m ;; k" := (bind m (fun x => k))
  (at level 61, m at next level, right associativity).
Notation "m ;;; k" := (bind m (fun _ => k))
  (at level 61, right associativity).

(** [logger.info], [logger.warning], [logger.error] of the service module. *)
Definition log (lvl : log_level) (msg : string) : M unit :=
  fun w => (Ret tt, mk_world (files w) (logs w ++ [(lvl, msg)]) (sleeps w) (llm_calls w)).

(** [time.sleep(seconds)] *)
Definition sleep (seconds : Z) : M unit :=
  fun w => (Ret tt, mk_world (files w) (logs w) (sleeps w ++ [seconds]) (llm_calls w)).

Definition set_files (fs : list (string * file_content)) : M unit :=
  fun w => (Ret tt, mk_world fs (logs w) (sleeps w) (llm_calls w)).

Definition file_get : string -> list (string * file_content) -> option file_content :=
  od_get String.eqb.
Definition file_set : string -> file_content -> list (string * file_content)
                      -> list (string * file_content) :=
  od_set String.eqb.
Definition file_remove : string -> list (string * file_content)
                         -> list (string * file_content) :=
  od_remove String.eqb.

(** What one call of [model.generate_content] comes to. *)
Inductive provider_outcome :=
| ProviderRaises (e : exn)   (** the call, or reading [response.text], raises *)
| ProviderEmpty              (** no candidate, or a candidate with no part *)
| ProviderText (raw_response_text : string).

(** One page of the opened document. *)
Record page := mk_page {
  page_words : list word_tuple;   (** [page.get_text(words)] *)
  page_samples : string;         (** [page.get_pixmap().samples] *)
  page_png : string              (** [pix.tobytes(png)] *)
}.

(** The speech-synthesis client: one oracle per output format.  A call of
    [synthesize_speech] may raise; when it returns, reading the stream of
    its response may raise. *)
Record polly := mk_polly {
  (** [synthesize_speech(OutputFormat=mp3, ...)]: the call (lines 63-69),
      and what [AudioStream.read()] of its response gives once the audio
      file is open (line 72) *)
  synthesize_audio : pyval -> string -> result (result string);
  (** [synthesize_speech(OutputFormat=json, SpeechMarkTypes=[word])] and
      the lines read from the stream of its response (lines 75-87), both
      before the marks file is opened *)
  synthesize_marks : pyval -> string -> result (list string)
}.

(** The uploaded document. *)
Record upload := mk_upload {
  filename : string;
  read : result string
}.

(** What the outside of the process answers during one request. *)
Record environment := mk_env {
  (** [datetime.now().strftime(...)] *)
  now : string;
  (** [os.makedirs(path, exist_ok=True)] raising, by path *)
  makedirs_error : string -> option exn;
  (** [tempfile.NamedTemporaryFile(delete=False, suffix=.pdf)]: its name *)
  named_temporary_file : result string;
  (** [open(path, w)] or the write raising, by path *)
  open_error : string -> option exn;
  (** [os.remove(path)] raising, by path *)
  remove_error : string -> option exn;
  (** [fitz.open] on the bytes of the document *)
  fitz_open : string -> result (list page);
  (** [random.randint(0, 255)] three times, by block id *)
  palette_draw : Z -> color;
  (** the import and [Part.from_data(...)] of lines 137-144 raising *)
  part_from_data_error : string -> option exn;
  (** [GenerativeModel(...)] of lines 154-158 raising *)
  generative_model_error : option exn;
  (** the n-th call of [model.generate_content], by prompt *)
  generate_content : nat -> string -> provider_outcome;
  (** the instruction text around the block data (lines 36-95 and 97-98) *)
  prompt_preamble : string;
  prompt_closing : string;
  (** the module-level [polly_client] *)
  polly_client : option polly
}.

(** [with open(path, mode) as f: ...] writing [content]. *)
Definition write_file (env : environment) (path : string) (content : file_content) : M unit :=
  fun w =>
    match open_error env path with
    | Some e => (Raise e, w)
    | None => set_files (file_set path content (files w)) w
    end.

(* ================================================================== *)
(** * image_processing_utils.py *)
(* ================================================================== *)

(** A PIL image: the raster it was built from and what was drawn on it. *)
Inductive draw_cmd :=
| DrawRectangle (r : rect) (outline : color) (width : Z)
| DrawText (position : point) (label : string) (fill : color).

Record image := mk_image {
  raster : string;
  drawn : list draw_cmd
}.

Definition draw (c : draw_cmd) (img : image) : image :=
  mk_image (raster img) (drawn img ++ [c]).

Definition os_makedirs (env : environment) (path : string) : M unit :=
  fun w =>
    match makedirs_error env path with
    | Some e => (Raise e, w)
    | None => (Ret tt, w)
    end.

(** [fitz.open(pdf_path)]: the document is read back from the file. *)
Definition open_document (env : environment) (pdf_path : string) : M (list page) :=
  fun w =>
    match file_get pdf_path (files w) with
    | Some (FileBytes b) => (fitz_open env b, w)
    | _ => (Raise (mk_exn FileNotFoundError pdf_path), w)
    end.

Definition load_page (pdf : list page) (page_number : nat) : result page :=
  match nth_error pdf page_number with
  | Some pg => Ret pg
  | None => Raise (mk_exn ValueError "page not in document")
  end.

Section WithRuntime.
Context {RT : PyRuntime}.

Definition extract_page_as_base64 (env : environment)
    (pdf_path : string) (page_number : nat) (output_dir output_name : string)
  : M (string * string * page) :=
  os_makedirs env output_dir ;;;
  pdf_document <- open_document env pdf_path ;;
  pg <- lift (load_page pdf_document page_number) ;;
  let image_bytes := page_png pg in
  let base64_image_string := b64encode image_bytes in
  let image_path :=
    os_path_join output_dir
      (output_name +++ "_page_" +++ Text.of_nat page_number +++ ".png") in
  write_file env image_path (FileBytes image_bytes) ;;;
  ret (base64_image_string, image_path, pg).

Definition bd_get : Z -> block_table -> option block := od_get Z.eqb.
Definition bd_set : Z -> block -> block_table -> block_table := od_set Z.eqb.
Definition bd_has : Z -> block_table -> bool := od_has Z.eqb.
Definition palette_get : Z -> list (Z * color) -> option color := od_get Z.eqb.

(** Lines 35-37 of the loop body: the word is added to its block. *)
Definition add_word (word_info : word_tuple) (r : rect) (b : block) : block :=
  mk_block (text b +++ word word_info +++ " ")
           (words b ++ [word word_info])
           (bounding_boxes b ++ [r]).

(** The loop of lines 29-43 over the words. *)
Fixpoint annotate_words (ws : list word_tuple) (color_palette : list (Z * color))
    (img : image) (block_details : block_table)
  : result (image * block_table) :=
  match ws with
  | [] => Ret (img, block_details)
  | word_info :: rest =>
      let r : rect := ((x0 word_info, y0 word_info), (x1 word_info, y1 word_info)) in
      match palette_get (block_no word_info) color_palette with
      | None => Raise (mk_exn KeyError (Text.of_Z (block_no word_info)))
      | Some color =>
          let img := draw (DrawRectangle r color 2) img in
          let block_details :=
            if bd_has (block_no word_info) block_details then block_details
            else bd_set (block_no word_info) (mk_block EmptyString [] []) block_details in
          let block_details :=
            match bd_get (block_no word_info) block_details with
            | Some b => bd_set (block_no word_info) (add_word word_info r b) block_details
            | None => block_details
            end in
          let img :=
            if (word_no word_info =? 0)%Z && (line_no word_info =? 0)%Z then
              draw (DrawText (x0 word_info, (y0 word_info - 15)%Q)
                             ("Block " +++ Text.of_Z (block_no word_info)) color) img
            else img in
          annotate_words rest color_palette img block_details
      end
  end.

(** Lines 45-46: every block text is stripped. *)
Definition strip_block (b : block) : block :=
  mk_block (Text.strip (text b)) (words b) (bounding_boxes b).

Definition annotate_image_with_words (img : image) (ws : list word_tuple)
    (color_palette : list (Z * color)) (block_details : block_table)
  : result (image * block_table) :=
  match annotate_words ws color_palette img block_details with
  | Raise e => Raise e
  | Ret (img, block_details) =>
      Ret (img, map (fun kb => (fst kb, strip_block (snd kb))) block_details)
  end.

Definition generate_color_palette (env : environment) (block_numbers : list Z)
  : list (Z * color) :=
  map (fun block_no => (block_no, palette_draw env block_no)) block_numbers.

(* ================================================================== *)
(** * generate_block_json_utils.py: enrichment *)
(* ================================================================== *)

Definition MAX_RETRIES : nat := 3.
Definition RETRY_DELAY_SECONDS : Z := 2.
Definition OUTPUT_CHUNK_SIZE : Z := 1.

(** What a caller hands over as [blocks_input_json_str]: the annotation
    asks for JSON text, the service passes its block table itself. *)
Inductive blocks_input :=
| InputText (s : string)
| InputTable (block_details : block_table).

(** [json.loads(x)]: anything that is not text is refused with TypeError,
    undecodable text with JSONDecodeError. *)
Definition py_json_loads (x : blocks_input) : result pyval :=
  match x with
  | InputText s =>
      match json_loads s with
      | Some v => Ret v
      | None => Raise (mk_exn JSONDecodeError "Expecting value")
      end
  | InputTable _ =>
      Raise (mk_exn TypeError
               "the JSON object must be str, bytes or bytearray, not dict")
  end.

(** How an f-string renders a value. *)
Definition py_str (v : pyval) : string :=
  match v with
  | PyStr s => s
  | PyNone => "None"
  | PyBool true => "True"
  | PyBool false => "False"
  | PyInt z => Text.of_Z z
  | _ => py_repr v
  end.

Definition blocks_input_str (x : blocks_input) : string :=
  match x with
  | InputText s => s
  | InputTable block_details => py_repr_blocks block_details
  end.

Definition construct_gemini_prompt (env : environment) (blocks_json_str : string) : string :=
  prompt_preamble env +++ blocks_json_str +++ prompt_closing env.

(** The record written for one block by lines 264-271. *)
Definition fallback_block (block_data : dict) : pyval :=
  PyDict [("text", dict_get_default "text" (PyStr EmptyString) block_data);
          ("words", dict_get_default "words" (PyList []) block_data);
          ("bounding_boxes", dict_get_default "bounding_boxes" (PyList []) block_data);
          ("ssml", PyStr ("<speak><prosody rate='slow'>"
                          +++ py_str (dict_get_default "text" (PyStr EmptyString) block_data)
                          +++ "</prosody></speak>"));
          ("dialog", PyStr "false");
          ("person_type", PyStr "null")].

(** The loop of lines 263-271; [None] when a block record has no [get]
    (AttributeError). *)
Fixpoint fallback_loop (items : dict) (fallback_output : dict) : option dict :=
  match items with
  | [] => Some fallback_output
  | (block_id, block_data) :: rest =>
      match block_data with
      | PyDict bdata =>
          fallback_loop rest (dict_set block_id (fallback_block bdata) fallback_output)
      | _ => None
      end
  end.

(** Both [except] clauses return [None]. *)
Definition create_fallback_block_json (blocks_input_json_str : blocks_input) : pyval :=
  match py_json_loads blocks_input_json_str with
  | Raise _ => PyNone
  | Ret blocks =>
      match blocks with
      | PyDict items =>
          match fallback_loop items [] with
          | Some fallback_output => PyDict fallback_output
          | None => PyNone
          end
      | _ => PyNone
      end
  end.

(** One call of [model.generate_content]. *)
Definition call_provider (env : environment) (prompt_text : string) : M provider_outcome :=
  fun w =>
    (Ret (generate_content env (List.length (llm_calls w)) prompt_text),
     mk_world (files w) (logs w) (sleeps w) (llm_calls w ++ [prompt_text])).

(** The retry loop of lines 160-224, over [range(MAX_RETRIES)]. *)
Fixpoint attempt_loop (env : environment) (prompt_text : string)
    (attempts : list nat) : M pyval :=
  match attempts with
  | [] => ret PyNone
  | attempt :: rest =>
      response <- call_provider env prompt_text ;;
      match response with
      | ProviderEmpty =>
          sleep RETRY_DELAY_SECONDS ;;;
          attempt_loop env prompt_text rest
      | ProviderText raw_response_text =>
          let cleaned_json_string := clean_llm_response_to_json_string raw_response_text in
          if negb (Text.nonempty cleaned_json_string) then
            sleep RETRY_DELAY_SECONDS ;;;
            attempt_loop env prompt_text rest
          else
            match json_loads cleaned_json_string with
            | Some parsed_json => ret parsed_json
            | None =>
                if attempt <? MAX_RETRIES - 1 then
                  sleep RETRY_DELAY_SECONDS ;;;
                  attempt_loop env prompt_text rest
                else ret PyNone
            end
      | ProviderRaises _ =>
          if attempt <? MAX_RETRIES - 1 then
            sleep RETRY_DELAY_SECONDS ;;;
            attempt_loop env prompt_text rest
          else ret PyNone
      end
  end.

Definition generate_block_json (env : environment) (base64_image_string : string)
    (blocks_input_json_str : blocks_input) : M pyval :=
  match part_from_data_error env base64_image_string with
  | Some _ => ret (create_fallback_block_json blocks_input_json_str)
  | None =>
      let prompt_text :=
        construct_gemini_prompt env (blocks_input_str blocks_input_json_str) in
      match generative_model_error env with
      | Some e => raise e
      | None => attempt_loop env prompt_text (seq 0 MAX_RETRIES)
      end
  end.

(** [range(0, n, step)] *)
Definition py_range_step (n : nat) (step : Z) : result (list nat) :=
  if (step =? 0)%Z then Raise (mk_exn ValueError "range() arg 3 must not be zero")
  else if (step <? 0)%Z then Ret []
  else
    let k := Z.to_nat step in
    Ret (map (fun j => j * k) (seq 0 ((n + k - 1) / k))).

(** [block_keys[i : i + chunk_size]] for a positive [chunk_size]. *)
Definition chunk_keys_at (block_keys : list string) (i : nat) (chunk_size : Z) : list string :=
  firstn (Z.to_nat chunk_size) (skipn i block_keys).

(** [{key: all_blocks[key] for key in chunk_keys}] *)
Definition current_chunk_of (all_blocks : dict) (chunk_keys : list string) : dict :=
  fold_left
    (fun acc key =>
       match dict_get key all_blocks with
       | Some v => dict_set key v acc
       | None => acc
       end)
    chunk_keys [].

(** [final_output.update(processed_chunk)] for a truthy [processed_chunk]. *)
Definition update_final_output (final_output : dict) (processed_chunk : pyval) : option dict :=
  match processed_chunk with
  | PyDict d => Some (dict_update final_output d)
  | _ => dict_update_iterable final_output processed_chunk
  end.

(** The loop of lines 233-243.  [Ret None] is the early [return None]. *)
Fixpoint chunk_loop (env : environment) (base64_image_string : string)
    (all_blocks : dict) (block_keys : list string) (chunk_size : Z)
    (starts : list nat) (final_output : dict) : M (option dict) :=
  match starts with
  | [] => ret (Some final_output)
  | i :: rest =>
      let chunk_keys := chunk_keys_at block_keys i chunk_size in
      let current_chunk := current_chunk_of all_blocks chunk_keys in
      let chunk_json_str := json_dumps (PyDict current_chunk) in
      processed_chunk <- generate_block_json env base64_image_string (InputText chunk_json_str) ;;
      if truthy processed_chunk then
        match update_final_output final_output processed_chunk with
        | Some final_output =>
            chunk_loop env base64_image_string all_blocks block_keys chunk_size rest final_output
        | None => raise (mk_exn TypeError "cannot convert dictionary update sequence element")
        end
      else ret None
  end.

(** The [try] of lines 228-252: every exception ends in [return None]. *)
Definition chunk_and_process_json (env : environment) (base64_image_string : string)
    (blocks_input_json_str : string) (chunk_size : Z) : M pyval :=
  fun w =>
    match json_loads blocks_input_json_str with
    | None => (Ret PyNone, w)
    | Some (PyDict all_blocks) =>
        let block_keys := dict_keys all_blocks in
        match py_range_step (List.length block_keys) chunk_size with
        | Raise _ => (Ret PyNone, w)
        | Ret starts =>
            match chunk_loop env base64_image_string all_blocks block_keys
                             chunk_size starts [] w with
            | (Ret (Some final_output), w') => (Ret (PyDict final_output), w')
            | (Ret None, w') => (Ret PyNone, w')
            | (Raise _, w') => (Ret PyNone, w')
            end
        end
    | Some _ => (Ret PyNone, w)
    end.

(* ================================================================== *)
(** * saving_utils.py *)
(* ================================================================== *)

Definition PERSON_TYPE_TO_VOICE : list (string * string) :=
  [("young boy", "Justin"); ("old man", "Matthew"); ("young girl", "Ivy");
   ("old woman", "Kimberly"); ("middle aged man", "Joey");
   ("middle aged woman", "Joanna")].

(** The key under which the service files a block: a dictionary key, or
    the position [enumerate] gives. *)
Inductive py_key :=
| KeyStr (s : string)
| KeyInt (n : nat).

Definition key_str (k : py_key) : string :=
  match k with KeyStr s => s | KeyInt n => Text.of_nat n end.

Definition key_eqb (a b : py_key) : bool :=
  match a, b with
  | KeyStr s, KeyStr t => String.eqb s t
  | KeyInt n, KeyInt m => Nat.eqb n m
  | _, _ => false
  end.

Definition save_annotated_image (output_dir output_name : string) (page_number : nat) : string :=
  os_path_join output_dir
    (output_name +++ "_annotated_page_" +++ Text.of_nat page_number +++ "_blocks.png").

Definition save_block_details_as_json (env : environment) (block_details : block_table)
    (output_dir output_name : string) (page_number : nat) : M string :=
  let json_path :=
    os_path_join output_dir
      (output_name +++ "_page_" +++ Text.of_nat page_number +++ "_blocks.json") in
  write_file env json_path (FileJson 4 (block_details_to_json block_details)) ;;;
  ret json_path.

(** [s in container] for a string [s]. *)
Definition py_contains_str (s : string) (container : pyval) : result bool :=
  match container with
  | PyDict d => Ret (dict_has s d)
  | PyList l =>
      Ret (existsb (fun v => match v with PyStr t => String.eqb t s | _ => false end) l)
  | PyStr t => Ret (match String.index 0 s t with Some _ => true | None => false end)
  | _ => Raise (mk_exn TypeError "argument is not iterable")
  end.

(** [block_json[key][timing] = marks] *)
Definition set_timing (block_json : pyval) (key : string) (marks : pyval) : result pyval :=
  match block_json with
  | PyDict d =>
      match dict_get key d with
      | Some (PyDict record) =>
          Ret (PyDict (dict_set key (PyDict (dict_set "timing" marks record)) d))
      | Some _ => Raise (mk_exn TypeError "object does not support item assignment")
      | None => Raise (mk_exn KeyError key)
      end
  | _ => Raise (mk_exn TypeError "indices must be integers")
  end.

(** Lines 54-55 and 99-100: the guarded update of the caller's mapping. *)
Definition add_timing (block_json : pyval) (block_key : py_key) (marks : pyval) : result pyval :=
  match py_contains_str (key_str block_key) block_json with
  | Raise e => Raise e
  | Ret true => set_timing block_json (key_str block_key) marks
  | Ret false => Ret block_json
  end.

(** Line 60: the voice of a speaker category. *)
Definition resolve_voice (person_type : pyval) : result string :=
  if truthy person_type then
    match person_type with
    | PyStr s =>
        Ret (match od_get String.eqb (Text.lower s) PERSON_TYPE_TO_VOICE with
             | Some voice => voice
             | None => "Joanna"
             end)
    | _ => Raise (mk_exn AttributeError
                    ("'" +++ type_name person_type
                     +++ "' object has no attribute 'lower'"))
    end
  else Ret "Joanna".

(** Lines 85-91: undecodable lines of the mark stream are skipped. *)
Fixpoint parse_speech_marks (lines : list string) : list pyval :=
  match lines with
  | [] => []
  | line :: rest =>
      match json_loads (Text.strip line) with
      | Some mark => mark :: parse_speech_marks rest
      | None => parse_speech_marks rest
      end
  end.

(** Lines 71-72: [with open(path, wb) as f: f.write(stream.read())].  The
    file is opened, and so created or emptied, before the stream is read:
    a stream that cannot be read leaves an empty file. *)
Definition write_stream (env : environment) (path : string) (stream : result string)
  : M unit :=
  match stream with
  | Ret bytes => write_file env path (FileBytes bytes)
  | Raise e => write_file env path (FileBytes EmptyString) ;;; raise e
  end.

(** Returns the two paths, and the caller's [block_json] as it is after
    the call. *)
Definition save_audio_and_speech_marks (env : environment) (polly_client : option polly)
    (block_id : string) (ssml_output : pyval) (output_dir : string)
    (person_type : pyval) (block_json : pyval) (block_key : py_key)
  : M (string * string * pyval) :=
  match polly_client with
  | None =>
      let audio_path := os_path_join output_dir ("block_" +++ block_id +++ "_audio.mp3") in
      let speech_marks_path :=
        os_path_join output_dir ("block_" +++ block_id +++ "_speech_marks.json") in
      write_file env audio_path (FileBytes EmptyString) ;;;
      write_file env speech_marks_path (FileJson 4 (PyList [])) ;;;
      block_json <- lift (add_timing block_json block_key (PyList [])) ;;
      ret (audio_path, speech_marks_path, block_json)
  | Some client =>
      voice_id <- lift (resolve_voice person_type) ;;
      audio_response <- lift (synthesize_audio client ssml_output voice_id) ;;
      let audio_path := os_path_join output_dir ("block_" +++ block_id +++ "_audio.mp3") in
      write_stream env audio_path audio_response ;;;
      stream <- lift (synthesize_marks client ssml_output voice_id) ;;
      let speech_marks := parse_speech_marks stream in
      let speech_marks_path :=
        os_path_join output_dir ("block_" +++ block_id +++ "_speech_marks.json") in
      write_file env speech_marks_path (FileJson 4 (PyList speech_marks)) ;;;
      block_json <- lift (add_timing block_json block_key (PyList speech_marks)) ;;
      ret (audio_path, speech_marks_path, block_json)
  end.

(* ================================================================== *)
(** * tts_service.py *)
(* ================================================================== *)

Record page_result := mk_page_result {
  page_number : nat;
  annotated_image_path : string;
  json_path : string;
  vertex_trimmed_path : string;
  metadata_path : string
}.

(** The dictionary the request returns; a key the dictionary does not
    hold is [None] here. *)
Record request_result := mk_request_result {
  status : string;
  message : string;
  results : option (list page_result);
  errors : option (list (string * string))
}.

Definition audio_metadata_t := list (py_key * (string * string)).

Definition audio_metadata_to_json (audio_metadata : audio_metadata_t) : pyval :=
  PyDict (map (fun e => (key_str (fst e),
                         PyDict [("audio_path", PyStr (fst (snd e)));
                                 ("speech_marks_path", PyStr (snd (snd e)))]))
              audio_metadata).

(** Line 83: [block_json.items()] for a dictionary, [enumerate(block_json)]
    otherwise; the keys that the loop will visit. *)
Definition entry_keys (block_json : pyval) : result (list py_key) :=
  match block_json with
  | PyDict d => Ret (map KeyStr (dict_keys d))
  | PyList l => Ret (map KeyInt (seq 0 (List.length l)))
  | PyStr s => Ret (map KeyInt (seq 0 (String.length s)))
  | PyNone => Raise (mk_exn TypeError "'NoneType' object is not iterable")
  | PyBool _ => Raise (mk_exn TypeError "'bool' object is not iterable")
  | PyInt _ => Raise (mk_exn TypeError "'int' object is not iterable")
  | PyFloat _ => Raise (mk_exn TypeError "'float' object is not iterable")
  end.

(** The [data] bound to a key of the iteration. *)
Definition entry_data (block_json : pyval) (k : py_key) : option pyval :=
  match block_json, k with
  | PyDict d, KeyStr s => dict_get s d
  | PyList l, KeyInt i => nth_error l i
  | PyStr s, KeyInt i =>
      match String.get i s with
      | Some c => Some (PyStr (String c EmptyString))
      | None => None
      end
  | _, _ => None
  end.

Definition trimmed_blocks_path (output_dir fname : string) (page_number : nat) : string :=
  os_path_join output_dir
    (fname +++ "_page_" +++ Text.of_nat page_number +++ "_trimmed_blocks.json").

(** The loop of lines 85-103.  [vertex_path] is the function's local
    variable: [None] while it is unbound.  The keys are those of
    [entry_keys block_json], for which [entry_data] is never [None]. *)
Fixpoint blocks_loop (env : environment) (output_dir fname : string) (page_number : nat)
    (keys : list py_key) (block_json : pyval) (audio_metadata : audio_metadata_t)
    (vertex_path : option string)
  : M (pyval * audio_metadata_t * option string) :=
  match keys with
  | [] => ret (block_json, audio_metadata, vertex_path)
  | block_id :: rest =>
      match entry_data block_json block_id with
      | Some (PyDict data) =>
          let ssml := dict_get_default "ssml" PyNone data in
          if negb (truthy ssml) then
            log WARNING ("No SSML found for block " +++ key_str block_id
                         +++ " on page " +++ Text.of_nat page_number) ;;;
            blocks_loop env output_dir fname page_number rest
                        block_json audio_metadata vertex_path
          else
            saved <- save_audio_and_speech_marks env (polly_client env)
                       (Text.of_nat page_number +++ "_" +++ key_str block_id)
                       ssml output_dir (dict_get_default "person_type" PyNone data)
                       block_json block_id ;;
            let audio_path := fst (fst saved) in
            let marks_path := snd (fst saved) in
            let block_json := snd saved in
            let vertex_path := trimmed_blocks_path output_dir fname page_number in
            write_file env vertex_path (FileJson 4 block_json) ;;;
            log INFO ("Saved trimmed block JSON for page " +++ Text.of_nat page_number) ;;;
            let audio_metadata := od_set key_eqb block_id (audio_path, marks_path) audio_metadata in
            log INFO ("Saved audio and speech marks for block " +++ key_str block_id
                      +++ " on page " +++ Text.of_nat page_number) ;;;
            blocks_loop env output_dir fname page_number rest
                        block_json audio_metadata (Some vertex_path)
      | Some data =>
          raise (mk_exn AttributeError
                   ("'" +++ type_name data +++ "' object has no attribute 'get'"))
      | None => raise (mk_exn KeyError (key_str block_id))
      end
  end.

(** [set(w[5] for w in words)] *)
Definition block_id_set (ws : list word_tuple) : list Z :=
  nodup Z.eq_dec (map block_no ws).

(** The body of the page loop, lines 48-117.  Returns the binding of
    [vertex_path] and the page descriptor. *)
Definition process_page (env : environment) (pdf_file : upload)
    (pdf_path output_dir : string) (pdf : list page) (page_number : nat)
    (vertex_path : option string) : M (option string * page_result) :=
  pg <- lift (load_page pdf page_number) ;;
  let ws := page_words pg in
  let img := mk_image (page_samples pg) [] in
  extracted <- extract_page_as_base64 env pdf_path page_number output_dir (filename pdf_file) ;;
  let base64_img := fst (fst extracted) in
  let image_path := snd (fst extracted) in
  log INFO ("Saved base64 and image for page " +++ Text.of_nat page_number
            +++ ": " +++ image_path) ;;;
  let block_ids := block_id_set ws in
  let color_palette := generate_color_palette env block_ids in
  annotated <- lift (annotate_image_with_words img ws color_palette []) ;;
  let block_details := snd annotated in
  let annotated_image_path := save_annotated_image output_dir (filename pdf_file) page_number in
  json_path <- save_block_details_as_json env block_details output_dir
                 (filename pdf_file) page_number ;;
  log INFO ("Saved annotated image and block details for page "
            +++ Text.of_nat page_number) ;;;
  block_json <- generate_block_json env base64_img (InputTable block_details) ;;
  keys <- lift (entry_keys block_json) ;;
  looped <- blocks_loop env output_dir (filename pdf_file) page_number keys block_json [] vertex_path ;;
  let audio_metadata := snd (fst looped) in
  let vertex_path := snd looped in
  let metadata_path :=
    os_path_join output_dir
      ("page_" +++ Text.of_nat page_number +++ "_audio_speech_marks_metadata.json") in
  write_file env metadata_path (FileJson 4 (audio_metadata_to_json audio_metadata)) ;;;
  log INFO ("Saved metadata for page " +++ Text.of_nat page_number) ;;;
  match vertex_path with
  | None =>
      raise (mk_exn UnboundLocalError
               "cannot access local variable 'vertex_path' where it is not associated with a value")
  | Some vp =>
      ret (vertex_path,
           mk_page_result page_number annotated_image_path json_path vp metadata_path)
  end.

(** [for page_number in range(len(pdf))] *)
Fixpoint pages_loop (env : environment) (pdf_file : upload)
    (pdf_path output_dir : string) (pdf : list page) (page_numbers : list nat)
    (vertex_path : option string) (results : list page_result)
  : M (list page_result) :=
  match page_numbers with
  | [] => ret results
  | page_number :: rest =>
      done <- process_page env pdf_file pdf_path output_dir pdf page_number vertex_path ;;
      pages_loop env pdf_file pdf_path output_dir pdf rest (fst done) (results ++ [snd done])
  end.

(** Lines 36-117, once the temporary file has its name. *)
Definition request_pages (env : environment) (pdf_file : upload)
    (output_dir pdf_path : string) : M (list page_result) :=
  data <- lift (read pdf_file) ;;
  write_file env pdf_path (FileBytes data) ;;;
  log INFO ("Saved temporary PDF: " +++ pdf_path) ;;;
  pdf <- open_document env pdf_path ;;
  pages_loop env pdf_file pdf_path output_dir pdf (seq 0 (List.length pdf)) None [].

(** [tempfile.NamedTemporaryFile(delete=False, suffix=.pdf)]: the file
    exists, empty, from then on. *)
Definition new_temp_file (env : environment) : M string :=
  fun w =>
    match named_temporary_file env with
    | Raise e => (Raise e, w)
    | Ret name => (Ret name, snd (set_files (file_set name (FileBytes EmptyString) (files w)) w))
    end.

Definition output_dir_of (env : environment) (pdf_file : upload) : string :=
  let book_name := os_path_splitext_root (filename pdf_file) in
  os_path_join "output" (book_name +++ "-" +++ now env).

(** The [try] block, lines 29-117: what it comes to, and the binding of
    [temp_pdf] when it is left. *)
Definition request_try (env : environment) (pdf_file : upload) (w : world)
  : result (list page_result) * option string * world :=
  let output_dir := output_dir_of env pdf_file in
  match (os_makedirs env output_dir ;;;
         log INFO ("Created output directory: " +++ output_dir)) w with
  | (Raise e, w1) => (Raise e, None, w1)
  | (Ret _, w1) =>
      match new_temp_file env w1 with
      | (Raise e, w2) => (Raise e, None, w2)
      | (Ret name, w2) =>
          let '(r, w3) := request_pages env pdf_file output_dir name w2 in
          (r, Some name, w3)
      end
  end.

(** The [return] of lines 119-123 and the handler of lines 125-131. *)
Definition request_outcome (r : result (list page_result)) : M request_result :=
  match r with
  | Ret page_results =>
      ret (mk_request_result "success"
             ("Processed " +++ Text.of_nat (List.length page_results) +++ " page(s).")
             (Some page_results) None)
  | Raise e =>
      log ERROR ("Exception in process_tts_request: " +++ exn_msg e) ;;;
      ret (mk_request_result "error" (exn_msg e) None
             (Some [("process_tts_request", exn_msg e)]))
  end.

Definition os_remove (env : environment) (path : string) : M unit :=
  fun w =>
    match remove_error env path with
    | Some e => (Raise e, w)
    | None => set_files (file_remove path (files w)) w
    end.

(** The [finally] clause, lines 133-139. *)
Definition request_finally (env : environment) (temp_pdf : option string) : M unit :=
  match temp_pdf with
  | None => ret tt
  | Some name =>
      fun w =>
        match os_remove env name w with
        | (Ret _, w') => log INFO ("Deleted temporary PDF file: " +++ name) w'
        | (Raise e, w') =>
            if is_PermissionError e then
              log WARNING ("Failed to delete temp file " +++ name +++ ": " +++ exn_msg e) w'
            else (Raise e, w')
        end
  end.

Definition process_tts_request (env : environment) (pdf_file : upload) : M request_result :=
  fun w =>
    let '(r, temp_pdf, w1) := request_try env pdf_file w in
    let '(pending, w2) := request_outcome r w1 in
    match request_finally env temp_pdf w2 with
    | (Ret _, w3) => (pending, w3)
    | (Raise e, w3) => (Raise e, w3)
    end.

End WithRuntime.

(* ================================================================== *)
(** * tts_controller.py *)
(* ================================================================== *)

(** [HTTPException(status_code, detail)] *)
Record http_exception := mk_http_exception {
  status_code : Z;
  detail : string
}.

(** The route [POST /api/tts_service], lines 9-16: the dictionary of the
    service is the body of the answer; any exception of the service is
    logged and replaced by an HTTP error.  The log of the controller is
    kept with the log of the service. *)
Definition tts_service {RT : PyRuntime} (env : environment) (pdf_file : upload)
  : world -> (request_result + http_exception) * world :=
  fun w =>
    match process_tts_request env pdf_file w with
    | (Ret response_data, w') =>
        (inl response_data,
         snd (log INFO ("TTS processing completed successfully for file: "
                        +++ filename pdf_file) w'))
    | (Raise e, w') =>
        (inr (mk_http_exception 500 "An error occurred during TTS processing."),
         snd (log ERROR ("TTS processing failed for file: " +++ filename pdf_file
                         +++ ". Error: " +++ exn_msg e) w'))
    end.

(* ================================================================== *)
(** * A small runtime, to run the model on concrete inputs *)
(* ================================================================== *)

(** A reader and a writer for JSON without exponents and without unicode
    escapes, the two path functions as posixpath has them, and base64
    encoding.  The
    properties below are stated for every [PyRuntime]; this one only
    instantiates them. *)
Module SmallRuntime.

Definition is_ws (c : ascii) : bool :=
  let n := nat_of_ascii c in (n =? 32) || (n =? 9) || (n =? 10) || (n =? 13).

Fixpoint skip_ws (s : string) : string :=
  match s with
  | EmptyString => EmptyString
  | String c r => if is_ws c then skip_ws r else s
  end.

Definition digit_of (c : ascii) : option Z :=
  let n := nat_of_ascii c in
  if (48 <=? n) && (n <=? 57) then Some (Z.of_nat (n - 48)) else None.

(** Digits read so far, their number, and the rest. *)
Fixpoint read_digits (s : string) (acc : Z) (count : nat) : Z * nat * string :=
  match s with
  | EmptyString => (acc, count, EmptyString)
  | String c r =>
      match digit_of c with
      | Some d => read_digits r (10 * acc + d)%Z (S count)
      | None => (acc, count, s)
      end
  end.

Definition read_number (s : string) : option (pyval * string) :=
  let '(sign, s) :=
    match s with
    | String "-"%char r => ((-1)%Z, r)
    | _ => (1%Z, s)
    end in
  match read_digits s 0%Z 0 with
  | (_, O, _) => None
  | (n, _, String "."%char r) =>
      match read_digits r n 0 with
      | (_, O, _) => None
      | (m, k, rest) =>
          Some (PyFloat (Qmake (sign * m) (Pos.pow 10 (Pos.of_nat k))), rest)
      end
  | (n, _, rest) => Some (PyInt (sign * n), rest)
  end.

Definition unescape (c : ascii) : option ascii :=
  let n := nat_of_ascii c in
  if (n =? 34) || (n =? 92) || (n =? 47) then Some c
  else if n =? 110 then Some (ascii_of_nat 10)
  else if n =? 116 then Some (ascii_of_nat 9)
  else if n =? 114 then Some (ascii_of_nat 13)
  else if n =? 98 then Some (ascii_of_nat 8)
  else if n =? 102 then Some (ascii_of_nat 12)
  else None.

(** The text of a string literal, read after its opening quote. *)
Fixpoint read_string (s : string) : option (string * string) :=
  match s with
  | EmptyString => None
  | String c r =>
      if nat_of_ascii c =? 34 then Some (EmptyString, r)
      else if nat_of_ascii c =? 92 then
        match r with
        | EmptyString => None
        | String e r' =>
            match unescape e, read_string r' with
            | Some ch, Some (body, rest) => Some (String ch body, rest)
            | _, _ => None
            end
        end
      else if nat_of_ascii c <? 32 then None
      else
        match read_string r with
        | Some (body, rest) => Some (String c body, rest)
        | None => None
        end
  end.

Fixpoint read_value (fuel : nat) (s : string) {struct fuel} : option (pyval * string) :=
  match fuel with
  | O => None
  | S fuel =>
      let s := skip_ws s in
      if Text.startswith s "null" then Some (PyNone, Text.drop 4 s)
      else if Text.startswith s "true" then Some (PyBool true, Text.drop 4 s)
      else if Text.startswith s "false" then Some (PyBool false, Text.drop 5 s)
      else
        match s with
        | EmptyString => None
        | String c r =>
            if nat_of_ascii c =? 34 then
              match read_string r with
              | Some (body, rest) => Some (PyStr body, rest)
              | None => None
              end
            else if nat_of_ascii c =? 91 then
              match skip_ws r with
              | String "]"%char rest => Some (PyList [], rest)
              | _ =>
                  match read_items fuel r with
                  | Some (l, rest) => Some (PyList l, rest)
                  | None => None
                  end
              end
            else if nat_of_ascii c =? 123 then
              match skip_ws r with
              | String "}"%char rest => Some (PyDict [], rest)
              | _ =>
                  match read_members fuel r [] with
                  | Some (d, rest) => Some (PyDict d, rest)
                  | None => None
                  end
              end
            else read_number s
        end
  end
with read_items (fuel : nat) (s : string) {struct fuel} : option (list pyval * string) :=
  match fuel with
  | O => None
  | S fuel =>
      match read_value fuel s with
      | None => None
      | Some (v, rest) =>
          match skip_ws rest with
          | String "]"%char rest => Some ([v], rest)
          | String ","%char rest =>
              match read_items fuel rest with
              | Some (l, rest) => Some (v :: l, rest)
              | None => None
              end
          | _ => None
          end
      end
  end
with read_members (fuel : nat) (s : string) (acc : dict) {struct fuel} : option (dict * string) :=
  match fuel with
  | O => None
  | S fuel =>
      match skip_ws s with
      | String c r =>
          if nat_of_ascii c =? 34 then
            match read_string r with
            | None => None
            | Some (key, rest) =>
                match skip_ws rest with
                | String ":"%char rest =>
                    match read_value fuel rest with
                    | None => None
                    | Some (v, rest) =>
                        let acc := dict_set key v acc in
                        match skip_ws rest with
                        | String "}"%char rest => Some (acc, rest)
                        | String ","%char rest => read_members fuel rest acc
                        | _ => None
                        end
                    end
                | _ => None
                end
            end
          else None
      | EmptyString => None
      end
  end.

Definition loads (s : string) : option pyval :=
  match read_value (S (String.length s)) s with
  | Some (v, rest) =>
      match skip_ws rest with
      | EmptyString => Some v
      | _ => None
      end
  | None => None
  end.

Fixpoint escape (s : string) : string :=
  match s with
  | EmptyString => EmptyString
  | String c r =>
      let n := nat_of_ascii c in
      if (n =? 34) || (n =? 92) then String (ascii_of_nat 92) (String c (escape r))
      else if n =? 10 then String (ascii_of_nat 92) (String "n"%char (escape r))
      else String c (escape r)
  end.

Definition quote (s : string) : string :=
  Text.dquote +++ escape s +++ Text.dquote.

(** Zeros in front of [s] up to the width [k]. *)
Fixpoint pad_zeros (k : nat) (s : string) : string :=
  match k with
  | O => s
  | S k' => if String.length s <=? k' then pad_zeros k' ("0" +++ s) else s
  end.

(** The number of decimals of a denominator that is a power of ten. *)
Fixpoint decimals (fuel : nat) (den : Z) : option nat :=
  match fuel with
  | O => None
  | S fuel =>
      if (den =? 1)%Z then Some O
      else if (den mod 10 =? 0)%Z then
        match decimals fuel (den / 10)%Z with Some k => Some (S k) | None => None end
      else None
  end.

Definition write_float (q : Q) : string :=
  match decimals 64 (Z.pos (Qden q)) with
  | Some (S k) =>
      let n := Z.abs (Qnum q) in
      (if (Qnum q <? 0)%Z then "-" else EmptyString)
      +++ Text.of_Z (n / Z.pos (Qden q)) +++ "."
      +++ pad_zeros (S k) (Text.of_Z (n mod Z.pos (Qden q)))
  | Some O => Text.of_Z (Qnum q) +++ ".0"
  | None => Text.of_Z (Qnum q) +++ "/" +++ Text.of_Z (Z.pos (Qden q))
  end.

Fixpoint dumps (v : pyval) : string :=
  match v with
  | PyNone => "null"
  | PyBool true => "true"
  | PyBool false => "false"
  | PyInt z => Text.of_Z z
  | PyFloat q => write_float q
  | PyStr s => quote s
  | PyList l =>
      "[" +++ (fix items (l : list pyval) : string :=
                 match l with
                 | [] => EmptyString
                 | [x] => dumps x
                 | x :: r => dumps x +++ ", " +++ items r
                 end) l +++ "]"
  | PyDict d =>
      "{" +++ (fix members (d : list (string * pyval)) : string :=
                 match d with
                 | [] => EmptyString
                 | [(k, x)] => quote k +++ ": " +++ dumps x
                 | (k, x) :: r => quote k +++ ": " +++ dumps x +++ ", " +++ members r
                 end) d +++ "}"
  end.

(** [os.path.splitext(p)[0]] of posixpath: the extension starts at the
    last dot of the last component, leading dots of the component apart. *)
Fixpoint has_other_than_dot (s : string) : bool :=
  match s with
  | EmptyString => false
  | String c r => negb (Ascii.eqb c "."%char) || has_other_than_dot r
  end.

Definition splitext_root (p : string) : string :=
  match Text.rindex_of "."%char p with
  | None => p
  | Some dot =>
      let filename_index :=
        match Text.rindex_of "/"%char p with Some i => S i | None => 0 end in
      if (filename_index <=? dot)
         && has_other_than_dot (Text.take (dot - filename_index)
                                          (Text.drop filename_index p))
      then Text.take dot p else p
  end.

(** [os.path.join(a, b)] of posixpath for two components: an absolute [b]
    replaces [a]. *)
Definition path_join (a b : string) : string :=
  if Text.startswith b "/" then b
  else if negb (Text.nonempty a) || Text.endswith a "/" then a +++ b
  else a +++ "/" +++ b.

(** [base64.b64encode(bytes).decode(utf-8)] *)
Definition b64_alphabet : string :=
  "ABCDEFGHIJKLMNOPQRSTUVWXYZabcdefghijklmnopqrstuvwxyz0123456789+/".

Definition b64_char (n : nat) : string :=
  match String.get n b64_alphabet with
  | Some c => String c EmptyString
  | None => "="
  end.

Fixpoint b64 (bytes : string) : string :=
  match bytes with
  | EmptyString => EmptyString
  | String a EmptyString =>
      let x := nat_of_ascii a in
      b64_char (x / 4) +++ b64_char (x mod 4 * 16) +++ "=="
  | String a (String b EmptyString) =>
      let x := nat_of_ascii a in
      let y := nat_of_ascii b in
      b64_char (x / 4) +++ b64_char (x mod 4 * 16 + y / 16)
      +++ b64_char (y mod 16 * 4) +++ "="
  | String a (String b (String c r)) =>
      let x := nat_of_ascii a in
      let y := nat_of_ascii b in
      let z := nat_of_ascii c in
      b64_char (x / 4) +++ b64_char (x mod 4 * 16 + y / 16)
      +++ b64_char (y mod 16 * 4 + z / 64) +++ b64_char (z mod 64) +++ b64 r
  end.

(** [d.update(v)] for a list [v] of pairs with a text as key: a
    two-element list, or a text of two characters.  (A pair with a key
    that is no text is beyond the dictionaries of the model and refused
    here.) *)
Fixpoint update_pairs (d : dict) (items : list pyval) : option dict :=
  match items with
  | [] => Some d
  | PyList [PyStr k; x] :: rest => update_pairs (dict_set k x d) rest
  | PyStr (String a (String b EmptyString)) :: rest =>
      update_pairs (dict_set (String a EmptyString) (PyStr (String b EmptyString)) d) rest
  | _ => None
  end.

Definition update_iterable (d : dict) (v : pyval) : option dict :=
  match v with
  | PyList items => update_pairs d items
  | _ => None
  end.

#[export] Instance runtime : PyRuntime := {|
  json_loads := loads;
  json_dumps := dumps;
  py_repr := dumps;
  py_repr_blocks := fun block_details => dumps (block_details_to_json block_details);
  dict_update_iterable := update_iterable;
  os_path_join := path_join;
  os_path_splitext_root := splitext_root;
  b64encode := b64
|}.

End SmallRuntime.

(* ================================================================== *)
(** * Vocabulary of the properties *)
(* ================================================================== *)

(** The distinct elements of a list, in the order of their first
    occurrence; [seen] holds the elements met so far. *)
Fixpoint new_keys (seen l : list Z) : list Z :=
  match l with
  | [] => []
  | x :: r =>
      if existsb (Z.eqb x) seen then new_keys seen r
      else x :: new_keys (seen ++ [x]) r
  end.

Definition first_seen (l : list Z) : list Z := new_keys [] l.

(** The words of one block, in extraction order. *)
Definition words_of_block (b : Z) (ws : list word_tuple) : list word_tuple :=
  filter (fun w => (block_no w =? b)%Z) ws.

Definition word_rect (w : word_tuple) : rect := ((x0 w, y0 w), (x1 w, y1 w)).

(** Each word followed by one space. *)
Fixpoint spaced (l : list string) : string :=
  match l with
  | [] => EmptyString
  | w :: r => w +++ " " +++ spaced r
  end.

(** A text with no whitespace character in it. *)
Fixpoint spaceless (s : string) : bool :=
  match s with
  | EmptyString => true
  | String c r => negb (Text.isspace c) && spaceless r
  end.

(** [t] holds the object [{m}] between text with no opening brace before
    it and no closing brace after it. *)
Definition wraps (m t : string) : Prop :=
  exists a b,
    t = a +++ String "{" (m +++ String "}" b)
    /\ Text.index_of "{" a = None /\ Text.index_of "}" b = None.

(** One iteration of the word loop on the block table. *)
Definition table_step (bd : block_table) (w : word_tuple) : block_table :=
  bd_set (block_no w)
    (add_word w (word_rect w)
       (match bd_get (block_no w) bd with
        | Some b => b
        | None => mk_block EmptyString [] []
        end))
    bd.

(** A block, or no block yet, after the words [l] were added to it. *)
Definition grow (o : option block) (l : list word_tuple) : option block :=
  fold_left
    (fun o w =>
       Some (add_word w (word_rect w)
               (match o with Some b => b | None => mk_block EmptyString [] [] end)))
    l o.

Definition extend (b : block) (l : list word_tuple) : block :=
  mk_block (text b +++ spaced (map word l))
           (words b ++ map word l)
           (bounding_boxes b ++ map word_rect l).

(** The palette knows the block of every word. *)
Definition palette_covers (color_palette : list (Z * color)) (ws : list word_tuple) : Prop :=
  forall w, In w ws -> palette_get (block_no w) color_palette <> None.


(** ** Enrichment attempts and chunks *)

Section WithRuntimeVocabulary.
Context {RT : PyRuntime}.

(** An attempt that ends in a retry or in giving up. *)
Definition attempt_fails (r : provider_outcome) : Prop :=
  match r with
  | ProviderRaises _ => True
  | ProviderEmpty => True
  | ProviderText raw =>
      Text.nonempty (clean_llm_response_to_json_string raw) = false
      \/ json_loads (clean_llm_response_to_json_string raw) = None
  end.

(** An attempt whose response decodes to [v]. *)
Definition attempt_yields (r : provider_outcome) (v : pyval) : Prop :=
  exists raw,
    r = ProviderText raw
    /\ Text.nonempty (clean_llm_response_to_json_string raw) = true
    /\ json_loads (clean_llm_response_to_json_string raw) = Some v.

(** The text handed to the enrichment for the chunk that starts at [i]. *)
Definition chunk_text (all_blocks : dict) (chunk_size : Z) (i : nat) : string :=
  json_dumps (PyDict (current_chunk_of all_blocks
                        (chunk_keys_at (dict_keys all_blocks) i chunk_size))).

(** The chunks starting at [starts] were enriched one after the other,
    from the world [w] to the world [w'], each with a truthy output that
    was merged: [outs] are the outputs, [acc'] is [acc] after the merges. *)
Inductive chunks_merged (env : environment) (img : string) (all_blocks : dict)
    (chunk_size : Z)
  : list nat -> dict -> world -> list pyval -> dict -> world -> Prop :=
| merged_nil acc w :
    chunks_merged env img all_blocks chunk_size [] acc w [] acc w
| merged_cons i rest acc w processed w1 acc1 outs acc' w' :
    generate_block_json env img (InputText (chunk_text all_blocks chunk_size i)) w
    = (Ret processed, w1) ->
    truthy processed = true ->
    update_final_output acc processed = Some acc1 ->
    chunks_merged env img all_blocks chunk_size rest acc1 w1 outs acc' w' ->
    chunks_merged env img all_blocks chunk_size (i :: rest) acc w (processed :: outs) acc' w'.

End WithRuntimeVocabulary.

(** A world after one more provider call and one more delay. *)
Definition after_call (prompt : string) (w : world) : world :=
  mk_world (files w) (logs w) (sleeps w) (llm_calls w ++ [prompt]).

Definition after_sleep (w : world) : world :=
  mk_world (files w) (logs w) (sleeps w ++ [RETRY_DELAY_SECONDS]) (llm_calls w).

(** ** Fallback enrichment *)

Definition as_record (v : pyval) : dict :=
  match v with PyDict d => d | _ => [] end.

Definition fallback_entry {RT : PyRuntime} (kv : string * pyval) : string * pyval :=
  (fst kv, fallback_block (as_record (snd kv))).

(** Every value of the mapping is a record. *)
Definition all_records (blocks : dict) : Prop :=
  forall k v, In (k, v) blocks -> exists block_data, v = PyDict block_data.

(** ** The request *)

(** The dictionary returned by the handler of lines 125-131. *)
Definition error_result (e : exn) : request_result :=
  mk_request_result "error" (exn_msg e) None
    (Some [("process_tts_request", exn_msg e)]).

(** The [finally] clause leaves the pending result alone: there is no
    temporary file, or deleting it succeeds or raises PermissionError. *)
Definition cleanup_quiet (env : environment) (temp_pdf : option string) : Prop :=
  forall name e,
    temp_pdf = Some name -> remove_error env name = Some e ->
    is_PermissionError e = true.

Section WithRuntimeRequest.
Context {RT : PyRuntime}.

(** The pages [page_numbers] were processed one after the other without
    an exception, from the binding [vertex_path], the list [results] and
    the world [w] to [vertex_path'], [results'] and [w']. *)
Inductive pages_done (env : environment) (pdf_file : upload)
    (pdf_path output_dir : string) (pdf : list page)
  : list nat -> option string -> list page_result -> world
    -> option string -> list page_result -> world -> Prop :=
| done_nil vertex_path page_results w :
    pages_done env pdf_file pdf_path output_dir pdf
               [] vertex_path page_results w vertex_path page_results w
| done_cons n rest vertex_path page_results w vp1 pr w1 vertex_path' page_results' w' :
    process_page env pdf_file pdf_path output_dir pdf n vertex_path w
    = (Ret (vp1, pr), w1) ->
    pages_done env pdf_file pdf_path output_dir pdf
               rest vp1 (page_results ++ [pr]) w1 vertex_path' page_results' w' ->
    pages_done env pdf_file pdf_path output_dir pdf
               (n :: rest) vertex_path page_results w vertex_path' page_results' w'.

End WithRuntimeRequest.

(** A raw block record with the three enrichment fields and the timing
    field the synthesis adds. *)
Definition enriched_and_timed (record : dict) : dict :=
  record
  ++ [("ssml", PyStr ("<speak><prosody rate='slow'>"
                      +++ match dict_get "text" record with
                          | Some (PyStr t) => t
                          | _ => EmptyString
                          end
                      +++ "</prosody></speak>"));
      ("dialog", PyStr "false");
      ("person_type", PyStr "null");
      ("timing", PyList [])].

(** ** Annotation *)

(** What the loop of lines 29-43 draws for one word: its rectangle in the
    colour of its block and, for the first word of the first line of a
    block, the label of the block above it. *)
Definition word_drawing (color_palette : list (Z * color)) (w : word_tuple) : list draw_cmd :=
  match palette_get (block_no w) color_palette with
  | None => []
  | Some color =>
      DrawRectangle (word_rect w) color 2
      :: (if (word_no w =? 0)%Z && (line_no w =? 0)%Z
          then [DrawText (x0 w, (y0 w - 15)%Q) ("Block " +++ Text.of_Z (block_no w)) color]
          else [])
  end.

(** The block [b] of a table, or the empty block the loop starts from. *)
Definition block_or_new (b : Z) (block_details : block_table) : block :=
  match bd_get b block_details with
  | Some blk => blk
  | None => mk_block EmptyString [] []
  end.

(** ** Enrichment that gives up *)

(** The enrichment of [input] cannot give a result: the set-up raises, so
    that the fallback is taken, or each of the [MAX_RETRIES] calls from
    call number [first_call] on fails. *)
Definition enrichment_out_of_order {RT : PyRuntime} (env : environment) (img : string)
    (input : blocks_input) (first_call : nat) : Prop :=
  (exists e, part_from_data_error env img = Some e)
  \/ (part_from_data_error env img = None
      /\ generative_model_error env = None
      /\ forall k, k < MAX_RETRIES ->
           attempt_fails
             (generate_content env (first_call + k)
                (construct_gemini_prompt env (blocks_input_str input)))).

(** ** Pages *)

Section WithRuntimePages.
Context {RT : PyRuntime}.

(** The files of page [page_number]: the image (line 16 of
    image_processing_utils.py), the block table (line 29 of
    saving_utils.py) and the audio metadata (line 106 of tts_service.py). *)
Definition page_image_path (output_dir fname : string) (page_number : nat) : string :=
  os_path_join output_dir (fname +++ "_page_" +++ Text.of_nat page_number +++ ".png").

Definition page_json_path (output_dir fname : string) (page_number : nat) : string :=
  os_path_join output_dir (fname +++ "_page_" +++ Text.of_nat page_number +++ "_blocks.json").

Definition page_metadata_path (output_dir : string) (page_number : nat) : string :=
  os_path_join output_dir
    ("page_" +++ Text.of_nat page_number +++ "_audio_speech_marks_metadata.json").

(** The block table of a page. *)
Definition page_blocks (pg : page) : block_table :=
  map (fun kb => (fst kb, strip_block (snd kb))) (fold_left table_step (page_words pg) []).

(** The world when the enrichment of a page starts: the image and the
    block table of the page are on disk. *)
Definition world_before_enrichment (output_dir fname : string) (page_number : nat)
    (pg : page) (w : world) : world :=
  mk_world
    (file_set (page_json_path output_dir fname page_number)
       (FileJson 4 (block_details_to_json (page_blocks pg)))
       (file_set (page_image_path output_dir fname page_number)
          (FileBytes (page_png pg)) (files w)))
    (logs w
     ++ [(INFO, "Saved base64 and image for page " +++ Text.of_nat page_number
                +++ ": " +++ page_image_path output_dir fname page_number);
         (INFO, "Saved annotated image and block details for page "
                +++ Text.of_nat page_number)])
    (sleeps w) (llm_calls w).

(** The page descriptor of lines 111-117 with [vertex_path] bound to [vp]. *)
Definition page_descriptor (output_dir fname : string) (page_number : nat)
    (vp : string) : page_result :=
  mk_page_result page_number
    (save_annotated_image output_dir fname page_number)
    (page_json_path output_dir fname page_number)
    vp
    (page_metadata_path output_dir page_number).

(** The upload could be stored and opened: the output directory can be
    made, the temporary file [name] created and written, the upload read
    as [data], which the renderer opens as the pages [pdf]. *)
Definition request_opens (env : environment) (pdf_file : upload)
    (name data : string) (pdf : list page) : Prop :=
  makedirs_error env (output_dir_of env pdf_file) = None
  /\ named_temporary_file env = Ret name
  /\ read pdf_file = Ret data
  /\ open_error env name = None
  /\ fitz_open env data = Ret pdf.

(** The world when the page loop starts. *)
Definition world_after_upload (env : environment) (pdf_file : upload)
    (name data : string) (w : world) : world :=
  mk_world
    (file_set name (FileBytes data) (file_set name (FileBytes EmptyString) (files w)))
    (logs w
     ++ [(INFO, "Created output directory: " +++ output_dir_of env pdf_file);
         (INFO, "Saved temporary PDF: " +++ name)])
    (sleeps w) (llm_calls w).

(** No block of the mapping has a truthy [ssml]. *)
Definition no_block_with_ssml (d : dict) : Prop :=
  forall k v, In (k, v) d ->
    exists record,
      v = PyDict record /\ truthy (dict_get_default "ssml" PyNone record) = false.

End WithRuntimePages.

(** ** Candidate extraction *)

(** [s] is a contiguous part of [t]. *)
Definition part_of (s t : string) : Prop := exists a b, t = a +++ s +++ b.

(** The test of line 120 on the text [t]. *)
Definition braces_in_order (t : string) : Prop :=
  (0 <= Text.find "{" t)%Z /\ (Text.find "{" t < Text.rfind "}" t)%Z.

(** A block of the mapping after a synthesis that gave no timing mark. *)
Definition timed (kv : string * pyval) : string * pyval :=
  (fst kv, PyDict (dict_set "timing" (PyList []) (as_record (snd kv)))).

(** Every value of the mapping is a record with a truthy [ssml]. *)
Definition all_with_ssml (d : dict) : Prop :=
  forall k v, In (k, v) d ->
    exists record,
      v = PyDict record /\ truthy (dict_get_default "ssml" PyNone record) = true.

(** The two files of block [k] of a page, as [save_audio_and_speech_marks]
    names them, and the audio metadata after the blocks [keys] in turn. *)
Definition block_files {RT : PyRuntime} (output_dir : string) (page_number : nat)
    (k : string) : string * string :=
  (os_path_join output_dir
     ("block_" +++ (Text.of_nat page_number +++ "_" +++ k) +++ "_audio.mp3"),
   os_path_join output_dir
     ("block_" +++ (Text.of_nat page_number +++ "_" +++ k) +++ "_speech_marks.json")).

Definition record_blocks {RT : PyRuntime} (output_dir : string) (page_number : nat)
    (keys : list string) (audio_metadata : audio_metadata_t) : audio_metadata_t :=
  fold_left (fun am k => od_set key_eqb (KeyStr k) (block_files output_dir page_number k) am)
            keys audio_metadata.

(** Every item of the list is a record with a truthy [ssml]. *)
Definition all_items_with_ssml (items : list pyval) : Prop :=
  forall v, In v items ->
    exists record,
      v = PyDict record /\ truthy (dict_get_default "ssml" PyNone record) = true.

(** The audio metadata after the items at [positions] in turn. *)
Definition record_items {RT : PyRuntime} (output_dir : string) (page_number : nat)
    (positions : list nat) (audio_metadata : audio_metadata_t) : audio_metadata_t :=
  fold_left (fun am i => od_set key_eqb (KeyInt i)
                           (block_files output_dir page_number (Text.of_nat i)) am)
            positions audio_metadata.

Section WithRuntimeEnrichedPages.
Context {RT : PyRuntime}.

(** Every page of the document is enriched at the first attempt, page
    [i] by call number [first_call + i] of the provider, with a mapping
    [answers i] of distinct keys whose blocks all carry a truthy [ssml]. *)
Definition pages_enriched (env : environment) (first_call : nat) (pdf : list page)
    (answers : nat -> dict) : Prop :=
  forall i pg,
    nth_error pdf i = Some pg ->
    part_from_data_error env (b64encode (page_png pg)) = None
    /\ attempt_yields
         (generate_content env (first_call + i)
            (construct_gemini_prompt env (blocks_input_str (InputTable (page_blocks pg)))))
         (PyDict (answers i))
    /\ NoDup (dict_keys (answers i))
    /\ all_with_ssml (answers i)
    /\ answers i <> [].

(** [path] is no file of the directory [dir]: no relative name joined to
    [dir] gives it.  (An absolute name is left out: [os.path.join]
    returns an absolute second component as it is.) *)
Definition outside_directory (dir path : string) : Prop :=
  forall x, Text.startswith x "/" = false -> os_path_join dir x <> path.

(** The descriptor of a page whose trimmed file is its own. *)
Definition own_descriptor (output_dir fname : string) (page_number : nat) : page_result :=
  page_descriptor output_dir fname page_number
    (trimmed_blocks_path output_dir fname page_number).

End WithRuntimeEnrichedPages.

(* ================================================================== *)
(** * A one-page document with two blocks *)
(* ================================================================== *)

Module Scenario.

(** A word of thirty by twelve points at [(x, y)]; coordinates carry one
    decimal. *)
Definition word_at (x y : Z) (t : string) (b l n : Z) : word_tuple :=
  mk_word (Qmake (10 * x) 10) (Qmake (10 * y) 10)
          (Qmake (10 * (x + 30)) 10) (Qmake (10 * (y + 12)) 10) t b l n.

(** A heading in block 0 and a sentence in block 1. *)
Definition page_one_words : list word_tuple :=
  [word_at 72 72 "Chapter" 0 0 0; word_at 110 72 "One" 0 0 1;
   word_at 72 100 "Once" 1 0 0; word_at 110 100 "upon" 1 0 1;
   word_at 148 100 "a" 1 0 2; word_at 186 100 "time" 1 0 3].

Definition page_one : page := mk_page page_one_words "RGB" "PNG".

Definition book : upload := mk_upload "book.pdf" (Ret "%PDF-1.7").

(** Surroundings in which every file operation but the final deletion
    succeeds and there is no synthesis client: [setup_error] is what the
    enrichment set-up raises, [answers] what the provider answers call by
    call (a call past the list gets an empty response), [remove_err] what
    deleting the temporary file raises. *)
Definition env_of (setup_error : option exn) (answers : list provider_outcome)
    (remove_err : option exn) : environment := {|
  now := "01-02-2025-10-00-00";
  makedirs_error := fun _ => None;
  named_temporary_file := Ret "/tmp/tmpa1b2c3.pdf";
  open_error := fun _ => None;
  remove_error := fun _ => remove_err;
  fitz_open := fun _ => Ret [page_one];
  palette_draw := fun b => (b, 128, 255)%Z;
  part_from_data_error := fun _ => setup_error;
  generative_model_error := None;
  generate_content := fun n _ => nth n answers ProviderEmpty;
  prompt_preamble := "Here is the input JSON data containing the blocks:";
  prompt_closing := "Respond ONLY with the processed JSON object string.";
  polly_client := None
|}.

(** The enrichment provider cannot be set up: the fallback is taken. *)
Definition env_fallback : environment :=
  env_of (Some (mk_exn ImportError "Vertex AI not available")) [] None.

(** What a provider may answer for the page: the sentence of block 1
    enriched, the heading of block 0 dropped. *)
Definition enriched_sentence : pyval :=
  PyDict [("1", PyDict [("text", PyStr "Once upon a time");
                        ("words", PyList [PyStr "Once"; PyStr "upon"; PyStr "a"; PyStr "time"]);
                        ("ssml", PyStr "<speak><prosody rate='slow'>Once upon a time</prosody></speak>");
                        ("dialog", PyStr "false");
                        ("person_type", PyStr "null")])].

Definition enriched_heading : pyval :=
  PyDict [("0", PyDict [("text", PyStr "Chapter One");
                        ("words", PyList [PyStr "Chapter"; PyStr "One"]);
                        ("ssml", PyStr "<speak><prosody rate='slow'>Chapter One</prosody></speak>");
                        ("dialog", PyStr "false");
                        ("person_type", PyStr "null")])].

(** The heading enriched, under a key that is no block of the page. *)
Definition misnamed_heading : pyval :=
  PyDict [("zzz", PyDict [("text", PyStr "Chapter One");
                          ("ssml", PyStr "<speak>Chapter One</speak>");
                          ("dialog", PyStr "false");
                          ("person_type", PyStr "null")])].

(** The two blocks of the page as a mapping, and its JSON text. *)
Definition raw_blocks : dict :=
  [("0", PyDict [("text", PyStr "Chapter One");
                 ("words", PyList [PyStr "Chapter"; PyStr "One"]);
                 ("bounding_boxes",
                  PyList [PyList [PyList [PyFloat (Qmake 725 10); PyFloat (Qmake 720 10)];
                                  PyList [PyFloat (Qmake 1025 10); PyFloat (Qmake 840 10)]]])]);
   ("1", PyDict [("text", PyStr "Once upon a time");
                 ("words", PyList [PyStr "Once"; PyStr "upon"; PyStr "a"; PyStr "time"])])].

Definition raw_blocks_text : string := SmallRuntime.dumps (PyDict raw_blocks).

Definition answer (v : pyval) : provider_outcome :=
  ProviderText (SmallRuntime.dumps v).

(** The block table of the page as [json.dump] writes it. *)
Definition page_one_json : pyval :=
  block_details_to_json
    [(0%Z, mk_block "Chapter One" ["Chapter"; "One"]
             (map word_rect (firstn 2 page_one_words)));
     (1%Z, mk_block "Once upon a time" ["Once"; "upon"; "a"; "time"]
             (map word_rect (skipn 2 page_one_words)))].

(** Both blocks retained, each with the three enrichment fields of the
    fallback template. *)
Definition enriched_page : pyval :=
  create_fallback_block_json (RT := SmallRuntime.runtime)
    (InputText (SmallRuntime.dumps page_one_json)).

(** The provider answers the page with [enriched_page]. *)
Definition env_enriched : environment :=
  env_of None [answer enriched_page] None.

Definition busy : provider_outcome :=
  ProviderRaises (mk_exn RuntimeError "429 resource exhausted").

Definition truncated : provider_outcome :=
  ProviderText "{ 1: { text: Once upon".

(** A synthesis client: the audio names the voice it was asked for; the
    mark stream has two marks, a line that is no JSON and a blank line. *)
Definition mark_line (time : string) (value : string) : string :=
  "{" +++ Text.dquote +++ "time" +++ Text.dquote +++ ": " +++ time +++ ", "
  +++ Text.dquote +++ "value" +++ Text.dquote +++ ": "
  +++ Text.dquote +++ value +++ Text.dquote +++ "}" +++ Text.newline.

Definition narrator : polly := {|
  synthesize_audio := fun _ voice_id => Ret (Ret ("ID3 " +++ voice_id));
  synthesize_marks := fun _ _ =>
    Ret [mark_line "6" "Once"; "#"; Text.newline; mark_line "340" "upon"]
|}.

(** A client whose second call is refused. *)
Definition throttled : polly := {|
  synthesize_audio := fun _ voice_id => Ret (Ret ("ID3 " +++ voice_id));
  synthesize_marks := fun _ _ => Raise (mk_exn RuntimeError "ThrottlingException")
|}.

(** A client whose audio stream breaks while it is read. *)
Definition interrupted : polly := {|
  synthesize_audio := fun _ _ => Ret (Raise (mk_exn RuntimeError "Connection broken"));
  synthesize_marks := fun _ _ => Ret []
|}.

(** The surroundings [env] with a document of the pages [pdf], and with
    a first upload-stage failure. *)
Definition with_pages (env : environment) (pdf : list page) : environment := {|
  now := now env;
  makedirs_error := makedirs_error env;
  named_temporary_file := named_temporary_file env;
  open_error := open_error env;
  remove_error := remove_error env;
  fitz_open := fun _ => Ret pdf;
  palette_draw := palette_draw env;
  part_from_data_error := part_from_data_error env;
  generative_model_error := generative_model_error env;
  generate_content := generate_content env;
  prompt_preamble := prompt_preamble env;
  prompt_closing := prompt_closing env;
  polly_client := polly_client env
|}.

Definition read_only_disk (env : environment) : environment := {|
  now := now env;
  makedirs_error := fun _ => Some (mk_exn OSError "[Errno 30] Read-only file system");
  named_temporary_file := named_temporary_file env;
  open_error := open_error env;
  remove_error := fun _ => Some (mk_exn FileNotFoundError "[Errno 2] No such file");
  fitz_open := fitz_open env;
  palette_draw := palette_draw env;
  part_from_data_error := part_from_data_error env;
  generative_model_error := generative_model_error env;
  generate_content := generate_content env;
  prompt_preamble := prompt_preamble env;
  prompt_closing := prompt_closing env;
  polly_client := polly_client env
|}.

(** The surroundings [env] with a model that cannot be constructed. *)
Definition without_model (env : environment) : environment := {|
  now := now env;
  makedirs_error := makedirs_error env;
  named_temporary_file := named_temporary_file env;
  open_error := open_error env;
  remove_error := remove_error env;
  fitz_open := fitz_open env;
  palette_draw := palette_draw env;
  part_from_data_error := part_from_data_error env;
  generative_model_error := Some (mk_exn ValueError "Model not found");
  generate_content := generate_content env;
  prompt_preamble := prompt_preamble env;
  prompt_closing := prompt_closing env;
  polly_client := polly_client env
|}.

(** The heading alone, as a provider may answer it: no [ssml]. *)
Definition plain_heading : pyval :=
  PyDict [("0", PyDict [("text", PyStr "Chapter One")])].

(** A world in which the temporary copy of the upload is on disk. *)
Definition world_with_copy : world :=
  mk_world [("/tmp/tmpa1b2c3.pdf", FileBytes "%PDF-1.7")] [] [] [].

End Scenario.

(* ================================================================== *)
(** * Properties *)
(* ================================================================== *)
(* ================================================================== *)
(** * Facts on text *)
(* ================================================================== *)

Lemma append_assoc (a b c : string) : (a +++ b) +++ c = a +++ (b +++ c).
Proof. induction a as [|x a IH]; simpl; [reflexivity | now rewrite IH]. Qed.

Lemma append_nil_r (a : string) : a +++ EmptyString = a.
Proof. induction a as [|x a IH]; simpl; [reflexivity | now rewrite IH]. Qed.

Lemma length_append (a b : string) :
  String.length (a +++ b) = String.length a + String.length b.
Proof. induction a as [|x a IH]; simpl; [reflexivity | now rewrite IH]. Qed.

Lemma take_append (a b : string) : Text.take (String.length a) (a +++ b) = a.
Proof. induction a as [|x a IH]; simpl; [now destruct b | now rewrite IH]. Qed.

Lemma drop_append (a b : string) : Text.drop (String.length a) (a +++ b) = b.
Proof. induction a as [|x a IH]; simpl; [reflexivity | exact IH]. Qed.

Lemma take_all (a : string) : Text.take (String.length a) a = a.
Proof. rewrite <- (append_nil_r a) at 2. apply take_append. Qed.

Lemma drop_last_append (a b : string) :
  Text.drop_last (String.length b) (a +++ b) = a.
Proof.
  unfold Text.drop_last. rewrite length_append.
  replace (String.length a + String.length b - String.length b) with (String.length a) by lia.
  apply take_append.
Qed.

(** ** Stripping *)

Lemma lstrip_append_solid (p : string) (c : ascii) (r : string) :
  Text.isspace c = false ->
  exists p', Text.lstrip (p +++ String c r) = p' +++ String c r
             /\ (forall x, Text.index_of x p = None -> Text.index_of x p' = None).
Proof.
  intros Hc. induction p as [|a p IH]; simpl.
  - rewrite Hc. exists EmptyString. split; [reflexivity | intros; reflexivity].
  - destruct (Text.isspace a).
    + destruct IH as [p' [E F]]. exists p'. split; [exact E|].
      intros x Hx. apply F. simpl in Hx.
      destruct (Ascii.eqb a x); [discriminate|].
      destruct (Text.index_of x p); [discriminate | reflexivity].
    + exists (String a p). split; [reflexivity | intros x Hx; exact Hx].
Qed.

Lemma rstrip_solid (c : ascii) (q : string) :
  Text.isspace c = false -> Text.rstrip (String c q) = String c (Text.rstrip q).
Proof. intros Hc. simpl. destruct (Text.rstrip q); [now rewrite Hc | reflexivity]. Qed.

Lemma rstrip_append_solid (l : string) (c : ascii) (q : string) :
  Text.isspace c = false ->
  Text.rstrip (l +++ String c q) = l +++ String c (Text.rstrip q).
Proof.
  intros Hc. induction l as [|a l IH].
  - simpl append. now apply rstrip_solid.
  - change (String a l +++ String c q) with (String a (l +++ String c q)).
    simpl. rewrite IH. destruct l; reflexivity.
Qed.

Lemma index_of_rstrip (x : ascii) (q : string) :
  Text.index_of x q = None -> Text.index_of x (Text.rstrip q) = None.
Proof.
  induction q as [|a q IH]; simpl; [reflexivity|].
  destruct (Ascii.eqb a x) eqn:E; [discriminate|].
  destruct (Text.index_of x q); [discriminate|]. intros _.
  specialize (IH eq_refl).
  destruct (Text.rstrip q) eqn:R.
  - destruct (Text.isspace a); simpl; [reflexivity | now rewrite E].
  - simpl. rewrite E. simpl in IH. now rewrite IH.
Qed.

(** ** Searching *)

Lemma index_of_append_hit (c : ascii) (p r : string) :
  Text.index_of c p = None ->
  Text.index_of c (p +++ String c r) = Some (String.length p).
Proof.
  induction p as [|a p IH]; simpl.
  - now rewrite Ascii.eqb_refl.
  - destruct (Ascii.eqb a c); [discriminate|].
    destruct (Text.index_of c p); [discriminate|].
    intros _. now rewrite (IH eq_refl).
Qed.

Lemma rindex_of_none (c : ascii) (s : string) :
  Text.index_of c s = None -> Text.rindex_of c s = None.
Proof.
  induction s as [|a s IH]; simpl; [reflexivity|].
  destruct (Ascii.eqb a c); [discriminate|].
  destruct (Text.index_of c s); [discriminate|].
  intros _. now rewrite (IH eq_refl).
Qed.

Lemma rindex_of_append_hit (c : ascii) (l q : string) :
  Text.index_of c q = None ->
  Text.rindex_of c (l +++ String c q) = Some (String.length l).
Proof.
  intros Hq. induction l as [|a l IH]; simpl.
  - rewrite (rindex_of_none _ _ Hq). now rewrite Ascii.eqb_refl.
  - now rewrite IH.
Qed.

Lemma index_of_append_none (c : ascii) (a b : string) :
  Text.index_of c (a +++ b) = None ->
  Text.index_of c a = None /\ Text.index_of c b = None.
Proof.
  induction a as [|x a IH]; simpl; [now split|].
  destruct (Ascii.eqb x c); [discriminate|].
  destruct (Text.index_of c (a +++ b)) eqn:E; [discriminate|].
  intros _. destruct (IH eq_refl) as [Ha Hb]. now rewrite Ha.
Qed.

Lemma find_none (c : ascii) (s : string) :
  Text.find c s = (-1)%Z <-> Text.index_of c s = None.
Proof.
  unfold Text.find. destruct (Text.index_of c s); split; intros H;
    try reflexivity; try discriminate; lia.
Qed.
(** ** Prefixes and suffixes *)

Lemma startswith_split (c : ascii) (f a r : string) :
  Text.index_of c f = None ->
  Text.startswith (a +++ String c r) f = true ->
  exists a', a = f +++ a'.
Proof.
  revert a. induction f as [|x f IH]; intros a Hf Hp.
  - now exists a.
  - simpl in Hf. destruct (Ascii.eqb x c) eqn:Exc; [discriminate|].
    destruct (Text.index_of c f) eqn:Ef; [discriminate|].
    destruct a as [|y a]; simpl in Hp.
    + now rewrite Exc in Hp.
    + apply andb_true_iff in Hp. destruct Hp as [Hxy Hp].
      apply Ascii.eqb_eq in Hxy. subst y.
      destruct (IH a eq_refl Hp) as [a' ->]. now exists a'.
Qed.

Lemma drop_within (k : nat) (l x : string) :
  k <= String.length l -> Text.drop k (l +++ x) = Text.drop k l +++ x.
Proof.
  revert l. induction k as [|k IH]; intros l Hk; [reflexivity|].
  destruct l as [|a l]; simpl in *; [lia|]. apply IH. lia.
Qed.

Lemma drop_beyond (j : nat) (l x : string) :
  Text.drop (String.length l + j) (l +++ x) = Text.drop j x.
Proof. induction l as [|a l IH]; simpl; [reflexivity | exact IH]. Qed.

Lemma take_drop (j : nat) (s : string) : Text.take j s +++ Text.drop j s = s.
Proof.
  revert s. induction j as [|j IH]; intros s; [reflexivity|].
  destruct s as [|a s]; simpl; [reflexivity | now rewrite IH].
Qed.

Lemma index_of_hit_not_none (c : ascii) (y q : string) :
  Text.index_of c (y +++ String c q) <> None.
Proof.
  intros H. apply index_of_append_none in H. destruct H as [_ H].
  simpl in H. now rewrite Ascii.eqb_refl in H.
Qed.

Lemma endswith_split (c : ascii) (suf l q : string) :
  Text.index_of c suf = None ->
  Text.endswith (l +++ String c q) suf = true ->
  exists q', q = q' +++ suf.
Proof.
  intros Hs He. unfold Text.endswith in He.
  apply andb_true_iff in He. destruct He as [Hlen Heq].
  apply Nat.leb_le in Hlen. apply String.eqb_eq in Heq.
  rewrite length_append in Hlen, Heq. simpl String.length in Hlen, Heq.
  set (k := String.length l + S (String.length q) - String.length suf) in *.
  destruct (Nat.le_gt_cases k (String.length l)) as [Hk|Hk].
  - rewrite drop_within in Heq by exact Hk.
    rewrite <- Heq in Hs. now apply index_of_hit_not_none in Hs.
  - replace k with (String.length l + S (k - String.length l - 1)) in Heq by lia.
    rewrite drop_beyond in Heq. simpl in Heq.
    exists (Text.take (k - String.length l - 1) q).
    rewrite <- Heq. symmetry. apply take_drop.
Qed.

(** ** Candidate extraction keeps the outermost object *)

Lemma wraps_strip (m t : string) : wraps m t -> wraps m (Text.strip t).
Proof.
  intros (a & b & -> & Ha & Hb). unfold Text.strip.
  destruct (lstrip_append_solid a "{" (m +++ String "}" b) eq_refl) as (a' & E & F).
  rewrite E.
  replace (a' +++ String "{" (m +++ String "}" b))
    with ((a' +++ String "{" m) +++ String "}" b)
    by (rewrite append_assoc; reflexivity).
  rewrite rstrip_append_solid by reflexivity.
  exists a', (Text.rstrip b). split; [|split].
  - rewrite append_assoc. reflexivity.
  - now apply F.
  - now apply index_of_rstrip.
Qed.

Lemma wraps_drop_fence (m t : string) :
  wraps m t -> Text.startswith t "```json" = true -> wraps m (Text.drop 7 t).
Proof.
  intros (a & b & -> & Ha & Hb) Hp.
  destruct (startswith_split "{" "```json" a _ eq_refl Hp) as [a' ->].
  rewrite append_assoc.
  change 7 with (String.length "```json"). rewrite drop_append.
  exists a', b. split; [reflexivity|split; [|exact Hb]].
  now apply index_of_append_none in Ha.
Qed.

Lemma wraps_drop_last_fence (m t : string) :
  wraps m t -> Text.endswith t "```" = true -> wraps m (Text.drop_last 3 t).
Proof.
  intros (a & b & -> & Ha & Hb) He.
  replace (a +++ String "{" (m +++ String "}" b))
    with ((a +++ String "{" m) +++ String "}" b) in *
    by (rewrite append_assoc; reflexivity).
  destruct (endswith_split "}" "```" _ b eq_refl He) as [b' ->].
  replace ((a +++ String "{" m) +++ String "}" (b' +++ "```"))
    with (((a +++ String "{" m) +++ String "}" b') +++ "```")
    by (rewrite (append_assoc (a +++ String "{" m)); reflexivity).
  change 3 with (String.length "```"). rewrite drop_last_append.
  exists a, b'. split; [|split; [exact Ha|]].
  - rewrite append_assoc. reflexivity.
  - now apply index_of_append_none in Hb.
Qed.

Lemma wraps_strip_markdown_fence (m t : string) :
  wraps m t -> wraps m (strip_markdown_fence t).
Proof.
  intros H. unfold strip_markdown_fence.
  destruct (Text.startswith t "```json") eqn:Hp; [|exact H].
  apply wraps_strip.
  pose proof (wraps_drop_fence _ _ H Hp) as H'.
  destruct (Text.endswith (Text.drop 7 t) "```") eqn:He; [|exact H'].
  now apply wraps_drop_last_fence.
Qed.

Lemma slice_outer_braces_wraps (m t : string) :
  wraps m t -> slice_outer_braces t = String "{" (m +++ "}").
Proof.
  intros (a & b & -> & Ha & Hb). unfold slice_outer_braces, Text.find, Text.rfind.
  rewrite (index_of_append_hit "{" a _ Ha).
  replace (a +++ String "{" (m +++ String "}" b))
    with ((a +++ String "{" m) +++ String "}" b)
    by (rewrite append_assoc; reflexivity).
  rewrite (rindex_of_append_hit "}" _ b Hb).
  rewrite length_append. simpl String.length.
  replace (negb (Z.of_nat (String.length a) =? -1)%Z) with true
    by (symmetry; apply negb_true_iff, Z.eqb_neq; lia).
  replace (negb (Z.of_nat (String.length a + S (String.length m)) =? -1)%Z) with true
    by (symmetry; apply negb_true_iff, Z.eqb_neq; lia).
  replace (Z.of_nat (String.length a) <? Z.of_nat (String.length a + S (String.length m)))%Z
    with true by (symmetry; apply Z.ltb_lt; lia).
  simpl andb. cbv iota. unfold Text.slice.
  rewrite Nat2Z.id.
  replace (Z.to_nat (Z.of_nat (String.length a + S (String.length m)) + 1
                     - Z.of_nat (String.length a)))
    with (String.length (String "{" (m +++ "}")))
    by (simpl; rewrite length_append; simpl; lia).
  rewrite (append_assoc a). rewrite drop_append.
  change (String "{" m +++ String "}" b) with (String "{" (m +++ String "}" b)).
  replace (String "{" (m +++ String "}" b)) with (String "{" (m +++ "}") +++ b)
    by (simpl; rewrite append_assoc; reflexivity).
  apply take_append.
Qed.

Lemma endswith_append (a b : string) : Text.endswith (a +++ b) b = true.
Proof.
  unfold Text.endswith. rewrite length_append.
  replace (String.length a + String.length b - String.length b)
    with (String.length a) by lia.
  rewrite drop_append, String.eqb_refl.
  apply andb_true_iff. split; [apply Nat.leb_le; lia | reflexivity].
Qed.

Lemma strip_markdown_fence_fenced (body : string) :
  strip_markdown_fence ("```json" +++ body +++ "```") = Text.strip body.
Proof.
  unfold strip_markdown_fence.
  change (Text.startswith ("```json" +++ body +++ "```") "```json") with true.
  cbv iota.
  change 7 with (String.length "```json"). rewrite drop_append.
  rewrite endswith_append.
  change 3 with (String.length "```"). now rewrite drop_last_append.
Qed.

Lemma wraps_intro (p m q : string) :
  Text.find "{" p = (-1)%Z -> Text.find "}" q = (-1)%Z ->
  wraps m (p +++ "{" +++ m +++ "}" +++ q).
Proof.
  intros Hp Hq. exists p, q. split; [reflexivity|].
  split; now apply find_none.
Qed.

Lemma clean_wraps (m t : string) :
  wraps m t -> clean_llm_response_to_json_string t = "{" +++ m +++ "}".
Proof.
  intros H. unfold clean_llm_response_to_json_string.
  apply slice_outer_braces_wraps, wraps_strip_markdown_fence, wraps_strip, H.
Qed.

(** C6. Candidate extraction strips the response, removes a leading
    markdown fence with its closing fence, and then keeps the text from
    the first opening brace through the last closing brace: an object
    surrounded by brace-free prose, fenced or not, comes out alone. *)
Theorem clean_llm_response_extracts_json_candidate (p m q body : string) :
  Text.find "{" p = (-1)%Z ->
  Text.find "}" q = (-1)%Z ->
  clean_llm_response_to_json_string (p +++ "{" +++ m +++ "}" +++ q) = "{" +++ m +++ "}"
  /\ clean_llm_response_to_json_string
       ("```json" +++ p +++ "{" +++ m +++ "}" +++ q +++ "```") = "{" +++ m +++ "}"
  /\ strip_markdown_fence ("```json" +++ body +++ "```") = Text.strip body
  /\ clean_llm_response_to_json_string body
     = slice_outer_braces (strip_markdown_fence (Text.strip body)).
Proof.
  intros Hp Hq. split; [|split; [|split]].
  - apply clean_wraps. now apply wraps_intro.
  - apply clean_wraps.
    exists ("```json" +++ p), (q +++ "```"). split; [|split].
    + rewrite append_assoc. reflexivity.
    + apply find_none in Hp. simpl. now rewrite Hp.
    + apply find_none in Hq.
      induction q as [|c q IH]; [reflexivity|].
      simpl in *. destruct (Ascii.eqb c "}"); [discriminate|].
      destruct (Text.index_of "}" q); [discriminate|]. now rewrite IH.
  - apply strip_markdown_fence_fenced.
  - reflexivity.
Qed.

(** The fenced example of the specification: the candidate is the text of
    the object, which the small reader decodes to a one-entry mapping. *)
Lemma clean_llm_response_fenced_example :
  Text.find "{" Text.newline = (-1)%Z
  /\ Text.find "}" Text.newline = (-1)%Z
  /\ clean_llm_response_to_json_string
       ("```json" +++ Text.newline
        +++ "{" +++ (Text.dquote +++ "a" +++ Text.dquote +++ ":1") +++ "}"
        +++ Text.newline +++ "```")
     = "{" +++ (Text.dquote +++ "a" +++ Text.dquote +++ ":1") +++ "}"
  /\ SmallRuntime.loads ("{" +++ (Text.dquote +++ "a" +++ Text.dquote +++ ":1") +++ "}")
     = Some (PyDict [("a", PyInt 1)]).
Proof.
  split; [reflexivity|]. split; [reflexivity|]. split.
  - exact (proj1 (proj2 (clean_llm_response_extracts_json_candidate
                           Text.newline (Text.dquote +++ "a" +++ Text.dquote +++ ":1")
                           Text.newline EmptyString eq_refl eq_refl))).
  - reflexivity.
Defined.

(* ================================================================== *)
(** * Facts on ordered dictionaries *)
(* ================================================================== *)

Section OrderedDictFacts.
Context {K V : Type}.
Variable key_eqb : K -> K -> bool.
Hypothesis key_eqb_eq : forall a b, key_eqb a b = true <-> a = b.

Lemma key_eqb_refl (a : K) : key_eqb a a = true.
Proof. now apply key_eqb_eq. Qed.

Lemma key_eqb_neq (a b : K) : a <> b -> key_eqb a b = false.
Proof.
  intros H. destruct (key_eqb a b) eqn:E; [|reflexivity].
  now apply key_eqb_eq in E.
Qed.

Lemma od_get_set_same (k : K) (v : V) (d : list (K * V)) :
  od_get key_eqb k (od_set key_eqb k v d) = Some v.
Proof.
  induction d as [|[k' v'] d IH]; simpl.
  - now rewrite key_eqb_refl.
  - destruct (key_eqb k' k) eqn:E; simpl; rewrite E; [reflexivity | exact IH].
Qed.

Lemma od_get_set_other (k b : K) (v : V) (d : list (K * V)) :
  b <> k -> od_get key_eqb b (od_set key_eqb k v d) = od_get key_eqb b d.
Proof.
  intros Hb. induction d as [|[k' v'] d IH]; simpl.
  - now rewrite (key_eqb_neq k b) by congruence.
  - destruct (key_eqb k' k) eqn:E; simpl.
    + apply key_eqb_eq in E. subst k'.
      now rewrite (key_eqb_neq k b) by congruence.
    + destruct (key_eqb k' b); [reflexivity | exact IH].
Qed.

Lemma od_set_set (k : K) (v v' : V) (d : list (K * V)) :
  od_set key_eqb k v (od_set key_eqb k v' d) = od_set key_eqb k v d.
Proof.
  induction d as [|[k' w] d IH]; simpl.
  - now rewrite key_eqb_refl.
  - destruct (key_eqb k' k) eqn:E; simpl; rewrite E; [reflexivity | now rewrite IH].
Qed.

Lemma od_has_in (k : K) (d : list (K * V)) :
  od_has key_eqb k d = true <-> In k (map fst d).
Proof.
  unfold od_has. induction d as [|[k' w] d IH]; simpl.
  - split; [discriminate | tauto].
  - destruct (key_eqb k' k) eqn:E.
    + apply key_eqb_eq in E. split; auto.
    + rewrite IH. split; [auto|]. intros [H|H]; [|exact H].
      apply key_eqb_eq in H. congruence.
Qed.

Lemma od_keys_set (k : K) (v : V) (d : list (K * V)) :
  map fst (od_set key_eqb k v d)
  = if od_has key_eqb k d then map fst d else map fst d ++ [k].
Proof.
  unfold od_has. induction d as [|[k' w] d IH]; simpl; [reflexivity|].
  destruct (key_eqb k' k) eqn:E; simpl; [reflexivity|].
  rewrite IH. now destruct (od_get key_eqb k d).
Qed.

Lemma od_get_in (k : K) (v : V) (d : list (K * V)) :
  NoDup (map fst d) -> In (k, v) d -> od_get key_eqb k d = Some v.
Proof.
  induction d as [|[k' w] d IH]; simpl; intros Hn Hin; [contradiction|].
  inversion Hn as [|? ? Hk Hd]; subst.
  destruct Hin as [Hin|Hin].
  - inversion Hin; subst. now rewrite key_eqb_refl.
  - destruct (key_eqb k' k) eqn:E.
    + apply key_eqb_eq in E. subst k'.
      exfalso. apply Hk. change k with (fst (k, v)). now apply in_map.
    + now apply IH.
Qed.
End OrderedDictFacts.

(* ================================================================== *)
(** * Block extraction *)
(* ================================================================== *)

Lemma annotate_words_fold (ws : list word_tuple) (color_palette : list (Z * color))
    (img : image) (bd : block_table) :
  palette_covers color_palette ws ->
  exists img', annotate_words ws color_palette img bd
               = Ret (img', fold_left table_step ws bd).
Proof.
  revert img bd. induction ws as [|w ws IH]; intros img bd Hc; simpl.
  - now exists img.
  - destruct (palette_get (block_no w) color_palette) as [c|] eqn:Ec.
    2:{ exfalso. apply (Hc w); [now left | exact Ec]. }
    assert (Hc' : palette_covers color_palette ws)
      by (intros w' Hw'; apply Hc; now right).
    match goal with
    | |- exists _, annotate_words ws _ ?i ?b = _ =>
        destruct (IH i b Hc') as [img' E]; exists img'; rewrite E
    end.
    do 2 f_equal. unfold table_step, word_rect, bd_has, od_has, bd_get, bd_set.
    destruct (od_get Z.eqb (block_no w) bd) as [b|] eqn:Eg.
    + now rewrite Eg.
    + rewrite (od_get_set_same Z.eqb Z.eqb_eq).
      now rewrite (od_set_set Z.eqb Z.eqb_eq).
Qed.

Lemma bd_has_existsb (k : Z) (bd : block_table) :
  bd_has k bd = existsb (Z.eqb k) (map fst bd).
Proof.
  unfold bd_has, od_has. induction bd as [|[k' b] bd IH]; simpl; [reflexivity|].
  rewrite (Z.eqb_sym k k'). destruct (k' =? k)%Z; [reflexivity | exact IH].
Qed.

Lemma table_keys (ws : list word_tuple) (bd : block_table) :
  map fst (fold_left table_step ws bd)
  = map fst bd ++ new_keys (map fst bd) (map block_no ws).
Proof.
  revert bd. induction ws as [|w ws IH]; intros bd; simpl.
  - now rewrite app_nil_r.
  - rewrite IH. unfold table_step at 1 2, bd_set.
    rewrite (od_keys_set Z.eqb). fold (bd_has (block_no w) bd).
    rewrite bd_has_existsb.
    destruct (existsb (Z.eqb (block_no w)) (map fst bd)); [reflexivity|].
    now rewrite <- app_assoc.
Qed.

Lemma new_keys_nodup (l seen : list Z) :
  NoDup seen -> NoDup (seen ++ new_keys seen l).
Proof.
  revert seen. induction l as [|x l IH]; intros seen Hs; simpl.
  - now rewrite app_nil_r.
  - destruct (existsb (Z.eqb x) seen) eqn:E; [now apply IH|].
    replace (seen ++ x :: new_keys (seen ++ [x]) l)
      with ((seen ++ [x]) ++ new_keys (seen ++ [x]) l)
      by (now rewrite <- app_assoc).
    apply IH. apply NoDup_app; [exact Hs | repeat constructor; auto |].
    intros y Hy [<-|[]].
    assert (existsb (Z.eqb x) seen = true); [|congruence].
    apply existsb_exists. exists x. split; [exact Hy | apply Z.eqb_refl].
Qed.

Lemma table_get (b : Z) (ws : list word_tuple) (bd : block_table) :
  bd_get b (fold_left table_step ws bd) = grow (bd_get b bd) (words_of_block b ws).
Proof.
  revert bd. induction ws as [|w ws IH]; intros bd; simpl; [reflexivity|].
  rewrite IH. unfold table_step at 1, bd_get, bd_set.
  destruct (block_no w =? b)%Z eqn:E.
  - apply Z.eqb_eq in E. subst b.
    now rewrite (od_get_set_same Z.eqb Z.eqb_eq).
  - rewrite (od_get_set_other Z.eqb Z.eqb_eq); [reflexivity|].
    apply Z.eqb_neq in E. congruence.
Qed.

Lemma grow_extend (l : list word_tuple) (o : option block) :
  l <> [] ->
  grow o l = Some (extend (match o with
                           | Some b => b
                           | None => mk_block EmptyString [] []
                           end) l).
Proof.
  revert o. induction l as [|w l IH]; intros o Hl; [congruence|].
  destruct l as [|w' l].
  - unfold grow, extend, add_word. simpl. reflexivity.
  - change (grow o (w :: w' :: l))
      with (grow (Some (add_word w (word_rect w)
                          (match o with
                           | Some b => b
                           | None => mk_block EmptyString [] []
                           end))) (w' :: l)).
    rewrite IH by discriminate.
    unfold extend, add_word. cbn [text words bounding_boxes].
    f_equal. f_equal.
    + cbn [map spaced]. now rewrite !append_assoc.
    + cbn [map]. now rewrite <- app_assoc.
    + cbn [map]. now rewrite <- app_assoc.
Qed.

(** ** The whitespace policy *)

Lemma rstrip_append_space (x : string) : Text.rstrip (x +++ " ") = Text.rstrip x.
Proof.
  induction x as [|a x IH]; [reflexivity|].
  change (String a x +++ " ") with (String a (x +++ " ")).
  simpl. now rewrite IH.
Qed.

Lemma lstrip_append (s t : string) :
  Text.lstrip (s +++ t)
  = match Text.lstrip s with
    | EmptyString => Text.lstrip t
    | s' => s' +++ t
    end.
Proof.
  induction s as [|a s IH]; simpl.
  - now destruct (Text.lstrip t).
  - destruct (Text.isspace a); [exact IH | reflexivity].
Qed.

Lemma strip_append_space (s : string) : Text.strip (s +++ " ") = Text.strip s.
Proof.
  unfold Text.strip. rewrite lstrip_append.
  destruct (Text.lstrip s) as [|a s'] eqn:E; [reflexivity|].
  apply rstrip_append_space.
Qed.

Lemma spaced_join (l : list string) :
  l <> [] -> spaced l = Text.join " " l +++ " ".
Proof.
  induction l as [|w l IH]; intros Hl; [congruence|].
  destruct l as [|w' l].
  - reflexivity.
  - change (spaced (w :: w' :: l)) with (w +++ " " +++ spaced (w' :: l)).
    change (Text.join " " (w :: w' :: l)) with (w +++ " " +++ Text.join " " (w' :: l)).
    rewrite IH by discriminate. now rewrite !append_assoc.
Qed.

Lemma strip_spaced (l : list string) :
  Text.strip (spaced l) = Text.strip (Text.join " " l).
Proof.
  destruct l as [|w l]; [reflexivity|].
  rewrite spaced_join by discriminate. apply strip_append_space.
Qed.

Lemma rstrip_spaceless (w : string) : spaceless w = true -> Text.rstrip w = w.
Proof.
  induction w as [|c w IH]; [reflexivity|]. simpl.
  intros H. apply andb_true_iff in H. destruct H as [Hc Hw].
  apply negb_true_iff in Hc. rewrite (IH Hw), Hc. now destruct w.
Qed.

Lemma rstrip_append_spaceless (x w : string) :
  Text.nonempty w = true -> spaceless w = true -> Text.rstrip (x +++ w) = x +++ w.
Proof.
  intros Hn Hw. induction x as [|a x IH]; simpl.
  - now apply rstrip_spaceless.
  - rewrite IH. destruct x; [|reflexivity]. simpl. now destruct w.
Qed.

Lemma join_last (l : list string) :
  l <> [] -> exists x w, Text.join " " l = x +++ w /\ In w l /\ w = last l EmptyString.
Proof.
  induction l as [|w l IH]; intros Hl; [congruence|].
  destruct l as [|w' l].
  - exists EmptyString, w. simpl. auto.
  - destruct IH as (x & v & E & Hin & Hlast); [discriminate|].
    exists (w +++ " " +++ x), v.
    change (Text.join " " (w :: w' :: l)) with (w +++ " " +++ Text.join " " (w' :: l)).
    rewrite E, !append_assoc. split; [reflexivity|]. split; [now right | exact Hlast].
Qed.

Lemma strip_join_spaceless (l : list string) :
  (forall w, In w l -> Text.nonempty w = true /\ spaceless w = true) ->
  Text.strip (Text.join " " l) = Text.join " " l.
Proof.
  intros H. destruct l as [|w l]; [reflexivity|].
  assert (Hl : Text.lstrip (Text.join " " (w :: l)) = Text.join " " (w :: l)).
  { destruct (H w (or_introl eq_refl)) as [Hn Hs].
    destruct w as [|c w]; [discriminate|].
    simpl in Hs. apply andb_true_iff in Hs. destruct Hs as [Hc _].
    apply negb_true_iff in Hc.
    destruct l; simpl; now rewrite Hc. }
  unfold Text.strip. rewrite Hl.
  destruct (join_last (w :: l)) as (x & v & E & Hin & _); [discriminate|].
  rewrite E. destruct (H v Hin). now apply rstrip_append_spaceless.
Qed.

Lemma words_of_block_nil (b : Z) : words_of_block b [] = [].
Proof. reflexivity. Qed.

(** C2. Block extraction from an empty table, with a palette that knows
    every block id: the blocks come in first-seen order of their ids; each
    block holds its words and their rectangles in extraction order, as many
    of the one as of the other; its text is every word followed by one
    space, stripped, which is the words joined by single spaces and
    stripped, and is exactly the joined words when no word is empty or
    holds whitespace; no word gives no block. *)
Theorem block_extraction_groups_words (img : image) (ws : list word_tuple)
    (color_palette : list (Z * color)) :
  palette_covers color_palette ws ->
  exists img' bd,
    annotate_image_with_words img ws color_palette [] = Ret (img', bd)
    /\ map fst bd = first_seen (map block_no ws)
    /\ (forall b blk, In (b, blk) bd ->
          words blk = map word (words_of_block b ws)
          /\ bounding_boxes blk = map word_rect (words_of_block b ws)
          /\ List.length (words blk) = List.length (bounding_boxes blk)
          /\ text blk = Text.strip (spaced (words blk))
          /\ text blk = Text.strip (Text.join " " (words blk))
          /\ ((forall w, In w (words blk) ->
                 Text.nonempty w = true /\ spaceless w = true) ->
              text blk = Text.join " " (words blk)))
    /\ (ws = [] -> bd = []).
Proof.
  intros Hc. unfold annotate_image_with_words.
  destruct (annotate_words_fold ws color_palette img [] Hc) as [img' E].
  rewrite E. eexists img', _. split; [reflexivity|].
  pose proof (table_keys ws []) as Hk. simpl in Hk.
  split; [|split].
  - rewrite map_map. simpl. exact Hk.
  - intros b blk Hin. apply in_map_iff in Hin.
    destruct Hin as ([b' blk'] & Heq & Hin). simpl in Heq.
    inversion Heq; subst b blk; clear Heq.
    assert (Hn : NoDup (map fst (fold_left table_step ws []))).
    { rewrite Hk. apply (new_keys_nodup (map block_no ws) []). constructor. }
    pose proof (od_get_in Z.eqb Z.eqb_eq _ _ _ Hn Hin) as Hg.
    fold (bd_get b' (fold_left table_step ws [])) in Hg.
    rewrite table_get in Hg. simpl in Hg.
    destruct (words_of_block b' ws) as [|w l] eqn:Ew; [discriminate|].
    rewrite grow_extend in Hg by discriminate.
    inversion Hg; subst blk'; clear Hg.
    unfold strip_block, extend. cbn [text words bounding_boxes app].
    split; [reflexivity|]. split; [reflexivity|].
    split; [now rewrite !length_map|].
    change (EmptyString +++ spaced (map word (w :: l)))
      with (spaced (map word (w :: l))).
    split; [reflexivity|]. split; [apply strip_spaced|].
    intros Hs. rewrite strip_spaced. now apply strip_join_spaceless.
  - intros ->. reflexivity.
Qed.

(* ================================================================== *)
(** * Enrichment: retries *)
(* ================================================================== *)

Section Retry.
Context {RT : PyRuntime}.
Variable env : environment.
Variable prompt : string.

Lemma attempt_loop_success (attempt : nat) (rest : list nat) (w : world) (v : pyval) :
  attempt_yields (generate_content env (List.length (llm_calls w)) prompt) v ->
  attempt_loop env prompt (attempt :: rest) w = (Ret v, after_call prompt w).
Proof.
  intros (raw & E & Hn & Hl). simpl. unfold bind, call_provider.
  rewrite E, Hn. simpl. now rewrite Hl.
Qed.

Lemma attempt_loop_retry (attempt : nat) (rest : list nat) (w : world) :
  attempt < MAX_RETRIES - 1 ->
  attempt_fails (generate_content env (List.length (llm_calls w)) prompt) ->
  attempt_loop env prompt (attempt :: rest) w
  = attempt_loop env prompt rest (after_sleep (after_call prompt w)).
Proof.
  intros Ha Hf. apply Nat.ltb_lt in Ha. simpl. unfold bind, call_provider.
  destruct (generate_content env (List.length (llm_calls w)) prompt) as [e| |raw];
    simpl in *.
  - fold MAX_RETRIES. rewrite Ha. reflexivity.
  - reflexivity.
  - destruct Hf as [Hf|Hf].
    + now rewrite Hf.
    + destruct (Text.nonempty (clean_llm_response_to_json_string raw)); simpl.
      * rewrite Hf. fold MAX_RETRIES. now rewrite Ha.
      * reflexivity.
Qed.

Lemma attempt_loop_give_up (attempt : nat) (w : world) :
  ~ attempt < MAX_RETRIES - 1 ->
  attempt_fails (generate_content env (List.length (llm_calls w)) prompt) ->
  attempt_loop env prompt [attempt] w = (Ret PyNone, after_call prompt w)
  \/ attempt_loop env prompt [attempt] w
     = (Ret PyNone, after_sleep (after_call prompt w)).
Proof.
  intros Ha Hf. apply Nat.ltb_nlt in Ha. simpl. unfold bind, call_provider.
  destruct (generate_content env (List.length (llm_calls w)) prompt) as [e| |raw];
    simpl in *.
  - fold MAX_RETRIES. rewrite Ha. now left.
  - now right.
  - destruct (Text.nonempty (clean_llm_response_to_json_string raw)) eqn:En; simpl.
    + destruct Hf as [Hf|Hf]; [discriminate|].
      rewrite Hf. fold MAX_RETRIES. rewrite Ha. now left.
    + now right.
Qed.

Lemma attempt_loop_calls (attempts : list nat) (w : world) :
  exists r w',
    attempt_loop env prompt attempts w = (Ret r, w')
    /\ List.length (llm_calls w') <= List.length (llm_calls w) + List.length attempts.
Proof.
  revert w. induction attempts as [|attempt rest IH]; intros w.
  - exists PyNone, w. split; [reflexivity | simpl; lia].
  - assert (Hs : forall w0, List.length (llm_calls w0) = S (List.length (llm_calls w)) ->
                 exists r w', attempt_loop env prompt rest w0 = (Ret r, w')
                   /\ List.length (llm_calls w') <= List.length (llm_calls w) + S (List.length rest)).
    { intros w0 H0. destruct (IH w0) as (r & w' & E & L).
      exists r, w'. split; [exact E | lia]. }
    assert (Hd : forall (r : pyval) w0, List.length (llm_calls w0) = S (List.length (llm_calls w)) ->
                 exists r' w', (@Ret pyval r, w0) = (Ret r', w')
                   /\ List.length (llm_calls w') <= List.length (llm_calls w) + S (List.length rest)).
    { intros r w0 H0. exists r, w0. split; [reflexivity | lia]. }
    assert (Hc : List.length (llm_calls (after_call prompt w)) = S (List.length (llm_calls w)))
      by (simpl; rewrite length_app; simpl; lia).
    simpl. unfold bind, call_provider.
    destruct (generate_content env (List.length (llm_calls w)) prompt) as [e| |raw]; simpl.
    + destruct (attempt <? 2); [apply Hs | apply Hd]; exact Hc.
    + apply Hs; exact Hc.
    + destruct (Text.nonempty (clean_llm_response_to_json_string raw)); simpl.
      * destruct (json_loads (clean_llm_response_to_json_string raw)); [apply Hd; exact Hc|].
        destruct (attempt <? 2); [apply Hs | apply Hd]; exact Hc.
      * apply Hs; exact Hc.
Qed.
End Retry.

(** C4. With the provider set up, a chunk is tried at most three times,
    each retry after a delay of two seconds.  When the first two attempts
    fail (an exception, an empty or blocked response, no candidate text,
    or text that does not decode) and the third decodes to [v], the result
    is [v] after exactly three calls and two delays.  When all three fail
    the result is [None] after exactly three calls. *)
Theorem generate_block_json_retries {RT : PyRuntime} (env : environment)
    (img : string) (input : blocks_input) (w : world) (v : pyval) :
  part_from_data_error env img = None ->
  generative_model_error env = None ->
  let prompt := construct_gemini_prompt env (blocks_input_str input) in
  let outcome k := generate_content env (List.length (llm_calls w) + k) prompt in
  (attempt_fails (outcome 0) -> attempt_fails (outcome 1) -> attempt_yields (outcome 2) v ->
   exists w',
     generate_block_json env img input w = (Ret v, w')
     /\ llm_calls w' = llm_calls w ++ [prompt; prompt; prompt]
     /\ sleeps w' = sleeps w ++ [RETRY_DELAY_SECONDS; RETRY_DELAY_SECONDS])
  /\ (attempt_fails (outcome 0) -> attempt_fails (outcome 1) -> attempt_fails (outcome 2) ->
      exists w' last_delay,
        generate_block_json env img input w = (Ret PyNone, w')
        /\ llm_calls w' = llm_calls w ++ [prompt; prompt; prompt]
        /\ sleeps w' = sleeps w ++ [RETRY_DELAY_SECONDS; RETRY_DELAY_SECONDS] ++ last_delay
        /\ (last_delay = [] \/ last_delay = [RETRY_DELAY_SECONDS]))
  /\ (exists r w',
        generate_block_json env img input w = (Ret r, w')
        /\ List.length (llm_calls w') <= List.length (llm_calls w) + MAX_RETRIES).
Proof.
  intros Hs Hm prompt outcome. unfold generate_block_json. rewrite Hs, Hm.
  fold prompt. change (seq 0 MAX_RETRIES) with [0; 1; 2].
  assert (L1 : List.length (llm_calls (after_sleep (after_call prompt w)))
               = List.length (llm_calls w) + 1)
    by (simpl; rewrite length_app; reflexivity).
  assert (L2 : List.length (llm_calls (after_sleep (after_call prompt
                  (after_sleep (after_call prompt w)))))
               = List.length (llm_calls w) + 2)
    by (simpl; rewrite !length_app; simpl; lia).
  unfold outcome. rewrite Nat.add_0_r, <- L1, <- L2.
  split; [|split].
  - intros F0 F1 Y2.
    rewrite (attempt_loop_retry env prompt 0 _ w) by (unfold MAX_RETRIES; lia || exact F0).
    rewrite (attempt_loop_retry env prompt 1) by (unfold MAX_RETRIES; lia || exact F1).
    rewrite (attempt_loop_success env prompt 2 [] _ v Y2).
    eexists. split; [reflexivity|]. simpl.
    split; now rewrite <- !app_assoc.
  - intros F0 F1 F2.
    rewrite (attempt_loop_retry env prompt 0 _ w) by (unfold MAX_RETRIES; lia || exact F0).
    rewrite (attempt_loop_retry env prompt 1) by (unfold MAX_RETRIES; lia || exact F1).
    destruct (attempt_loop_give_up env prompt 2 _ ltac:(unfold MAX_RETRIES; lia) F2)
      as [E|E]; rewrite E.
    + eexists _, []. split; [reflexivity|]. simpl.
      rewrite <- !app_assoc. auto.
    + eexists _, [RETRY_DELAY_SECONDS]. split; [reflexivity|]. simpl.
      rewrite <- !app_assoc. auto.
  - apply (attempt_loop_calls env prompt [0; 1; 2] w).
Qed.

(* ================================================================== *)
(** * Enrichment: chunks *)
(* ================================================================== *)

Lemma chunks_cover {A : Type} (k c : nat) (l : list A) :
  List.length l <= c * k ->
  List.concat (map (fun j => firstn k (skipn (j * k) l)) (seq 0 c)) = l.
Proof.
  revert l. induction c as [|c IH]; intros l Hl.
  - simpl in Hl. destruct l; [reflexivity | simpl in Hl; lia].
  - rewrite <- cons_seq, <- seq_shift, map_cons, map_map. simpl List.concat.
    transitivity (firstn k l ++ skipn k l); [|apply firstn_skipn].
    f_equal. rewrite <- (IH (skipn k l)).
    + f_equal. apply map_ext. intros j.
      rewrite skipn_skipn. now rewrite (Nat.add_comm k).
    + rewrite length_skipn. simpl in Hl. lia.
Qed.

Lemma range_covers (n k : nat) : 0 < k -> n <= (n + k - 1) / k * k.
Proof.
  intros Hk.
  pose proof (Nat.div_mod_eq (n + k - 1) k) as E.
  pose proof (Nat.mod_upper_bound (n + k - 1) k ltac:(lia)) as U.
  nia.
Qed.

Lemma py_range_step_positive (n : nat) (step : Z) :
  (0 < step)%Z ->
  py_range_step n step
  = Ret (map (fun j => j * Z.to_nat step)
             (seq 0 ((n + Z.to_nat step - 1) / Z.to_nat step))).
Proof.
  intros H. unfold py_range_step.
  replace (step =? 0)%Z with false by (symmetry; apply Z.eqb_neq; lia).
  replace (step <? 0)%Z with false by (symmetry; apply Z.ltb_ge; lia).
  reflexivity.
Qed.

Section Chunks.
Context {RT : PyRuntime}.
Variable env : environment.
Variable img : string.
Variable all_blocks : dict.
Variable chunk_size : Z.

Lemma chunk_loop_merged (starts : list nat) (acc : dict) (w : world)
    (acc' : dict) (w' : world) :
  chunk_loop env img all_blocks (dict_keys all_blocks) chunk_size starts acc w
  = (Ret (Some acc'), w')
  <-> exists outs, chunks_merged env img all_blocks chunk_size starts acc w outs acc' w'.
Proof.
  split.
  - revert acc w. induction starts as [|i rest IH]; intros acc w H.
    + inversion H; subst. exists []. constructor.
    + simpl in H. unfold bind in H. fold (chunk_text all_blocks chunk_size i) in H.
      destruct (generate_block_json env img
                  (InputText (chunk_text all_blocks chunk_size i)) w)
        as [[p|e] w1] eqn:G; [|discriminate].
      destruct (truthy p) eqn:T; [|discriminate].
      destruct (update_final_output acc p) as [acc1|] eqn:U; [|discriminate].
      destruct (IH _ _ H) as [outs M].
      exists (p :: outs). econstructor; eassumption.
  - intros [outs M]. induction M as [|i rest acc w p w1 acc1 outs acc' w' G T U M IH].
    + reflexivity.
    + simpl. unfold bind. fold (chunk_text all_blocks chunk_size i).
      now rewrite G, T, U.
Qed.

Lemma chunk_loop_falsy (pre : list nat) (i : nat) (post : list nat)
    (acc : dict) (w : world) (outs : list pyval) (acc1 : dict) (w1 : world)
    (p : pyval) (w2 : world) :
  chunks_merged env img all_blocks chunk_size pre acc w outs acc1 w1 ->
  generate_block_json env img (InputText (chunk_text all_blocks chunk_size i)) w1
  = (Ret p, w2) ->
  truthy p = false ->
  chunk_loop env img all_blocks (dict_keys all_blocks) chunk_size
             (pre ++ i :: post) acc w
  = (Ret None, w2).
Proof.
  intros M G T. induction M as [|j rest acc w q w0 acc0 outs acc' w' G0 T0 U0 M IH].
  - simpl. unfold bind. fold (chunk_text all_blocks chunk_size i).
    now rewrite G, T.
  - simpl. unfold bind. fold (chunk_text all_blocks chunk_size j).
    rewrite G0, T0, U0. now apply IH.
Qed.

Lemma chunks_merged_dicts (starts : list nat) (acc : dict) (w : world)
    (outs : list pyval) (acc' : dict) (w' : world) (ds : list dict) :
  chunks_merged env img all_blocks chunk_size starts acc w outs acc' w' ->
  outs = map PyDict ds ->
  acc' = fold_left dict_update ds acc.
Proof.
  intros M. revert ds.
  induction M as [|i rest acc w p w1 acc1 outs acc' w' G T U M IH]; intros ds E.
  - destruct ds; [reflexivity | discriminate].
  - destruct ds as [|d ds]; [discriminate|].
    simpl in E. inversion E; subst p outs. simpl in U. inversion U; subst acc1.
    simpl. now apply IH.
Qed.
Lemma chunks_merged_outputs (starts : list nat) (acc : dict) (w : world)
    (outs : list pyval) (acc' : dict) (w' : world) :
  chunks_merged env img all_blocks chunk_size starts acc w outs acc' w' ->
  List.length outs = List.length starts
  /\ Forall (fun p => truthy p = true) outs.
Proof.
  intros M. induction M as [|i rest acc w p w1 acc1 outs acc' w' G T U M [IHl IHf]].
  - split; [reflexivity | constructor].
  - split; [simpl; now rewrite IHl | now constructor].
Qed.
End Chunks.

Lemma chunk_and_process_json_zero_size {RT : PyRuntime} (env : environment)
    (img s : string) (w : world) :
  chunk_and_process_json env img s 0 w = (Ret PyNone, w).
Proof.
  unfold chunk_and_process_json.
  destruct (json_loads s) as [[| | | | | |d]|]; reflexivity.
Qed.

Lemma chunk_and_process_json_negative_size {RT : PyRuntime} (env : environment)
    (img s : string) (chunk_size : Z) (all_blocks : dict) (w : world) :
  json_loads s = Some (PyDict all_blocks) ->
  (chunk_size < 0)%Z ->
  chunk_and_process_json env img s chunk_size w = (Ret (PyDict []), w).
Proof.
  intros Hs Hc. unfold chunk_and_process_json, py_range_step. rewrite Hs.
  replace (chunk_size =? 0)%Z with false by (symmetry; apply Z.eqb_neq; lia).
  replace (chunk_size <? 0)%Z with true by (symmetry; apply Z.ltb_lt; lia).
  reflexivity.
Qed.

Lemma dict_keys_set_incl (k : string) (v : pyval) (d : dict) (x : string) :
  In x (dict_keys (dict_set k v d)) -> In x (dict_keys d) \/ x = k.
Proof.
  unfold dict_keys, dict_set. rewrite (od_keys_set String.eqb).
  destruct (od_has String.eqb k d); [now left|].
  intros H. apply in_app_or in H. destruct H as [H|[H|[]]]; auto.
Qed.

Lemma dict_keys_update_incl (other d : dict) (x : string) :
  In x (dict_keys (dict_update d other)) ->
  In x (dict_keys d) \/ In x (dict_keys other).
Proof.
  unfold dict_update. revert d. induction other as [|[k v] other IH]; intros d H.
  - now left.
  - simpl in H. apply IH in H. destruct H as [H|H]; [|right; now right].
    apply dict_keys_set_incl in H. destruct H as [H|H]; [now left|].
    right. left. now symmetry.
Qed.

Lemma chunks_merged_keys {RT : PyRuntime} (env : environment) (img : string)
    (all_blocks : dict) (chunk_size : Z) (starts : list nat) (acc : dict)
    (w : world) (outs : list pyval) (acc' : dict) (w' : world) :
  chunks_merged env img all_blocks chunk_size starts acc w outs acc' w' ->
  Forall2 (fun i out =>
             exists d, out = PyDict d
                       /\ incl (dict_keys d)
                               (chunk_keys_at (dict_keys all_blocks) i chunk_size))
          starts outs ->
  incl (dict_keys acc) (dict_keys all_blocks) ->
  incl (dict_keys acc') (dict_keys all_blocks).
Proof.
  intros M. induction M as [|i rest acc w p w1 acc1 outs acc' w' G T U M IH];
    intros F Ha; [exact Ha|].
  inversion F as [|? ? ? ? (d & -> & Hd) F']; subst.
  simpl in U. inversion U; subst acc1. apply IH; [exact F'|].
  intros x Hx. apply dict_keys_update_incl in Hx. destruct Hx as [Hx|Hx].
  - now apply Ha.
  - apply Hd in Hx. unfold chunk_keys_at in Hx.
    rewrite <- (firstn_skipn i (dict_keys all_blocks)).
    apply in_or_app. right.
    rewrite <- (firstn_skipn (Z.to_nat chunk_size) (skipn i (dict_keys all_blocks))).
    apply in_or_app. now left.
Qed.

(** C10. A chunk whose enrichment succeeds with an empty mapping is handled
    like a chunk whose enrichment failed with [None]: whatever the chunks
    before it gave, the call returns [None] for the page. *)
Theorem empty_chunk_result_fails_page {RT : PyRuntime} (env : environment)
    (img s : string) (chunk_size : Z) (all_blocks : dict) (w : world)
    (pre : list nat) (i : nat) (post : list nat) (outs : list pyval)
    (acc : dict) (w1 : world) (p : pyval) (w2 : world) :
  json_loads s = Some (PyDict all_blocks) ->
  py_range_step (List.length (dict_keys all_blocks)) chunk_size = Ret (pre ++ i :: post) ->
  chunks_merged env img all_blocks chunk_size pre [] w outs acc w1 ->
  generate_block_json env img (InputText (chunk_text all_blocks chunk_size i)) w1
  = (Ret p, w2) ->
  p = PyDict [] \/ p = PyNone ->
  chunk_and_process_json env img s chunk_size w = (Ret PyNone, w2).
Proof.
  intros Hs Hr M G Hp. unfold chunk_and_process_json. rewrite Hs, Hr.
  rewrite (chunk_loop_falsy env img all_blocks chunk_size pre i post
             [] w outs acc w1 p w2 M G); [reflexivity|].
  destruct Hp as [-> | ->]; reflexivity.
Qed.

(* ================================================================== *)
(** * Enrichment: the fallback *)
(* ================================================================== *)

Lemma dict_set_fresh (k : string) (v : pyval) (d : dict) :
  ~ In k (dict_keys d) -> dict_set k v d = d ++ [(k, v)].
Proof.
  unfold dict_set, dict_keys. induction d as [|[k' v'] d IH]; simpl; intros H.
  - reflexivity.
  - destruct (String.eqb k' k) eqn:E.
    + apply String.eqb_eq in E. tauto.
    + rewrite IH by tauto. reflexivity.
Qed.

Section Fallback.
Context {RT : PyRuntime}.

Lemma fallback_loop_map (items acc : dict) :
  all_records items ->
  NoDup (dict_keys acc ++ dict_keys items) ->
  fallback_loop items acc = Some (acc ++ map fallback_entry items).
Proof.
  revert acc. induction items as [|[k v] items IH]; intros acc Hr Hn; simpl.
  - now rewrite app_nil_r.
  - destruct (Hr k v (or_introl eq_refl)) as [bd ->].
    assert (Hk : ~ In k (dict_keys acc)).
    { simpl in Hn. apply NoDup_remove_2 in Hn. intros H. apply Hn.
      apply in_or_app. now left. }
    rewrite dict_set_fresh by exact Hk.
    rewrite IH.
    + rewrite <- app_assoc. reflexivity.
    + intros k' v' H. apply (Hr k' v'). now right.
    + unfold dict_keys in *. rewrite map_app, <- app_assoc. exact Hn.
Qed.

Lemma fallback_entry_keys (blocks : dict) :
  dict_keys (map fallback_entry blocks) = dict_keys blocks.
Proof. unfold dict_keys. rewrite map_map. reflexivity. Qed.

Lemma fallback_entry_records (blocks : dict) : all_records (map fallback_entry blocks).
Proof.
  intros k v H. apply in_map_iff in H. destruct H as ([k' v'] & E & _).
  inversion E; subst. unfold fallback_block. eauto.
Qed.

Lemma fallback_entry_idempotent (kv : string * pyval) :
  fallback_entry (fallback_entry kv) = fallback_entry kv.
Proof. reflexivity. Qed.

Lemma create_fallback_map (s : string) (blocks : dict) :
  json_loads s = Some (PyDict blocks) ->
  NoDup (dict_keys blocks) ->
  all_records blocks ->
  create_fallback_block_json (InputText s) = PyDict (map fallback_entry blocks).
Proof.
  intros Hs Hn Hr. unfold create_fallback_block_json, py_json_loads.
  rewrite Hs. now rewrite fallback_loop_map.
Qed.
End Fallback.

(** C3. Fallback enrichment is a function of its input alone.  On the text
    of a block mapping it returns a mapping with the same block ids in the
    same order; every block keeps its text, words and bounding boxes and
    gains the prosody-wrapped text as [ssml], [dialog] false and
    [person_type] null; applied to its own output, serialised again, it
    returns that output. *)
Theorem fallback_enrichment_keeps_blocks {RT : PyRuntime} (s : string) (blocks : dict) :
  json_loads s = Some (PyDict blocks) ->
  NoDup (dict_keys blocks) ->
  all_records blocks ->
  exists out,
    create_fallback_block_json (InputText s) = PyDict out
    /\ dict_keys out = dict_keys blocks
    /\ (forall k block_data, In (k, PyDict block_data) blocks ->
          exists enriched,
            dict_get k out = Some (PyDict enriched)
            /\ dict_keys enriched
               = ["text"; "words"; "bounding_boxes"; "ssml"; "dialog"; "person_type"]
            /\ (forall field v,
                  In field ["text"; "words"; "bounding_boxes"] ->
                  dict_get field block_data = Some v ->
                  dict_get field enriched = Some v)
            /\ (forall t,
                  dict_get "text" block_data = Some (PyStr t) ->
                  dict_get "ssml" enriched
                  = Some (PyStr ("<speak><prosody rate='slow'>" +++ t
                                 +++ "</prosody></speak>")))
            /\ dict_get "dialog" enriched = Some (PyStr "false")
            /\ dict_get "person_type" enriched = Some (PyStr "null"))
    /\ (forall s',
          json_loads s' = Some (PyDict out) ->
          create_fallback_block_json (InputText s') = PyDict out).
Proof.
  intros Hs Hn Hr. exists (map fallback_entry blocks).
  split; [now apply create_fallback_map|].
  split; [apply fallback_entry_keys|]. split.
  - intros k bd Hin. eexists. split; [|split; [|split; [|split; [|split]]]].
    + apply (od_get_in String.eqb String.eqb_eq).
      * fold (dict_keys (map fallback_entry blocks)).
        now rewrite fallback_entry_keys.
      * apply in_map_iff. exists (k, PyDict bd). split; [reflexivity | exact Hin].
    + reflexivity.
    + intros field v Hf Hg. unfold dict_get_default.
      destruct Hf as [<-|[<-|[<-|[]]]]; simpl; now rewrite Hg.
    + intros t Ht. simpl. unfold dict_get_default. now rewrite Ht.
    + reflexivity.
    + reflexivity.
  - intros s' Hs'.
    rewrite (create_fallback_map s' (map fallback_entry blocks) Hs').
    + rewrite map_map. f_equal.
    + now rewrite fallback_entry_keys.
    + apply fallback_entry_records.
Qed.

(* ================================================================== *)
(** * Synthesis without a provider *)
(* ================================================================== *)

Lemma dict_has_get (k : string) (d : dict) (v : pyval) :
  dict_get k d = Some v -> dict_has k d = true.
Proof. unfold dict_has, od_has, dict_get. now intros ->. Qed.

(** C8. Without a synthesis client, and with the two placeholder files
    writable, the call does not fail for a block of the caller's mapping:
    it writes a zero-length audio file and an empty list of timing marks,
    returns their paths, and in the caller's mapping the record of the
    block has [timing] set to the empty list, everything else being as it
    was.  Nothing is logged, no provider is called. *)
Theorem no_provider_synthesis_is_empty {RT : PyRuntime} (env : environment)
    (block_id : string) (ssml_output : pyval) (output_dir : string)
    (person_type : pyval) (block_json : dict) (block_key : py_key)
    (record : dict) (w : world) :
  let audio_path := os_path_join output_dir ("block_" +++ block_id +++ "_audio.mp3") in
  let speech_marks_path :=
    os_path_join output_dir ("block_" +++ block_id +++ "_speech_marks.json") in
  open_error env audio_path = None ->
  open_error env speech_marks_path = None ->
  dict_get (key_str block_key) block_json = Some (PyDict record) ->
  exists block_json' record' w',
    save_audio_and_speech_marks env None block_id ssml_output output_dir
                                person_type (PyDict block_json) block_key w
    = (Ret (audio_path, speech_marks_path, PyDict block_json'), w')
    /\ files w' = file_set speech_marks_path (FileJson 4 (PyList []))
                    (file_set audio_path (FileBytes EmptyString) (files w))
    /\ file_get speech_marks_path (files w') = Some (FileJson 4 (PyList []))
    /\ (audio_path <> speech_marks_path ->
        file_get audio_path (files w') = Some (FileBytes EmptyString))
    /\ logs w' = logs w /\ sleeps w' = sleeps w /\ llm_calls w' = llm_calls w
    /\ dict_keys block_json' = dict_keys block_json
    /\ dict_get (key_str block_key) block_json' = Some (PyDict record')
    /\ dict_get "timing" record' = Some (PyList [])
    /\ (forall field, field <> "timing" -> dict_get field record' = dict_get field record)
    /\ (forall k, k <> key_str block_key -> dict_get k block_json' = dict_get k block_json).
Proof.
  intros audio_path speech_marks_path Ha Hm Hg.
  exists (dict_set (key_str block_key)
            (PyDict (dict_set "timing" (PyList []) record)) block_json),
         (dict_set "timing" (PyList []) record).
  eexists. split.
  - unfold save_audio_and_speech_marks, bind, write_file, lift, add_timing.
    fold audio_path speech_marks_path. rewrite Ha. simpl. rewrite Hm. simpl.
    rewrite (dict_has_get _ _ _ Hg). simpl. rewrite Hg. reflexivity.
  - simpl. split; [reflexivity|].
    split; [apply (od_get_set_same String.eqb String.eqb_eq)|].
    split.
    { intros Hne. unfold file_get, file_set.
      rewrite (od_get_set_other String.eqb String.eqb_eq) by exact Hne.
      apply (od_get_set_same String.eqb String.eqb_eq). }
    split; [reflexivity|]. split; [reflexivity|]. split; [reflexivity|].
    split.
    { unfold dict_keys, dict_set. rewrite (od_keys_set String.eqb).
      fold (dict_has (key_str block_key) block_json).
      now rewrite (dict_has_get _ _ _ Hg). }
    split; [apply (od_get_set_same String.eqb String.eqb_eq)|].
    split; [apply (od_get_set_same String.eqb String.eqb_eq)|].
    split.
    + intros field Hf. now apply (od_get_set_other String.eqb String.eqb_eq).
    + intros k Hk. now apply (od_get_set_other String.eqb String.eqb_eq).
Qed.

(* ================================================================== *)
(** * The request *)
(* ================================================================== *)

Section Request.
Context {RT : PyRuntime}.

(** The fallback decodes its argument before anything else, so a block
    table handed over as it is ends in [None]. *)
Lemma create_fallback_of_table (block_details : block_table) :
  create_fallback_block_json (InputTable block_details) = PyNone.
Proof. reflexivity. Qed.

Lemma generate_block_json_fallback_of_table (env : environment) (img : string)
    (block_details : block_table) (w : world) (e : exn) :
  part_from_data_error env img = Some e ->
  generate_block_json env img (InputTable block_details) w = (Ret PyNone, w).
Proof. intros H. unfold generate_block_json. now rewrite H. Qed.

Lemma pages_loop_raises (env : environment) (pdf_file : upload)
    (pdf_path output_dir : string) (pdf : list page)
    (pre : list nat) (n : nat) (post : list nat)
    (vertex_path : option string) (page_results : list page_result) (w : world)
    (vertex_path' : option string) (page_results' : list page_result) (w' : world)
    (e : exn) (w2 : world) :
  pages_done env pdf_file pdf_path output_dir pdf
             pre vertex_path page_results w vertex_path' page_results' w' ->
  process_page env pdf_file pdf_path output_dir pdf n vertex_path' w' = (Raise e, w2) ->
  pages_loop env pdf_file pdf_path output_dir pdf (pre ++ n :: post)
             vertex_path page_results w
  = (Raise e, w2).
Proof.
  intros D P. induction D as [vp res w0|m rest vp res w0 vp1 pr w1 vp' res' w' P0 D IH].
  - simpl. unfold bind. now rewrite P.
  - simpl. unfold bind. rewrite P0. simpl. now apply IH.
Qed.

Lemma process_tts_request_unfold (env : environment) (pdf_file : upload) (w : world)
    (r : result (list page_result)) (temp_pdf : option string) (w1 : world)
    (pending : result request_result) (w2 : world) :
  request_try env pdf_file w = (r, temp_pdf, w1) ->
  request_outcome r w1 = (pending, w2) ->
  process_tts_request env pdf_file w
  = match request_finally env temp_pdf w2 with
    | (Ret _, w3) => (pending, w3)
    | (Raise e, w3) => (Raise e, w3)
    end.
Proof. intros Ht Ho. unfold process_tts_request. now rewrite Ht, Ho. Qed.

Lemma request_finally_quiet (env : environment) (temp_pdf : option string) (w : world) :
  cleanup_quiet env temp_pdf ->
  exists w', request_finally env temp_pdf w = (Ret tt, w').
Proof.
  intros Hq. destruct temp_pdf as [name|]; simpl; [|now exists w].
  unfold os_remove. destruct (remove_error env name) as [e|] eqn:E; simpl.
  - rewrite (Hq name e eq_refl E). eexists. reflexivity.
  - eexists. reflexivity.
Qed.
End Request.

(** C7, amended.  When the body of the request raises, and the deletion
    of the temporary file raises nothing but PermissionError, the request
    returns a result with status error, the message of the exception, an
    errors map keyed by the name of the request function, and no list of
    page results.  A page that raises ends the page loop with that
    exception whatever the pages before it produced. *)
Theorem request_exception_becomes_error_result {RT : PyRuntime} (env : environment)
    (pdf_file : upload) (w : world) (e : exn) (temp_pdf : option string) (w1 : world) :
  request_try env pdf_file w = (Raise e, temp_pdf, w1) ->
  cleanup_quiet env temp_pdf ->
  (exists w',
     process_tts_request env pdf_file w = (Ret (error_result e), w')
     /\ status (error_result e) = "error"
     /\ message (error_result e) = exn_msg e
     /\ errors (error_result e) = Some [("process_tts_request", exn_msg e)]
     /\ results (error_result e) = None)
  /\ (forall pdf_path output_dir pdf pre n post vp res w0 vp' res' w0' e' w2,
        pages_done env pdf_file pdf_path output_dir pdf pre vp res w0 vp' res' w0' ->
        process_page env pdf_file pdf_path output_dir pdf n vp' w0' = (Raise e', w2) ->
        pages_loop env pdf_file pdf_path output_dir pdf (pre ++ n :: post) vp res w0
        = (Raise e', w2)).
Proof.
  intros Ht Hq. split.
  - destruct (request_finally_quiet env temp_pdf
                (snd (request_outcome (Raise e) w1)) Hq) as [w' Hf].
    exists w'. split; [|repeat split].
    rewrite (process_tts_request_unfold env pdf_file w _ _ _
               (Ret (error_result e)) (snd (request_outcome (Raise e) w1)) Ht eq_refl).
    now rewrite Hf.
  - intros. eapply pages_loop_raises; eassumption.
Qed.

(** C9, amended.  Once the temporary file has its name, its deletion is
    attempted when the request ends, whatever the body came to.  When the
    deletion succeeds the file is gone and the pending result is returned;
    when it raises PermissionError a warning is logged, the file stays and
    the pending result is returned; any other exception of the deletion
    replaces the pending result.  With no temporary file the pending
    result is returned as it is. *)
Theorem temporary_copy_removed_at_request_end {RT : PyRuntime} (env : environment)
    (pdf_file : upload) (w : world) (r : result (list page_result))
    (temp_pdf : option string) (w1 : world)
    (pending : result request_result) (w2 : world) :
  request_try env pdf_file w = (r, temp_pdf, w1) ->
  request_outcome r w1 = (pending, w2) ->
  (temp_pdf = None -> process_tts_request env pdf_file w = (pending, w2))
  /\ (forall name,
        temp_pdf = Some name -> remove_error env name = None ->
        exists w3,
          process_tts_request env pdf_file w = (pending, w3)
          /\ file_get name (files w3) = None
          /\ logs w3 = logs w2 ++ [(INFO, "Deleted temporary PDF file: " +++ name)])
  /\ (forall name e,
        temp_pdf = Some name -> remove_error env name = Some e ->
        is_PermissionError e = true ->
        exists w3,
          process_tts_request env pdf_file w = (pending, w3)
          /\ files w3 = files w2
          /\ logs w3 = logs w2 ++ [(WARNING, "Failed to delete temp file " +++ name
                                             +++ ": " +++ exn_msg e)])
  /\ (forall name e,
        temp_pdf = Some name -> remove_error env name = Some e ->
        is_PermissionError e = false ->
        process_tts_request env pdf_file w = (Raise e, w2)).
Proof.
  intros Ht Ho.
  rewrite (process_tts_request_unfold env pdf_file w r temp_pdf w1 pending w2 Ht Ho).
  split; [|split; [|split]].
  - intros ->. reflexivity.
  - intros name -> Hr. simpl. unfold os_remove. rewrite Hr. simpl.
    eexists. split; [reflexivity|]. simpl. split; [|reflexivity].
    unfold file_get, file_remove, od_remove.
    induction (files w2) as [|[k c] fs IH]; simpl; [reflexivity|].
    destruct (String.eqb k name) eqn:E; simpl; [exact IH | now rewrite E].
  - intros name e -> Hr Hp. simpl. unfold os_remove. rewrite Hr. simpl. rewrite Hp.
    eexists. split; [reflexivity|]. simpl. split; reflexivity.
  - intros name e -> Hr Hp. simpl. unfold os_remove. rewrite Hr. simpl. now rewrite Hp.
Qed.

(* ================================================================== *)
(** * The properties at work on the one-page document *)
(* ================================================================== *)

(** The palette the service builds knows every block of the page. *)
Lemma generate_color_palette_covers (env : environment) (ws : list word_tuple) :
  palette_covers (generate_color_palette env (block_id_set ws)) ws.
Proof.
  intros w Hw. unfold generate_color_palette, block_id_set.
  assert (Hin : In (block_no w) (nodup Z.eq_dec (map block_no ws)))
    by (apply nodup_In; now apply in_map).
  induction (nodup Z.eq_dec (map block_no ws)) as [|b l IH]; [contradiction|].
  simpl. destruct (b =? block_no w)%Z eqn:E; [discriminate|].
  apply IH. destruct Hin as [->|Hin]; [|exact Hin].
  now rewrite Z.eqb_refl in E.
Qed.

Example first_seen_example : first_seen [1; 0; 1; 2; 0]%Z = [1; 0; 2]%Z.
Proof. reflexivity. Qed.

(** The example of the specification: four words of one block. *)
Example block_extraction_once_upon_a_time :
  exists img',
    annotate_image_with_words (mk_image "RGB" []) (skipn 2 Scenario.page_one_words)
      [(1%Z, (0, 0, 255)%Z)] []
    = Ret (img', [(1%Z, mk_block "Once upon a time" ["Once"; "upon"; "a"; "time"]
                          (map word_rect (skipn 2 Scenario.page_one_words)))]).
Proof. eexists. reflexivity. Qed.

(** Block extraction on the page: two blocks, heading first. *)
Lemma block_extraction_on_page_one :
  palette_covers
    (generate_color_palette Scenario.env_fallback (block_id_set Scenario.page_one_words))
    Scenario.page_one_words
  /\ exists img' bd,
       annotate_image_with_words (mk_image "RGB" []) Scenario.page_one_words
         (generate_color_palette Scenario.env_fallback
            (block_id_set Scenario.page_one_words)) []
       = Ret (img', bd)
       /\ map fst bd = [0%Z; 1%Z]
       /\ forall b blk, In (b, blk) bd ->
            List.length (words blk) = List.length (bounding_boxes blk)
            /\ text blk = Text.strip (Text.join " " (words blk)).
Proof.
  split; [apply generate_color_palette_covers|].
  destruct (block_extraction_groups_words (mk_image "RGB" []) Scenario.page_one_words
              (generate_color_palette Scenario.env_fallback
                 (block_id_set Scenario.page_one_words))
              (generate_color_palette_covers _ _))
    as (img' & bd & E & K & B & _).
  exists img', bd. split; [exact E|]. split; [exact K|].
  intros b blk Hin. destruct (B b blk Hin) as (_ & _ & L & _ & T & _). now split.
Defined.

(** The example of the specification: one block whose text is Hi. *)
Lemma fallback_enrichment_on_hi :
  let s := "{" +++ Text.dquote +++ "0" +++ Text.dquote +++ ": {"
           +++ Text.dquote +++ "text" +++ Text.dquote +++ ": "
           +++ Text.dquote +++ "Hi" +++ Text.dquote +++ "}}" in
  let blocks := [("0", PyDict [("text", PyStr "Hi")])] in
  SmallRuntime.loads s = Some (PyDict blocks)
  /\ NoDup (dict_keys blocks)
  /\ all_records blocks
  /\ exists out,
       create_fallback_block_json (RT := SmallRuntime.runtime) (InputText s) = PyDict out
       /\ out = [("0", PyDict [("text", PyStr "Hi");
                               ("words", PyList []);
                               ("bounding_boxes", PyList []);
                               ("ssml", PyStr "<speak><prosody rate='slow'>Hi</prosody></speak>");
                               ("dialog", PyStr "false");
                               ("person_type", PyStr "null")])]
       /\ create_fallback_block_json (RT := SmallRuntime.runtime)
            (InputText (SmallRuntime.dumps (PyDict out)))
          = PyDict out.
Proof.
  intros s blocks.
  assert (Hl : SmallRuntime.loads s = Some (PyDict blocks)) by reflexivity.
  assert (Hn : NoDup (dict_keys blocks)) by (repeat constructor; simpl; tauto).
  assert (Hr : all_records blocks).
  { intros k v [H|[]]. inversion H; subst. eauto. }
  split; [exact Hl|]. split; [exact Hn|]. split; [exact Hr|].
  destruct (fallback_enrichment_keeps_blocks (RT := SmallRuntime.runtime)
              s blocks Hl Hn Hr) as (out & E & K & _ & I).
  assert (E' := E). cbv in E'. injection E' as <-.
  eexists. split; [exact E|]. split; [reflexivity|].
  apply I. reflexivity.
Defined.

(** Two failed attempts, then an answer; and three failed attempts. *)
Lemma generate_block_json_retries_on_scripts :
  (exists w',
     generate_block_json (RT := SmallRuntime.runtime)
       (Scenario.env_of None [Scenario.busy; Scenario.truncated;
                              Scenario.answer Scenario.enriched_sentence] None)
       "UE5H" (InputText Scenario.raw_blocks_text) world0
     = (Ret Scenario.enriched_sentence, w')
     /\ List.length (llm_calls w') = 3
     /\ sleeps w' = [2%Z; 2%Z])
  /\ (exists w',
        generate_block_json (RT := SmallRuntime.runtime)
          (Scenario.env_of None [Scenario.busy; ProviderEmpty; Scenario.truncated] None)
          "UE5H" (InputText Scenario.raw_blocks_text) world0
        = (Ret PyNone, w')
        /\ List.length (llm_calls w') = 3).
Proof.
  split.
  - destruct (proj1 (generate_block_json_retries (RT := SmallRuntime.runtime)
                       (Scenario.env_of None [Scenario.busy; Scenario.truncated;
                                              Scenario.answer Scenario.enriched_sentence] None)
                       "UE5H" (InputText Scenario.raw_blocks_text) world0
                       Scenario.enriched_sentence eq_refl eq_refl))
      as (w' & E & C & S).
    + exact I.
    + right. reflexivity.
    + eexists. split; [reflexivity|]. split; reflexivity.
    + exists w'. split; [exact E|]. split; [now rewrite C | exact S].
  - destruct (proj1 (proj2 (generate_block_json_retries (RT := SmallRuntime.runtime)
                       (Scenario.env_of None [Scenario.busy; ProviderEmpty;
                                              Scenario.truncated] None)
                       "UE5H" (InputText Scenario.raw_blocks_text) world0
                       PyNone eq_refl eq_refl)))
      as (w' & d & E & C & _).
    + exact I.
    + exact I.
    + right. reflexivity.
    + exists w'. split; [exact E | now rewrite C].
Defined.

(** The second chunk answered with an empty object: the page fails. *)
Lemma empty_chunk_result_on_two_blocks :
  exists w',
    chunk_and_process_json (RT := SmallRuntime.runtime)
      (Scenario.env_of None [Scenario.answer Scenario.enriched_heading;
                             ProviderText "{}"] None)
      "UE5H" Scenario.raw_blocks_text OUTPUT_CHUNK_SIZE world0
    = (Ret PyNone, w').
Proof.
  eexists.
  eapply (empty_chunk_result_fails_page (RT := SmallRuntime.runtime)
            _ "UE5H" Scenario.raw_blocks_text OUTPUT_CHUNK_SIZE Scenario.raw_blocks
            world0 [0] 1 [] _ _ _ (PyDict [])).
  - reflexivity.
  - reflexivity.
  - eapply merged_cons; [vm_compute; reflexivity | reflexivity | reflexivity |]. apply merged_nil.
  - vm_compute. reflexivity.
  - now left.
Defined.

(** The sentence of the page synthesised without a client. *)
Lemma no_provider_synthesis_on_sentence :
  exists block_json' w',
    save_audio_and_speech_marks (RT := SmallRuntime.runtime) Scenario.env_fallback None
      "0_1" (PyStr "<speak><prosody rate='slow'>Once upon a time</prosody></speak>")
      "output/book" (PyStr "null") Scenario.enriched_sentence (KeyStr "1") world0
    = (Ret ("output/book/block_0_1_audio.mp3",
            "output/book/block_0_1_speech_marks.json", PyDict block_json'), w')
    /\ file_get "output/book/block_0_1_audio.mp3" (files w') = Some (FileBytes EmptyString)
    /\ file_get "output/book/block_0_1_speech_marks.json" (files w')
       = Some (FileJson 4 (PyList []))
    /\ exists record',
         dict_get "1" block_json' = Some (PyDict record')
         /\ dict_get "timing" record' = Some (PyList []).
Proof.
  destruct (no_provider_synthesis_is_empty (RT := SmallRuntime.runtime)
              Scenario.env_fallback "0_1"
              (PyStr "<speak><prosody rate='slow'>Once upon a time</prosody></speak>")
              "output/book" (PyStr "null") (as_record Scenario.enriched_sentence)
              (KeyStr "1") _ world0 eq_refl eq_refl eq_refl)
    as (bj & record' & w' & E & _ & Hm & Ha & _ & _ & _ & _ & Hg & Ht & _).
  exists bj, w'. split; [exact E|]. split; [apply Ha; discriminate|].
  split; [exact Hm|]. exists record'. now split.
Defined.

(** The fallback request with a temporary file that cannot be deleted
    for lack of permission: an error result all the same. *)
Lemma request_exception_on_fallback :
  exists w',
    process_tts_request (RT := SmallRuntime.runtime)
      (Scenario.env_of (Some (mk_exn ImportError "Vertex AI not available")) []
                       (Some (mk_exn PermissionError "file in use")))
      Scenario.book world0
    = (Ret (error_result (mk_exn TypeError "'NoneType' object is not iterable")), w').
Proof.
  destruct (request_try (RT := SmallRuntime.runtime)
              (Scenario.env_of (Some (mk_exn ImportError "Vertex AI not available")) []
                               (Some (mk_exn PermissionError "file in use")))
              Scenario.book world0) as [[r temp_pdf] w1] eqn:Ht.
  assert (Hc := Ht). vm_compute in Hc. injection Hc as <- <- <-.
  destruct (request_exception_becomes_error_result (RT := SmallRuntime.runtime)
              _ _ _ _ _ _ Ht) as [(w' & E & _) _].
  - intros name e _ H. injection H as <-. reflexivity.
  - exists w'. exact E.
Defined.

(** C7 as stated fails: the body raises, the temporary file is gone when
    the [finally] clause wants to delete it, and the request raises. *)
Lemma request_exception_escapes_when_cleanup_raises :
  (exists e temp_pdf w1,
     request_try (RT := SmallRuntime.runtime)
       (Scenario.env_of (Some (mk_exn ImportError "Vertex AI not available")) []
                        (Some (mk_exn FileNotFoundError "No such file or directory")))
       Scenario.book world0
     = (Raise e, temp_pdf, w1))
  /\ fst (process_tts_request (RT := SmallRuntime.runtime)
            (Scenario.env_of (Some (mk_exn ImportError "Vertex AI not available")) []
                             (Some (mk_exn FileNotFoundError "No such file or directory")))
            Scenario.book world0)
     = Raise (mk_exn FileNotFoundError "No such file or directory").
Proof.
  split; [|vm_compute; reflexivity].
  destruct (request_try (RT := SmallRuntime.runtime) _ Scenario.book world0)
    as [[r temp_pdf] w1] eqn:Ht.
  vm_compute in Ht. injection Ht as <- <- <-.
  eexists _, _, _. reflexivity.
Qed.

(** A successful request whose temporary file cannot be deleted for lack
    of permission: the success result, a warning, the file still there. *)
Lemma temporary_copy_on_permission_error :
  exists page_results w3,
    process_tts_request (RT := SmallRuntime.runtime)
      (Scenario.env_of None [Scenario.answer Scenario.enriched_sentence]
                       (Some (mk_exn PermissionError "file in use")))
      Scenario.book world0
    = (Ret (mk_request_result "success" "Processed 1 page(s)." (Some page_results) None), w3)
    /\ In (WARNING, "Failed to delete temp file /tmp/tmpa1b2c3.pdf: file in use") (logs w3)
    /\ file_get "/tmp/tmpa1b2c3.pdf" (files w3) = Some (FileBytes "%PDF-1.7").
Proof.
  destruct (request_try (RT := SmallRuntime.runtime)
              (Scenario.env_of None [Scenario.answer Scenario.enriched_sentence]
                               (Some (mk_exn PermissionError "file in use")))
              Scenario.book world0) as [[r temp_pdf] w1] eqn:Ht.
  assert (Hc := Ht). vm_compute in Hc. injection Hc as <- <- <-.
  destruct (temporary_copy_removed_at_request_end (RT := SmallRuntime.runtime)
              _ _ _ _ _ _ _ _ Ht eq_refl) as (_ & _ & H & _).
  destruct (H "/tmp/tmpa1b2c3.pdf" (mk_exn PermissionError "file in use")
              eq_refl eq_refl eq_refl) as (w3 & E & F & L).
  eexists _, w3. split; [exact E|]. split.
  - rewrite L. apply in_or_app. right. now left.
  - rewrite F. reflexivity.
Defined.

(** C9 as stated fails: every page is processed, the deletion raises
    FileNotFoundError, and the caller gets that exception instead of the
    success result. *)
Lemma deletion_failure_replaces_result :
  (exists page_results w1,
     request_try (RT := SmallRuntime.runtime)
       (Scenario.env_of None [Scenario.answer Scenario.enriched_sentence]
                        (Some (mk_exn FileNotFoundError "No such file or directory")))
       Scenario.book world0
     = (Ret page_results, Some "/tmp/tmpa1b2c3.pdf", w1))
  /\ fst (process_tts_request (RT := SmallRuntime.runtime)
            (Scenario.env_of None [Scenario.answer Scenario.enriched_sentence]
                             (Some (mk_exn FileNotFoundError "No such file or directory")))
            Scenario.book world0)
     = Raise (mk_exn FileNotFoundError "No such file or directory").
Proof.
  split; [|vm_compute; reflexivity].
  destruct (request_try (RT := SmallRuntime.runtime) _ Scenario.book world0)
    as [[r temp_pdf] w1] eqn:Ht.
  vm_compute in Ht. injection Ht as <- <- <-.
  eexists _, _. reflexivity.
Qed.

(** C1. The run of the claim: one page, two blocks, the enrichment set-up
    raising (fallback mode), no synthesis client, every file operation
    succeeding.  Line 70 of tts_service.py hands the block table itself to
    [generate_block_json], which documents a JSON string: the fallback
    returns [None], the loop over its result raises, and the request ends
    in an error result with no page. *)
Lemma fallback_request_ends_in_error :
  fst (process_tts_request (RT := SmallRuntime.runtime)
         Scenario.env_fallback Scenario.book world0)
  = Ret (mk_request_result "error" "'NoneType' object is not iterable" None
           (Some [("process_tts_request", "'NoneType' object is not iterable")])).
Proof. vm_compute. reflexivity. Qed.

(** The same document with an enrichment that answers both blocks with
    the three fields of the fallback template added, and no synthesis
    client: the request succeeds with one page descriptor; the
    raw block file holds the block table; the trimmed block file holds
    every raw block with [ssml], [dialog], [person_type] and an empty
    [timing] added; the metadata file has one entry per block, naming a
    zero-length audio file and an empty list of timing marks. *)
Example enriched_page_without_synthesis :
  exists pr w',
    process_tts_request (RT := SmallRuntime.runtime)
      Scenario.env_enriched Scenario.book world0
    = (Ret (mk_request_result "success" "Processed 1 page(s)." (Some [pr]) None), w')
    /\ file_get (json_path pr) (files w') = Some (FileJson 4 Scenario.page_one_json)
    /\ file_get (vertex_trimmed_path pr) (files w')
       = Some (FileJson 4
                 (PyDict (map (fun kv => (fst kv,
                                          PyDict (enriched_and_timed (as_record (snd kv)))))
                              (as_record Scenario.page_one_json))))
    /\ exists audio0 marks0 audio1 marks1,
         file_get (metadata_path pr) (files w')
         = Some (FileJson 4
                   (PyDict [("0", PyDict [("audio_path", PyStr audio0);
                                          ("speech_marks_path", PyStr marks0)]);
                            ("1", PyDict [("audio_path", PyStr audio1);
                                          ("speech_marks_path", PyStr marks1)])]))
         /\ file_get audio0 (files w') = Some (FileBytes EmptyString)
         /\ file_get marks0 (files w') = Some (FileJson 4 (PyList []))
         /\ file_get audio1 (files w') = Some (FileBytes EmptyString)
         /\ file_get marks1 (files w') = Some (FileJson 4 (PyList [])).
Proof.
  destruct (process_tts_request (RT := SmallRuntime.runtime)
              Scenario.env_enriched Scenario.book world0) as [r w'] eqn:E.
  vm_compute in E. injection E as <- <-.
  eexists _, _. split; [reflexivity|].
  split; [vm_compute; reflexivity|]. split; [vm_compute; reflexivity|].
  eexists _, _, _, _. split; [vm_compute; reflexivity|].
  repeat split; vm_compute; reflexivity.
Qed.

(* ================================================================== *)
(** * Further properties of the synthesis step *)
(* ================================================================== *)

Lemma lower_empty (s : string) : Text.lower s = EmptyString -> s = EmptyString.
Proof. destruct s; [reflexivity | discriminate]. Qed.

(** X1. The voice of a speaker category does not depend on the case of
    its letters; a category outside the table, the text null and [None]
    get the default narrator. *)
Theorem resolve_voice_ignores_case_and_defaults :
  resolve_voice (PyStr "Young Boy") = resolve_voice (PyStr "young boy")
  /\ resolve_voice (PyStr "young boy") = Ret "Justin"
  /\ (forall s t, Text.lower s = Text.lower t ->
        resolve_voice (PyStr s) = resolve_voice (PyStr t))
  /\ (forall s, od_get String.eqb (Text.lower s) PERSON_TYPE_TO_VOICE = None ->
        resolve_voice (PyStr s) = Ret "Joanna")
  /\ resolve_voice PyNone = Ret "Joanna"
  /\ resolve_voice (PyStr "null") = Ret "Joanna".
Proof.
  split; [reflexivity|]. split; [reflexivity|]. split; [|split; [|split; reflexivity]].
  - intros s t E. unfold resolve_voice. simpl truthy.
    destruct s as [|a s], t as [|b t]; try reflexivity; try discriminate.
    simpl Text.nonempty. now rewrite E.
  - intros s H. unfold resolve_voice. simpl truthy.
    destruct s as [|a s]; [reflexivity|]. simpl Text.nonempty. now rewrite H.
Qed.

(** X2. The timing marks are the decodable lines of the stream, in the
    order of the stream; a line that does not decode is dropped. *)
Theorem parse_speech_marks_skips_undecodable {RT : PyRuntime} (lines more : list string) :
  parse_speech_marks lines
  = flat_map (fun line =>
                match json_loads (Text.strip line) with
                | Some mark => [mark]
                | None => []
                end) lines
  /\ List.length (parse_speech_marks lines) <= List.length lines
  /\ parse_speech_marks (lines ++ more)
     = parse_speech_marks lines ++ parse_speech_marks more.
Proof.
  split; [|split].
  - induction lines as [|line rest IH]; simpl; [reflexivity|].
    rewrite IH. now destruct (json_loads (Text.strip line)).
  - induction lines as [|line rest IH]; simpl; [lia|].
    destruct (json_loads (Text.strip line)); simpl; lia.
  - induction lines as [|line rest IH]; simpl; [reflexivity|].
    rewrite IH. now destruct (json_loads (Text.strip line)).
Qed.

Lemma blocks_loop_skips {RT : PyRuntime} (env : environment)
    (output_dir fname : string) (page_number : nat) (keys : list py_key)
    (block_json : pyval) (audio_metadata : audio_metadata_t)
    (vertex_path : option string) (w : world) :
  (forall k, In k keys ->
     exists data,
       entry_data block_json k = Some (PyDict data)
       /\ truthy (dict_get_default "ssml" PyNone data) = false) ->
  exists w',
    blocks_loop env output_dir fname page_number keys block_json audio_metadata
                vertex_path w
    = (Ret (block_json, audio_metadata, vertex_path), w')
    /\ files w' = files w
    /\ logs w'
       = logs w ++ map (fun k => (WARNING,
                                  "No SSML found for block " +++ key_str k
                                  +++ " on page " +++ Text.of_nat page_number)) keys
    /\ llm_calls w' = llm_calls w.
Proof.
  revert w. induction keys as [|k keys IH]; intros w H.
  - exists w. simpl. rewrite app_nil_r. repeat split.
  - destruct (H k (or_introl eq_refl)) as (data & Hd & Hs).
    simpl. rewrite Hd, Hs. simpl. unfold bind, log at 1. simpl.
    match goal with
    | |- exists w', blocks_loop _ _ _ _ _ _ _ _ ?w0 = _ /\ _ =>
        destruct (IH w0) as (w' & E & F & L & C)
    end.
    + intros k' Hk'. apply H. now right.
    + exists w'. rewrite E. split; [reflexivity|]. simpl in F, L, C.
      split; [exact F|]. split; [|exact C].
      rewrite L, <- app_assoc. reflexivity.
Qed.

(** X3. Blocks whose record has no truthy [ssml] are passed over: the
    loop writes no file, leaves the mapping, the metadata and the binding
    of [vertex_path] as they are, and logs one warning for each block. *)
Theorem blocks_without_ssml_are_skipped {RT : PyRuntime} (env : environment)
    (output_dir fname : string) (page_number : nat) (keys : list py_key)
    (block_json : pyval) (audio_metadata : audio_metadata_t)
    (vertex_path : option string) (w : world) :
  (forall k, In k keys ->
     exists data,
       entry_data block_json k = Some (PyDict data)
       /\ truthy (dict_get_default "ssml" PyNone data) = false) ->
  exists w',
    blocks_loop env output_dir fname page_number keys block_json audio_metadata
                vertex_path w
    = (Ret (block_json, audio_metadata, vertex_path), w')
    /\ files w' = files w
    /\ logs w'
       = logs w ++ map (fun k => (WARNING,
                                  "No SSML found for block " +++ key_str k
                                  +++ " on page " +++ Text.of_nat page_number)) keys
    /\ llm_calls w' = llm_calls w.
Proof.
  revert w. induction keys as [|k keys IH]; intros w H.
  - exists w. simpl. rewrite app_nil_r. repeat split.
  - destruct (H k (or_introl eq_refl)) as (data & Hd & Hs).
    simpl. rewrite Hd, Hs. simpl. unfold bind, log at 1. simpl.
    match goal with
    | |- exists w', blocks_loop _ _ _ _ _ _ _ _ ?w0 = _ /\ _ =>
        destruct (IH w0) as (w' & E & F & L & C)
    end.
    + intros k' Hk'. apply H. now right.
    + exists w'. rewrite E. split; [reflexivity|]. simpl in F, L, C.
      split; [exact F|]. split; [|exact C].
      rewrite L, <- app_assoc. reflexivity.
Qed.

(** The heading of the page, enriched without [ssml], is passed over. *)
Lemma blocks_without_ssml_on_heading :
  exists w',
    blocks_loop (RT := SmallRuntime.runtime) Scenario.env_fallback "output/book" "book.pdf" 0
      [KeyStr "0"] (PyDict [("0", PyDict [("text", PyStr "Chapter One")])]) [] None world0
    = (Ret (PyDict [("0", PyDict [("text", PyStr "Chapter One")])], [], None), w')
    /\ logs w' = [(WARNING, "No SSML found for block 0 on page 0")].
Proof.
  destruct (blocks_without_ssml_are_skipped (RT := SmallRuntime.runtime)
              Scenario.env_fallback "output/book" "book.pdf" 0 [KeyStr "0"]
              (PyDict [("0", PyDict [("text", PyStr "Chapter One")])]) [] None world0)
    as (w' & E & _ & L & _).
  - intros k [<-|[]]. eexists. split; reflexivity.
  - exists w'. split; [exact E | exact L].
Defined.

(** An instance on the document of the scenario: when no block of the
    first page has [ssml], [vertex_path] is
    never bound, the page descriptor cannot be built, and the request
    ends in an error result; the metadata file of the page, empty, was
    written before. *)
Theorem first_page_without_ssml_ends_in_error :
  exists e w',
    process_tts_request (RT := SmallRuntime.runtime)
      (Scenario.env_of None
         [Scenario.answer (PyDict [("0", PyDict [("text", PyStr "Chapter One")])])]
         None)
      Scenario.book world0
    = (Ret (error_result e), w')
    /\ exn_cls e = UnboundLocalError
    /\ file_get "output/book-01-02-2025-10-00-00/page_0_audio_speech_marks_metadata.json"
                (files w')
       = Some (FileJson 4 (PyDict []))
    /\ In (WARNING, "No SSML found for block 0 on page 0") (logs w').
Proof.
  destruct (process_tts_request (RT := SmallRuntime.runtime)
              (Scenario.env_of None
                 [Scenario.answer (PyDict [("0", PyDict [("text", PyStr "Chapter One")])])]
                 None)
              Scenario.book world0) as [r w'] eqn:E.
  vm_compute in E. injection E as <- <-.
  exists (mk_exn UnboundLocalError
            "cannot access local variable 'vertex_path' where it is not associated with a value").
  eexists. split; [reflexivity|]. split; [reflexivity|].
  split; [vm_compute; reflexivity|]. simpl. tauto.
Qed.

(* ================================================================== *)
(** * The synthesis loop without a provider *)
(* ================================================================== *)

Lemma od_get_app_fresh {V : Type} (k : string) (pre rest : list (string * V)) :
  ~ In k (map fst pre) ->
  od_get String.eqb k (pre ++ rest) = od_get String.eqb k rest.
Proof.
  induction pre as [|[k' v] pre IH]; simpl; intros H; [reflexivity|].
  destruct (String.eqb k' k) eqn:E.
  - apply String.eqb_eq in E. tauto.
  - apply IH. tauto.
Qed.

Lemma od_set_app_fresh {V : Type} (k : string) (v v0 : V) (pre rest : list (string * V)) :
  ~ In k (map fst pre) ->
  od_set String.eqb k v (pre ++ (k, v0) :: rest) = pre ++ (k, v) :: rest.
Proof.
  induction pre as [|[k' v'] pre IH]; simpl; intros H.
  - now rewrite String.eqb_refl.
  - destruct (String.eqb k' k) eqn:E.
    + apply String.eqb_eq in E. tauto.
    + rewrite IH by tauto. reflexivity.
Qed.

Section SynthesisLoop.
Context {RT : PyRuntime}.
Variable env : environment.
Variables output_dir fname : string.
Variable page_number : nat.
Hypothesis no_client : polly_client env = None.
Hypothesis writable : forall path, open_error env path = None.

Lemma blocks_loop_step (k : string) (rest : list py_key) (cur record : dict)
    (audio_metadata : audio_metadata_t) (vertex_path : option string) (w : world) :
  dict_get k cur = Some (PyDict record) ->
  truthy (dict_get_default "ssml" PyNone record) = true ->
  exists w1,
    blocks_loop env output_dir fname page_number (KeyStr k :: rest) (PyDict cur)
                audio_metadata vertex_path w
    = blocks_loop env output_dir fname page_number rest
        (PyDict (dict_set k (PyDict (dict_set "timing" (PyList []) record)) cur))
        (od_set key_eqb (KeyStr k)
           (os_path_join output_dir
              ("block_" +++ (Text.of_nat page_number +++ "_" +++ k) +++ "_audio.mp3"),
            os_path_join output_dir
              ("block_" +++ (Text.of_nat page_number +++ "_" +++ k)
               +++ "_speech_marks.json"))
           audio_metadata)
        (Some (trimmed_blocks_path output_dir fname page_number)) w1
    /\ file_get (trimmed_blocks_path output_dir fname page_number) (files w1)
       = Some (FileJson 4
                 (PyDict (dict_set k (PyDict (dict_set "timing" (PyList []) record)) cur)))
    /\ llm_calls w1 = llm_calls w
    /\ sleeps w1 = sleeps w.
Proof.
  intros Hg Hs. eexists. split; [|split; [|split]].
  - cbn [blocks_loop entry_data]. rewrite Hg, Hs. cbn [negb].
    unfold bind at 1. rewrite no_client.
    unfold save_audio_and_speech_marks, bind, write_file, lift, add_timing.
    rewrite !writable. cbn [set_files fst snd key_str py_contains_str].
    rewrite (dict_has_get _ _ _ Hg). cbn [set_timing]. rewrite Hg.
    cbn [ret log fst snd files logs sleeps llm_calls]. reflexivity.
  - cbn [files]. apply (od_get_set_same String.eqb String.eqb_eq).
  - reflexivity.
  - reflexivity.
Qed.

Lemma blocks_loop_all (todo pre : dict) (audio_metadata : audio_metadata_t)
    (vertex_path : option string) (w : world) :
  NoDup (dict_keys (pre ++ todo)) ->
  all_with_ssml todo ->
  exists w',
    blocks_loop env output_dir fname page_number (map KeyStr (dict_keys todo))
                (PyDict (map timed pre ++ todo)) audio_metadata vertex_path w
    = (Ret (PyDict (map timed (pre ++ todo)),
            record_blocks output_dir page_number (dict_keys todo) audio_metadata,
            match todo with
            | [] => vertex_path
            | _ :: _ => Some (trimmed_blocks_path output_dir fname page_number)
            end), w')
    /\ (todo <> [] ->
        file_get (trimmed_blocks_path output_dir fname page_number) (files w')
        = Some (FileJson 4 (PyDict (map timed (pre ++ todo)))))
    /\ llm_calls w' = llm_calls w
    /\ sleeps w' = sleeps w.
Proof.
  revert pre audio_metadata vertex_path w.
  induction todo as [|[k v] todo IH]; intros pre audio_metadata vertex_path w Hnd Hall.
  - exists w. rewrite !app_nil_r. cbn.
    split; [reflexivity|]. split; [|split; reflexivity].
    intros H. now contradiction H.
  - destruct (Hall k v (or_introl eq_refl)) as (record & -> & Hs).
    assert (Hfresh : ~ In k (map fst (map timed pre))).
    { rewrite map_map. cbn [timed fst].
      unfold dict_keys in Hnd. rewrite map_app in Hnd. cbn in Hnd.
      apply NoDup_remove_2 in Hnd. intros Hin. apply Hnd, in_or_app. now left. }
    assert (Hg : dict_get k (map timed pre ++ (k, PyDict record) :: todo)
                 = Some (PyDict record)).
    { unfold dict_get. rewrite od_get_app_fresh by exact Hfresh.
      cbn. now rewrite String.eqb_refl. }
    destruct (blocks_loop_step k (map KeyStr (dict_keys todo)) _ record
                audio_metadata vertex_path w Hg Hs) as (w1 & E1 & F1 & L1 & S1).
    unfold dict_set in E1, F1. rewrite od_set_app_fresh in E1, F1 by exact Hfresh.
    assert (Hshape : map timed pre ++ (k, PyDict (od_set String.eqb "timing" (PyList []) record)) :: todo
                     = map timed (pre ++ [(k, PyDict record)]) ++ todo).
    { rewrite map_app, <- app_assoc. reflexivity. }
    rewrite Hshape in E1, F1.
    assert (Hnd' : NoDup (dict_keys ((pre ++ [(k, PyDict record)]) ++ todo))).
    { now rewrite <- app_assoc. }
    assert (Hall' : all_with_ssml todo).
    { intros k' v' Hin. apply (Hall k' v'). now right. }
    destruct (IH (pre ++ [(k, PyDict record)]) 
                 (od_set key_eqb (KeyStr k) (block_files output_dir page_number k) audio_metadata)
                 (Some (trimmed_blocks_path output_dir fname page_number)) w1 Hnd' Hall')
      as (w' & E2 & F2 & L2 & S2).
    assert (Hflat : (pre ++ [(k, PyDict record)]) ++ todo
                    = pre ++ (k, PyDict record) :: todo).
    { now rewrite <- app_assoc. }
    exists w'. rewrite Hflat in E2, F2.
    split; [|split; [|split]].
    + unfold dict_keys in *. cbn [map fst]. unfold block_files in E2.
      rewrite E1, E2.
      destruct todo; reflexivity.
    + intros _. destruct todo as [|kv todo'].
      * apply (f_equal snd) in E2. cbn in E2. subst w'. rewrite app_nil_r in F1. exact F1.
      * apply F2. discriminate.
    + congruence.
    + congruence.
Qed.

(** X5. Without a synthesis client and with every file writable, the
    synthesis loop over a mapping whose blocks all carry a truthy [ssml]
    ends, for every such mapping with distinct keys, with each block
    given an empty [timing] list, one audio metadata entry per block, no
    provider call and no delay; after a non-empty mapping [vertex_path]
    is bound and the trimmed file holds the final mapping. *)
Theorem synthesis_loop_without_provider (blocks : dict)
    (audio_metadata : audio_metadata_t) (vertex_path : option string) (w : world) :
  NoDup (dict_keys blocks) ->
  all_with_ssml blocks ->
  exists w',
    blocks_loop env output_dir fname page_number (map KeyStr (dict_keys blocks))
                (PyDict blocks) audio_metadata vertex_path w
    = (Ret (PyDict (map timed blocks),
            record_blocks output_dir page_number (dict_keys blocks) audio_metadata,
            match blocks with
            | [] => vertex_path
            | _ :: _ => Some (trimmed_blocks_path output_dir fname page_number)
            end), w')
    /\ dict_keys (map timed blocks) = dict_keys blocks
    /\ (blocks <> [] ->
        file_get (trimmed_blocks_path output_dir fname page_number) (files w')
        = Some (FileJson 4 (PyDict (map timed blocks))))
    /\ llm_calls w' = llm_calls w
    /\ sleeps w' = sleeps w.
Proof.
  intros Hnd Hall.
  destruct (blocks_loop_all blocks [] audio_metadata vertex_path w Hnd Hall)
    as (w' & E & F & L & S).
  exists w'. cbn [map app] in E, F.
  repeat split; try assumption.
  unfold dict_keys. rewrite map_map. reflexivity.
Qed.
End SynthesisLoop.

(** Two blocks with [ssml], no client: both gain an empty [timing]. *)
Lemma synthesis_loop_on_two_blocks :
  exists w',
    blocks_loop (RT := SmallRuntime.runtime) Scenario.env_fallback "output/book" "book.pdf" 0
      [KeyStr "0"; KeyStr "1"]
      (PyDict [("0", PyDict [("text", PyStr "Chapter One");
                             ("ssml", PyStr "<speak>Chapter One</speak>")]);
               ("1", PyDict [("text", PyStr "Once upon a time");
                             ("ssml", PyStr "<speak>Once upon a time</speak>")])])
      [] None world0
    = (Ret (PyDict [("0", PyDict [("text", PyStr "Chapter One");
                                  ("ssml", PyStr "<speak>Chapter One</speak>");
                                  ("timing", PyList [])]);
                    ("1", PyDict [("text", PyStr "Once upon a time");
                                  ("ssml", PyStr "<speak>Once upon a time</speak>");
                                  ("timing", PyList [])])],
            [(KeyStr "0", ("output/book/block_0_0_audio.mp3",
                           "output/book/block_0_0_speech_marks.json"));
             (KeyStr "1", ("output/book/block_0_1_audio.mp3",
                           "output/book/block_0_1_speech_marks.json"))],
            Some "output/book/book.pdf_page_0_trimmed_blocks.json"), w')
    /\ llm_calls w' = [] /\ sleeps w' = [].
Proof.
  destruct (synthesis_loop_without_provider (RT := SmallRuntime.runtime)
              Scenario.env_fallback "output/book" "book.pdf" 0 eq_refl (fun _ => eq_refl)
              [("0", PyDict [("text", PyStr "Chapter One");
                             ("ssml", PyStr "<speak>Chapter One</speak>")]);
               ("1", PyDict [("text", PyStr "Once upon a time");
                             ("ssml", PyStr "<speak>Once upon a time</speak>")])]
              [] None world0)
    as (w' & E & _ & _ & L & S).
  - repeat constructor; simpl; intuition discriminate.
  - intros k v [H|[H|[]]]; injection H as <- <-; eexists; split; reflexivity.
  - exists w'. split; [exact E | split; [exact L | exact S]].
Defined.

(* ================================================================== *)
(** * Candidate extraction: what the candidate is made of *)
(* ================================================================== *)

Lemma part_of_refl (s : string) : part_of s s.
Proof. exists EmptyString, EmptyString. simpl. now rewrite append_nil_r. Qed.

Lemma part_of_trans (s t u : string) : part_of s t -> part_of t u -> part_of s u.
Proof.
  intros (a & b & ->) (c & d & ->). exists (c +++ a), (b +++ d).
  now rewrite !append_assoc.
Qed.

Lemma part_of_drop (n : nat) (s : string) : part_of (Text.drop n s) s.
Proof.
  exists (Text.take n s), EmptyString. rewrite append_nil_r. symmetry. apply take_drop.
Qed.

Lemma part_of_take (n : nat) (s : string) : part_of (Text.take n s) s.
Proof. exists EmptyString, (Text.drop n s). simpl. symmetry. apply take_drop. Qed.

Lemma lstrip_is_suffix (s : string) : exists p, s = p +++ Text.lstrip s.
Proof.
  induction s as [|c s [p IH]]; simpl.
  - now exists EmptyString.
  - destruct (Text.isspace c).
    + exists (String c p). simpl. now rewrite <- IH.
    + now exists EmptyString.
Qed.

Lemma rstrip_is_prefix (s : string) : exists q, s = Text.rstrip s +++ q.
Proof.
  induction s as [|c s [q IH]]; simpl.
  - now exists EmptyString.
  - destruct (Text.rstrip s) as [|c' r].
    + destruct (Text.isspace c).
      * now exists (String c s).
      * now exists s.
    + exists q. simpl in *. now rewrite <- IH.
Qed.

Lemma part_of_strip (s : string) : part_of (Text.strip s) s.
Proof.
  unfold Text.strip. destruct (lstrip_is_suffix s) as [p Hp].
  destruct (rstrip_is_prefix (Text.lstrip s)) as [q Hq].
  exists p, q. now rewrite <- Hq.
Qed.

Lemma part_of_strip_markdown_fence (s : string) : part_of (strip_markdown_fence s) s.
Proof.
  unfold strip_markdown_fence. destruct (Text.startswith s "```json").
  - apply part_of_trans with (Text.drop 7 s); [|apply part_of_drop].
    eapply part_of_trans; [apply part_of_strip|].
    destruct (Text.endswith (Text.drop 7 s) "```").
    + apply part_of_take.
    + apply part_of_refl.
  - apply part_of_refl.
Qed.

Lemma part_of_slice_outer_braces (s : string) : part_of (slice_outer_braces s) s.
Proof.
  unfold slice_outer_braces.
  match goal with |- part_of (if ?c then _ else _) _ => destruct c end.
  - unfold Text.slice. eapply part_of_trans; [apply part_of_take | apply part_of_drop].
  - apply part_of_refl.
Qed.

(** X6. The candidate is always a contiguous part of the response: the
    extraction removes text at both ends and never adds or changes a
    character; in particular it is never longer than the response. *)
Theorem clean_candidate_is_part_of_response (llm_response_text : string) :
  part_of (clean_llm_response_to_json_string llm_response_text) llm_response_text
  /\ String.length (clean_llm_response_to_json_string llm_response_text)
     <= String.length llm_response_text.
Proof.
  assert (H : part_of (clean_llm_response_to_json_string llm_response_text)
                      llm_response_text).
  { unfold clean_llm_response_to_json_string.
    eapply part_of_trans; [apply part_of_slice_outer_braces|].
    eapply part_of_trans; [apply part_of_strip_markdown_fence | apply part_of_strip]. }
  split; [exact H|].
  destruct H as (a & b & E). rewrite E at 2. rewrite !length_append. lia.
Qed.

(** ** The braces test *)

Lemma index_of_split (c : ascii) (s : string) (i : nat) :
  Text.index_of c s = Some i ->
  s = Text.take i s +++ String c (Text.drop (S i) s)
  /\ Text.index_of c (Text.take i s) = None.
Proof.
  revert i. induction s as [|a s IH]; intros i; simpl; [discriminate|].
  destruct (Ascii.eqb a c) eqn:E.
  - intros [= <-]. apply Ascii.eqb_eq in E. subst a. now split.
  - destruct (Text.index_of c s) as [k|]; [|discriminate].
    intros [= <-]. destruct (IH k eq_refl) as [Hs Hn]. split.
    + change (String a s = String a (Text.take k s +++ String c (Text.drop (S k) s))).
      f_equal. exact Hs.
    + cbn [Text.take Text.index_of]. now rewrite E, Hn.
Qed.

Lemma rindex_of_none_inv (c : ascii) (s : string) :
  Text.rindex_of c s = None -> Text.index_of c s = None.
Proof.
  induction s as [|a s IH]; simpl; [reflexivity|].
  destruct (Text.rindex_of c s); [discriminate|].
  destruct (Ascii.eqb a c); [discriminate|]. intros _. now rewrite IH.
Qed.

Lemma rindex_of_split (c : ascii) (s : string) (j : nat) :
  Text.rindex_of c s = Some j ->
  s = Text.take j s +++ String c (Text.drop (S j) s)
  /\ Text.index_of c (Text.drop (S j) s) = None.
Proof.
  revert j. induction s as [|a s IH]; intros j; simpl; [discriminate|].
  destruct (Text.rindex_of c s) as [k|] eqn:R.
  - intros [= <-]. destruct (IH k eq_refl) as [Hs Hn]. split.
    + change (String a s = String a (Text.take k s +++ String c (Text.drop (S k) s))).
      f_equal. exact Hs.
    + exact Hn.
  - destruct (Ascii.eqb a c) eqn:E; [|discriminate].
    intros [= <-]. apply Ascii.eqb_eq in E. subst a.
    split; [reflexivity | now apply rindex_of_none_inv].
Qed.

Lemma drop_to_mark (k j : nat) (c : ascii) (s : string) :
  k <= j ->
  s = Text.take j s +++ String c (Text.drop (S j) s) ->
  Text.drop k s = Text.take (j - k) (Text.drop k s) +++ String c (Text.drop (S j) s).
Proof.
  revert j s. induction k as [|k IH]; intros j s Hk E.
  - simpl. now rewrite Nat.sub_0_r.
  - destruct j as [|j]; [lia|].
    destruct s as [|a s]; [discriminate|].
    change (String a s = String a (Text.take j s +++ String c (Text.drop (S j) s))) in E.
    injection E as E.
    change (Text.drop k s
            = Text.take (j - k) (Text.drop k s) +++ String c (Text.drop (S j) s)).
    apply IH; [lia | exact E].
Qed.

Lemma braces_in_order_wraps (t : string) :
  braces_in_order t -> exists m, wraps m t.
Proof.
  unfold braces_in_order, Text.find, Text.rfind. intros [H0 Hlt].
  destruct (Text.index_of "{" t) as [i|] eqn:Ei; [|lia].
  destruct (Text.rindex_of "}" t) as [j|] eqn:Ej; [|lia].
  destruct (index_of_split _ _ _ Ei) as [Hs Hn].
  destruct (rindex_of_split _ _ _ Ej) as [Hr Hq].
  pose proof (drop_to_mark (S i) j "}" t ltac:(lia) Hr) as Hd.
  exists (Text.take (j - S i) (Text.drop (S i) t)),
         (Text.take i t), (Text.drop (S j) t).
  split; [|split; assumption].
  now rewrite <- Hd.
Qed.

Lemma slice_outer_braces_as_is (t : string) :
  ~ braces_in_order t -> slice_outer_braces t = t.
Proof.
  unfold braces_in_order, slice_outer_braces. intros H.
  destruct (negb (Text.find "{" t =? -1)%Z && negb (Text.rfind "}" t =? -1)%Z
            && (Text.find "{" t <? Text.rfind "}" t)%Z) eqn:E; [|reflexivity].
  exfalso. apply H.
  apply andb_true_iff in E. destruct E as [E Hlt].
  apply andb_true_iff in E. destruct E as [Hf _].
  apply negb_true_iff, Z.eqb_neq in Hf. apply Z.ltb_lt in Hlt.
  split; [|exact Hlt].
  unfold Text.find in *. destruct (Text.index_of "{" t); lia.
Qed.

(** X7. When the fence-stripped response holds an opening brace before a
    closing one, the candidate begins at its first opening brace and ends
    at its last closing brace: the fence-stripped response is
    [a { m } b] with no opening brace in [a] and no closing brace in [b],
    the two braces stand at the positions that [find] and [rfind] give,
    and the candidate is [{ m }]; cleaning it again changes nothing.
    Otherwise the fence-stripped response is returned as it is.  The
    candidate is empty exactly when the fence-stripped response is, the
    only case in which the retry of lines 185-188 is taken. *)
Theorem clean_candidate_shape (llm_response_text : string) :
  (braces_in_order (strip_markdown_fence (Text.strip llm_response_text)) ->
   exists a m b,
     strip_markdown_fence (Text.strip llm_response_text)
     = a +++ "{" +++ m +++ "}" +++ b
     /\ Text.find "{" a = (-1)%Z
     /\ Text.find "}" b = (-1)%Z
     /\ Text.find "{" (strip_markdown_fence (Text.strip llm_response_text))
        = Z.of_nat (String.length a)
     /\ Text.rfind "}" (strip_markdown_fence (Text.strip llm_response_text))
        = Z.of_nat (String.length a + 1 + String.length m)
     /\ clean_llm_response_to_json_string llm_response_text = "{" +++ m +++ "}"
     /\ clean_llm_response_to_json_string
          (clean_llm_response_to_json_string llm_response_text)
        = clean_llm_response_to_json_string llm_response_text)
  /\ (~ braces_in_order (strip_markdown_fence (Text.strip llm_response_text)) ->
      clean_llm_response_to_json_string llm_response_text
      = strip_markdown_fence (Text.strip llm_response_text))
  /\ (Text.nonempty (clean_llm_response_to_json_string llm_response_text) = false
      <-> strip_markdown_fence (Text.strip llm_response_text) = EmptyString).
Proof.
  assert (Hyes : braces_in_order (strip_markdown_fence (Text.strip llm_response_text)) ->
                 exists m, wraps m (strip_markdown_fence (Text.strip llm_response_text))
                           /\ clean_llm_response_to_json_string llm_response_text
                              = "{" +++ m +++ "}").
  { intros H. destruct (braces_in_order_wraps _ H) as [m Hm]. exists m.
    split; [exact Hm|].
    unfold clean_llm_response_to_json_string. now apply slice_outer_braces_wraps. }
  assert (Hno : ~ braces_in_order (strip_markdown_fence (Text.strip llm_response_text)) ->
                clean_llm_response_to_json_string llm_response_text
                = strip_markdown_fence (Text.strip llm_response_text)).
  { intros H. unfold clean_llm_response_to_json_string.
    now apply slice_outer_braces_as_is. }
  split; [|split; [exact Hno|]].
  - intros H. destruct (Hyes H) as (m & (a & b & Ht & Ha & Hb) & Hm).
    exists a, m, b.
    split; [exact Ht|].
    split; [unfold Text.find; now rewrite Ha|].
    split; [unfold Text.find; now rewrite Hb|].
    split; [|split; [|split; [exact Hm|]]].
    + rewrite Ht. unfold Text.find.
      now rewrite (index_of_append_hit "{" a _ Ha).
    + rewrite Ht. unfold Text.rfind.
      replace (a +++ String "{" (m +++ String "}" b))
        with ((a +++ String "{" m) +++ String "}" b)
        by (rewrite append_assoc; reflexivity).
      rewrite (rindex_of_append_hit "}" _ b Hb).
      rewrite length_append. cbn [String.length]. f_equal. lia.
    + rewrite Hm. apply clean_wraps.
      exists EmptyString, EmptyString. repeat split.
  - split.
    + intros He.
      destruct (Z_le_dec 0 (Text.find "{" (strip_markdown_fence (Text.strip llm_response_text))))
        as [H0|H0];
      [destruct (Z_lt_dec (Text.find "{" (strip_markdown_fence (Text.strip llm_response_text)))
                          (Text.rfind "}" (strip_markdown_fence (Text.strip llm_response_text))))
         as [H1|H1]|].
      * destruct (Hyes (conj H0 H1)) as (m & _ & Hm). rewrite Hm in He. discriminate.
      * rewrite Hno in He by (intros [_ ?]; contradiction).
        now destruct (strip_markdown_fence (Text.strip llm_response_text)).
      * rewrite Hno in He by (intros [? _]; contradiction).
        now destruct (strip_markdown_fence (Text.strip llm_response_text)).
    + intros He. rewrite Hno; [now rewrite He|].
      rewrite He. unfold braces_in_order. cbn. lia.
Qed.

(* ================================================================== *)
(** * Annotation: drawing, missing colours, tables that are not empty *)
(* ================================================================== *)

Lemma annotate_words_drawn (ws : list word_tuple) (color_palette : list (Z * color))
    (img : image) (bd : block_table) :
  palette_covers color_palette ws ->
  annotate_words ws color_palette img bd
  = Ret (mk_image (raster img) (drawn img ++ flat_map (word_drawing color_palette) ws),
         fold_left table_step ws bd).
Proof.
  revert img bd. induction ws as [|w ws IH]; intros img bd Hc.
  - simpl. rewrite app_nil_r. now destruct img.
  - assert (Hc' : palette_covers color_palette ws)
      by (intros w' Hw'; apply Hc; now right).
    cbn [annotate_words flat_map fold_left]. unfold word_drawing at 1.
    destruct (palette_get (block_no w) color_palette) as [c|] eqn:Ec.
    2:{ exfalso. apply (Hc w); [now left | exact Ec]. }
    rewrite IH by exact Hc'. f_equal. f_equal.
    + unfold word_rect.
      destruct ((word_no w =? 0)%Z && (line_no w =? 0)%Z);
        unfold draw; cbn [raster drawn]; f_equal; rewrite <- !app_assoc; reflexivity.
    + f_equal. unfold table_step, word_rect, bd_has, od_has, bd_get, bd_set.
      destruct (od_get Z.eqb (block_no w) bd) as [b|] eqn:Eg.
      * now rewrite Eg.
      * rewrite (od_get_set_same Z.eqb Z.eqb_eq).
        now rewrite (od_set_set Z.eqb Z.eqb_eq).
Qed.

Lemma annotate_words_missing (pre post : list word_tuple) (w : word_tuple)
    (color_palette : list (Z * color)) (img : image) (bd : block_table) :
  palette_covers color_palette pre ->
  palette_get (block_no w) color_palette = None ->
  annotate_words (pre ++ w :: post) color_palette img bd
  = Raise (mk_exn KeyError (Text.of_Z (block_no w))).
Proof.
  revert img bd. induction pre as [|p pre IH]; intros img bd Hc Hw.
  - cbn [app annotate_words]. now rewrite Hw.
  - cbn [app annotate_words].
    destruct (palette_get (block_no p) color_palette) as [c|] eqn:Ec.
    2:{ exfalso. apply (Hc p); [now left | exact Ec]. }
    apply IH; [|exact Hw]. intros w' Hw'. apply Hc. now right.
Qed.

(** X8. A word whose block has no colour in the palette stops the
    annotation with KeyError on that block id, whatever the table held
    and however many words were handled before it. *)
Theorem annotate_missing_colour_raises (img : image) (pre post : list word_tuple)
    (w : word_tuple) (color_palette : list (Z * color)) (block_details : block_table) :
  palette_covers color_palette pre ->
  palette_get (block_no w) color_palette = None ->
  annotate_image_with_words img (pre ++ w :: post) color_palette block_details
  = Raise (mk_exn KeyError (Text.of_Z (block_no w))).
Proof.
  intros Hc Hw. unfold annotate_image_with_words.
  now rewrite annotate_words_missing.
Qed.

(** X9. With a colour for every block, the annotation leaves the raster
    alone and draws, after what was drawn before and in word order, one
    rectangle of width 2 per word in the colour of its block, followed by
    the label of the block for a word that is number 0 of line 0. *)
Theorem annotate_draws_each_word (img : image) (ws : list word_tuple)
    (color_palette : list (Z * color)) (block_details : block_table) :
  palette_covers color_palette ws ->
  exists img' bd,
    annotate_image_with_words img ws color_palette block_details = Ret (img', bd)
    /\ raster img' = raster img
    /\ drawn img' = drawn img ++ flat_map (word_drawing color_palette) ws
    /\ List.length (filter (fun c => match c with DrawRectangle _ _ _ => true | _ => false end)
                           (flat_map (word_drawing color_palette) ws))
       = List.length ws.
Proof.
  intros Hc. unfold annotate_image_with_words.
  rewrite annotate_words_drawn by exact Hc.
  eexists _, _. split; [reflexivity|]. split; [reflexivity|]. split; [reflexivity|].
  induction ws as [|w ws IH]; [reflexivity|].
  assert (Hc' : palette_covers color_palette ws)
    by (intros w' Hw'; apply Hc; now right).
  cbn [flat_map]. rewrite filter_app, length_app, IH by exact Hc'.
  unfold word_drawing.
  destruct (palette_get (block_no w) color_palette) as [c|] eqn:Ec.
  2:{ exfalso. apply (Hc w); [now left | exact Ec]. }
  destruct ((word_no w =? 0)%Z && (line_no w =? 0)%Z); reflexivity.
Qed.

Lemma extend_nil (b : block) : extend b [] = b.
Proof.
  unfold extend. cbn [map spaced]. rewrite append_nil_r, !app_nil_r. now destruct b.
Qed.

(** X10. The block table is an accumulator.  Called on a table that
    already holds blocks, the annotation keeps their order and puts new
    block ids after them in first-seen order; every block of the result
    is the block found (or an empty one) with the new words, rectangles
    and spaced text appended, and its text stripped: a block that gets no
    word only has its text stripped, and new words follow an old text
    that was stripped before without a space between them. *)
Theorem annotate_extends_block_table (img : image) (ws : list word_tuple)
    (color_palette : list (Z * color)) (block_details : block_table) :
  palette_covers color_palette ws ->
  NoDup (map fst block_details) ->
  exists img' bd,
    annotate_image_with_words img ws color_palette block_details = Ret (img', bd)
    /\ map fst bd
       = map fst block_details ++ new_keys (map fst block_details) (map block_no ws)
    /\ (forall b blk, In (b, blk) bd ->
          blk = strip_block (extend (block_or_new b block_details) (words_of_block b ws))).
Proof.
  intros Hc Hn. unfold annotate_image_with_words.
  rewrite annotate_words_drawn by exact Hc.
  eexists _, _. split; [reflexivity|]. split.
  - rewrite map_map. cbn [fst]. apply table_keys.
  - intros b blk Hin. apply in_map_iff in Hin.
    destruct Hin as ([b' blk'] & Heq & Hin). cbn [fst snd] in Heq.
    inversion Heq; subst b blk; clear Heq. f_equal.
    assert (Hn' : NoDup (map fst (fold_left table_step ws block_details))).
    { rewrite table_keys. now apply new_keys_nodup. }
    pose proof (od_get_in Z.eqb Z.eqb_eq _ _ _ Hn' Hin) as Hg.
    fold (bd_get b' (fold_left table_step ws block_details)) in Hg.
    rewrite table_get in Hg. unfold block_or_new.
    destruct (words_of_block b' ws) as [|w l] eqn:Ew.
    + cbn in Hg. rewrite Hg. now rewrite extend_nil.
    + rewrite grow_extend in Hg by discriminate. now inversion Hg.
Qed.

(** X11. In the page loop the palette is built from the block ids of the
    very words that are annotated, so the annotation of a page cannot
    fail; and the block table it gives is the same whatever colours the
    random source draws. *)
Theorem page_annotation_never_fails (img : image) (ws : list word_tuple) :
  exists bd,
    map fst bd = first_seen (map block_no ws)
    /\ forall env : environment,
         exists img',
           annotate_image_with_words img ws
             (generate_color_palette env (block_id_set ws)) [] = Ret (img', bd).
Proof.
  exists (map (fun kb => (fst kb, strip_block (snd kb))) (fold_left table_step ws [])).
  split.
  - rewrite map_map. cbn [fst]. apply (table_keys ws []).
  - intros env. unfold annotate_image_with_words.
    rewrite annotate_words_drawn by apply generate_color_palette_covers.
    eexists. reflexivity.
Qed.

(** A palette that knows block 0 only: the first word of block 1 stops
    the annotation of the page. *)
Lemma annotate_missing_colour_on_page_one :
  annotate_image_with_words (mk_image "RGB" []) Scenario.page_one_words
    [(0%Z, (255, 0, 0)%Z)] []
  = Raise (mk_exn KeyError "1").
Proof.
  apply (annotate_missing_colour_raises (mk_image "RGB" [])
           (firstn 2 Scenario.page_one_words) (skipn 3 Scenario.page_one_words)
           (Scenario.word_at 72 100 "Once" 1 0 0) [(0%Z, (255, 0, 0)%Z)] []).
  - intros w [<-|[<-|[]]]; discriminate.
  - reflexivity.
Defined.

(** The page of the scenario: six rectangles and the two block labels. *)
Lemma annotate_draws_on_page_one :
  exists img' bd,
    annotate_image_with_words (mk_image "RGB" []) Scenario.page_one_words
      (generate_color_palette Scenario.env_fallback (block_id_set Scenario.page_one_words)) []
    = Ret (img', bd)
    /\ raster img' = "RGB"
    /\ List.length (drawn img') = 8.
Proof.
  destruct (annotate_draws_each_word (mk_image "RGB" []) Scenario.page_one_words
              (generate_color_palette Scenario.env_fallback
                 (block_id_set Scenario.page_one_words)) []
              (generate_color_palette_covers _ _))
    as (img' & bd & E & R & D & _).
  exists img', bd. split; [exact E|]. split; [exact R|]. now rewrite D.
Defined.

(** A table that holds the stripped text of two words: a third word is
    glued to it. *)
Lemma annotate_extends_stripped_block :
  exists img' bd,
    annotate_image_with_words (mk_image "RGB" [])
      [Scenario.word_at 148 72 "c" 0 0 2] [(0%Z, (255, 0, 0)%Z)]
      [(0%Z, mk_block "a b" ["a"; "b"] [])]
    = Ret (img', bd)
    /\ map fst bd = [0%Z]
    /\ forall b blk, In (b, blk) bd ->
         text blk = "a bc" /\ words blk = ["a"; "b"; "c"].
Proof.
  destruct (annotate_extends_block_table (mk_image "RGB" [])
              [Scenario.word_at 148 72 "c" 0 0 2] [(0%Z, (255, 0, 0)%Z)]
              [(0%Z, mk_block "a b" ["a"; "b"] [])])
    as (img' & bd & E & K & B).
  - intros w [<-|[]]. discriminate.
  - repeat constructor. intros [].
  - exists img', bd. split; [exact E|]. split; [exact K|].
    intros b blk Hin. rewrite (B b blk Hin).
    assert (Hb : In b (map fst bd)) by (apply in_map_iff; now exists (b, blk)).
    rewrite K in Hb. destruct Hb as [<-|[]]. split; reflexivity.
Defined.

(* ================================================================== *)
(** * Synthesis with a provider *)
(* ================================================================== *)

(** X12. With a synthesis client whose two calls succeed, the audio file
    holds the bytes of the first call, and the list of marks parsed from
    the stream of the second call is both what the marks file holds and
    the [timing] of the block in the caller's mapping; both calls are made
    with the voice resolved from [person_type]. *)
Theorem synthesis_with_client_records_marks {RT : PyRuntime} (env : environment)
    (client : polly) (block_id : string) (ssml_output : pyval) (output_dir : string)
    (person_type : pyval) (block_json : dict) (block_key : py_key)
    (record : dict) (voice_id audio : string) (stream : list string) (w : world) :
  let audio_path := os_path_join output_dir ("block_" +++ block_id +++ "_audio.mp3") in
  let speech_marks_path :=
    os_path_join output_dir ("block_" +++ block_id +++ "_speech_marks.json") in
  let speech_marks := PyList (parse_speech_marks stream) in
  resolve_voice person_type = Ret voice_id ->
  synthesize_audio client ssml_output voice_id = Ret (Ret audio) ->
  synthesize_marks client ssml_output voice_id = Ret stream ->
  open_error env audio_path = None ->
  open_error env speech_marks_path = None ->
  dict_get (key_str block_key) block_json = Some (PyDict record) ->
  exists w',
    save_audio_and_speech_marks env (Some client) block_id ssml_output output_dir
                                person_type (PyDict block_json) block_key w
    = (Ret (audio_path, speech_marks_path,
            PyDict (dict_set (key_str block_key)
                      (PyDict (dict_set "timing" speech_marks record)) block_json)), w')
    /\ files w' = file_set speech_marks_path (FileJson 4 speech_marks)
                    (file_set audio_path (FileBytes audio) (files w))
    /\ file_get speech_marks_path (files w') = Some (FileJson 4 speech_marks)
    /\ (audio_path <> speech_marks_path ->
        file_get audio_path (files w') = Some (FileBytes audio))
    /\ logs w' = logs w.
Proof.
  intros audio_path speech_marks_path speech_marks Hv Ha Hm Hoa Hom Hg.
  eexists. split.
  - unfold save_audio_and_speech_marks, bind, write_stream, write_file, lift, add_timing.
    rewrite Hv. cbn iota. rewrite Ha. cbn iota.
    fold audio_path speech_marks_path. rewrite Hoa. cbn [set_files fst snd].
    rewrite Hm. cbn iota. rewrite Hom. cbn [set_files fst snd py_contains_str].
    rewrite (dict_has_get _ _ _ Hg). cbn [set_timing]. rewrite Hg.
    reflexivity.
  - cbn [files logs]. split; [reflexivity|].
    split; [apply (od_get_set_same String.eqb String.eqb_eq)|].
    split; [|reflexivity].
    intros Hne. unfold file_get, file_set.
    rewrite (od_get_set_other String.eqb String.eqb_eq) by exact Hne.
    apply (od_get_set_same String.eqb String.eqb_eq).
Qed.

(** X13. How a synthesis with a client fails.  A [person_type] that is
    truthy and no text raises AttributeError; that failure, and an audio
    call that raises, leave the files as they were.  When the audio call
    returns but its stream cannot be read, the audio file was opened
    before: it is left empty.  A failure of the marks call, or of reading
    its stream, comes after the audio file was written: the exception
    leaves the call with the audio file on disk and no marks file
    written. *)
Theorem synthesis_failure_leaves_audio_file {RT : PyRuntime} (env : environment)
    (client : polly) (block_id : string) (ssml_output : pyval) (output_dir : string)
    (person_type : pyval) (block_json : pyval) (block_key : py_key) (w : world) :
  let audio_path := os_path_join output_dir ("block_" +++ block_id +++ "_audio.mp3") in
  let call :=
    save_audio_and_speech_marks env (Some client) block_id ssml_output output_dir
                                person_type block_json block_key w in
  (truthy person_type = true -> (forall s, person_type <> PyStr s) ->
   exists e, exn_cls e = AttributeError /\ call = (Raise e, w))
  /\ (forall voice_id e,
        resolve_voice person_type = Ret voice_id ->
        synthesize_audio client ssml_output voice_id = Raise e ->
        call = (Raise e, w))
  /\ (forall voice_id e,
        resolve_voice person_type = Ret voice_id ->
        synthesize_audio client ssml_output voice_id = Ret (Raise e) ->
        open_error env audio_path = None ->
        exists w',
          call = (Raise e, w')
          /\ files w' = file_set audio_path (FileBytes EmptyString) (files w)
          /\ file_get audio_path (files w') = Some (FileBytes EmptyString))
  /\ (forall voice_id audio e,
        resolve_voice person_type = Ret voice_id ->
        synthesize_audio client ssml_output voice_id = Ret (Ret audio) ->
        open_error env audio_path = None ->
        synthesize_marks client ssml_output voice_id = Raise e ->
        exists w',
          call = (Raise e, w')
          /\ files w' = file_set audio_path (FileBytes audio) (files w)
          /\ file_get audio_path (files w') = Some (FileBytes audio)).
Proof.
  intros audio_path call. unfold call, save_audio_and_speech_marks, bind, lift.
  split; [|split; [|split]].
  - intros Ht Hs. unfold resolve_voice. rewrite Ht.
    destruct person_type; try (eexists; split; [|reflexivity]; reflexivity).
    exfalso. now apply (Hs s).
  - intros voice_id e Hv Ha. now rewrite Hv, Ha.
  - intros voice_id e Hv Ha Ho. rewrite Hv, Ha. cbn iota.
    unfold write_stream, bind, write_file. fold audio_path. rewrite Ho.
    cbn [set_files raise fst snd].
    eexists. split; [reflexivity|]. cbn [files].
    split; [reflexivity | apply (od_get_set_same String.eqb String.eqb_eq)].
  - intros voice_id audio e Hv Ha Ho Hm. rewrite Hv, Ha. cbn iota.
    unfold write_stream, write_file. fold audio_path. rewrite Ho. cbn [set_files fst snd].
    rewrite Hm. eexists. split; [reflexivity|]. cbn [files].
    split; [reflexivity | apply (od_get_set_same String.eqb String.eqb_eq)].
Qed.

(** The sentence of the page, read by the narrator: two marks out of four
    lines, in the file and in the mapping. *)
Lemma synthesis_with_client_on_sentence :
  exists w',
    save_audio_and_speech_marks (RT := SmallRuntime.runtime) Scenario.env_fallback
      (Some Scenario.narrator) "0_1" (PyStr "<speak>Once upon</speak>") "output/book"
      (PyStr "Old Man") (PyDict [("1", PyDict [("text", PyStr "Once upon")])])
      (KeyStr "1") world0
    = (Ret ("output/book/block_0_1_audio.mp3", "output/book/block_0_1_speech_marks.json",
            PyDict [("1", PyDict [("text", PyStr "Once upon");
                                  ("timing",
                                   PyList [PyDict [("time", PyInt 6); ("value", PyStr "Once")];
                                           PyDict [("time", PyInt 340);
                                                   ("value", PyStr "upon")]])])]), w')
    /\ file_get "output/book/block_0_1_audio.mp3" (files w')
       = Some (FileBytes "ID3 Matthew")
    /\ file_get "output/book/block_0_1_speech_marks.json" (files w')
       = Some (FileJson 4
                 (PyList [PyDict [("time", PyInt 6); ("value", PyStr "Once")];
                          PyDict [("time", PyInt 340); ("value", PyStr "upon")]])).
Proof.
  destruct (synthesis_with_client_records_marks (RT := SmallRuntime.runtime)
              Scenario.env_fallback Scenario.narrator "0_1"
              (PyStr "<speak>Once upon</speak>") "output/book" (PyStr "Old Man")
              [("1", PyDict [("text", PyStr "Once upon")])] (KeyStr "1")
              [("text", PyStr "Once upon")] "Matthew" "ID3 Matthew"
              [Scenario.mark_line "6" "Once"; "#"; Text.newline;
               Scenario.mark_line "340" "upon"]
              world0 eq_refl eq_refl eq_refl eq_refl eq_refl eq_refl)
    as (w' & E & _ & Hm & Ha & _).
  exists w'. split; [exact E|]. split; [apply Ha; discriminate | exact Hm].
Defined.

(** The same block with a client whose audio stream breaks while it is
    read: an empty audio file stays behind. *)
Lemma synthesis_refused_on_sentence :
  exists w',
    save_audio_and_speech_marks (RT := SmallRuntime.runtime) Scenario.env_fallback
      (Some Scenario.interrupted) "0_1" (PyStr "<speak>Once upon</speak>") "output/book"
      (PyStr "Old Man") (PyDict [("1", PyDict [("text", PyStr "Once upon")])])
      (KeyStr "1") world0
    = (Raise (mk_exn RuntimeError "Connection broken"), w')
    /\ files w' = [("output/book/block_0_1_audio.mp3", FileBytes EmptyString)].
Proof.
  destruct (proj1 (proj2 (proj2 (synthesis_failure_leaves_audio_file
              (RT := SmallRuntime.runtime)
              Scenario.env_fallback Scenario.interrupted "0_1"
              (PyStr "<speak>Once upon</speak>") "output/book" (PyStr "Old Man")
              (PyDict [("1", PyDict [("text", PyStr "Once upon")])]) (KeyStr "1") world0)))
              "Matthew" (mk_exn RuntimeError "Connection broken")
              eq_refl eq_refl eq_refl)
    as (w' & E & F & _).
  exists w'. split; [exact E | exact F].
Defined.

(* ================================================================== *)
(** * One page, step by step *)
(* ================================================================== *)

Section Page.
Context {RT : PyRuntime}.
Variable env : environment.
Variable pdf_file : upload.
Variables pdf_path output_dir data : string.
Variable pdf : list page.

Lemma annotate_page_words (img : image) (ws : list word_tuple) :
  exists img',
    annotate_image_with_words img ws (generate_color_palette env (block_id_set ws)) []
    = Ret (img', map (fun kb => (fst kb, strip_block (snd kb)))
                     (fold_left table_step ws [])).
Proof.
  unfold annotate_image_with_words.
  rewrite annotate_words_drawn by apply generate_color_palette_covers.
  eexists. reflexivity.
Qed.

(** The page up to the enrichment call. *)
Lemma process_page_setup (page_number : nat) (pg : page)
    (vertex_path : option string) (w : world) :
  nth_error pdf page_number = Some pg ->
  makedirs_error env output_dir = None ->
  file_get pdf_path (files w) = Some (FileBytes data) ->
  fitz_open env data = Ret pdf ->
  open_error env (page_image_path output_dir (filename pdf_file) page_number) = None ->
  open_error env (page_json_path output_dir (filename pdf_file) page_number) = None ->
  process_page env pdf_file pdf_path output_dir pdf page_number vertex_path w
  = (block_json <- generate_block_json env (b64encode (page_png pg))
                     (InputTable (page_blocks pg)) ;;
     keys <- lift (entry_keys block_json) ;;
     looped <- blocks_loop env output_dir (filename pdf_file) page_number keys
                 block_json [] vertex_path ;;
     write_file env (page_metadata_path output_dir page_number)
       (FileJson 4 (audio_metadata_to_json (snd (fst looped)))) ;;;
     log INFO ("Saved metadata for page " +++ Text.of_nat page_number) ;;;
     match snd looped with
     | None =>
         raise (mk_exn UnboundLocalError
                  "cannot access local variable 'vertex_path' where it is not associated with a value")
     | Some vp =>
         ret (snd looped, page_descriptor output_dir (filename pdf_file) page_number vp)
     end)
      (world_before_enrichment output_dir (filename pdf_file) page_number pg w).
Proof.
  intros Hn Hd Hf Hr Hi Hj.
  destruct (annotate_page_words (mk_image (page_samples pg) []) (page_words pg))
    as [img' Ha].
  unfold process_page.
  unfold bind at 1. unfold lift at 1, load_page at 1. rewrite Hn.
  unfold bind at 1. unfold extract_page_as_base64.
  unfold bind at 1. unfold os_makedirs at 1. rewrite Hd.
  unfold bind at 1. unfold open_document at 1. rewrite Hf, Hr.
  unfold bind at 1. unfold lift at 1, load_page at 1. rewrite Hn.
  unfold bind at 1. unfold write_file at 1.
  fold (page_image_path output_dir (filename pdf_file) page_number). rewrite Hi.
  cbn [set_files ret fst snd].
  unfold bind at 1. unfold log at 1.
  unfold bind at 1. unfold lift at 1. rewrite Ha. cbn [fst snd].
  unfold bind at 1. unfold save_block_details_as_json at 1.
  unfold bind at 1. unfold write_file at 1.
  fold (page_json_path output_dir (filename pdf_file) page_number).
  cbn [files]. rewrite Hj. cbn [set_files ret fst snd].
  unfold bind at 1. unfold log at 1. cbn [files logs sleeps llm_calls].
  unfold world_before_enrichment, page_blocks, page_descriptor, page_metadata_path,
    page_json_path.
  rewrite <- app_assoc. reflexivity.
Qed.

Lemma bind_ret_inv {A B : Type} (m : M A) (k : A -> M B) (w : world) (b : B) (w' : world) :
  bind m k w = (Ret b, w') ->
  exists a w1, m w = (Ret a, w1) /\ k a w1 = (Ret b, w').
Proof. unfold bind. destruct (m w) as [[a|e] w1]; [eauto | discriminate]. Qed.

(** The loop leaves [vertex_path] as it found it or bound to the trimmed
    file of the page. *)
Lemma blocks_loop_binding (page_number : nat) (keys : list py_key) (block_json : pyval)
    (audio_metadata : audio_metadata_t) (vertex_path : option string) (w : world)
    (block_json' : pyval) (audio_metadata' : audio_metadata_t)
    (vertex_path' : option string) (w' : world) :
  blocks_loop env output_dir (filename pdf_file) page_number keys block_json
              audio_metadata vertex_path w
  = (Ret (block_json', audio_metadata', vertex_path'), w') ->
  vertex_path' = vertex_path
  \/ vertex_path' = Some (trimmed_blocks_path output_dir (filename pdf_file) page_number).
Proof.
  revert block_json audio_metadata vertex_path w.
  induction keys as [|k keys IH]; intros block_json audio_metadata vertex_path w H.
  - cbn in H. inversion H. now left.
  - cbn [blocks_loop] in H.
    destruct (entry_data block_json k) as [[| | | | | |record]|]; try discriminate.
    destruct (negb (truthy (dict_get_default "ssml" PyNone record))).
    + apply bind_ret_inv in H. destruct H as (? & w1 & _ & H). now apply IH in H.
    + apply bind_ret_inv in H. destruct H as (saved & w1 & _ & H).
      apply bind_ret_inv in H. destruct H as (? & w2 & _ & H).
      apply bind_ret_inv in H. destruct H as (? & w3 & _ & H).
      apply bind_ret_inv in H. destruct H as (? & w4 & _ & H).
      apply IH in H. right. now destruct H.
Qed.

(** What a page that does not fail returns. *)
Lemma process_page_returns (page_number : nat) (vertex_path : option string) (w : world)
    (vertex_path' : option string) (pr : page_result) (w' : world) :
  process_page env pdf_file pdf_path output_dir pdf page_number vertex_path w
  = (Ret (vertex_path', pr), w') ->
  exists vp,
    vertex_path' = Some vp
    /\ pr = page_descriptor output_dir (filename pdf_file) page_number vp
    /\ (vp = trimmed_blocks_path output_dir (filename pdf_file) page_number
        \/ vertex_path = Some vp).
Proof.
  intros H. unfold process_page in H.
  apply bind_ret_inv in H. destruct H as (pg & w1 & _ & H).
  apply bind_ret_inv in H. destruct H as (extracted & w2 & _ & H).
  apply bind_ret_inv in H. destruct H as (? & w3 & _ & H).
  apply bind_ret_inv in H. destruct H as (annotated & w4 & _ & H).
  apply bind_ret_inv in H. destruct H as (json_path & w5 & Hj & H).
  apply bind_ret_inv in H. destruct H as (? & w6 & _ & H).
  apply bind_ret_inv in H. destruct H as (block_json & w7 & _ & H).
  apply bind_ret_inv in H. destruct H as (keys & w8 & _ & H).
  apply bind_ret_inv in H. destruct H as ([[bj am] vp'] & w9 & Hl & H).
  apply bind_ret_inv in H. destruct H as (? & w10 & _ & H).
  apply bind_ret_inv in H. destruct H as (? & w11 & _ & H).
  cbn [fst snd] in H.
  destruct vp' as [vp|]; [|discriminate].
  inversion H; subst vertex_path' pr w'. exists vp. split; [reflexivity|].
  unfold save_block_details_as_json in Hj.
  apply bind_ret_inv in Hj. destruct Hj as (? & w12 & _ & Hj).
  inversion Hj; subst json_path.
  split; [reflexivity|].
  apply blocks_loop_binding in Hl. destruct Hl as [Hl|Hl].
  - right. now symmetry.
  - left. now inversion Hl.
Qed.
End Page.

(* ================================================================== *)
(** * The shape of what a request returns *)
(* ================================================================== *)

Section RequestShape.
Context {RT : PyRuntime}.
Variable env : environment.
Variable pdf_file : upload.

Lemma pages_loop_returns (pdf_path output_dir : string) (pdf : list page)
    (k a : nat) (vertex_path : option string) (page_results : list page_result)
    (w : world) (page_results' : list page_result) (w' : world) :
  (vertex_path = None
   \/ exists m, m < a
        /\ vertex_path = Some (trimmed_blocks_path output_dir (filename pdf_file) m)) ->
  pages_loop env pdf_file pdf_path output_dir pdf (seq a k) vertex_path page_results w
  = (Ret page_results', w') ->
  exists new,
    page_results' = page_results ++ new
    /\ map page_number new = seq a k
    /\ forall pr, In pr new ->
         exists m, m <= page_number pr
           /\ pr = page_descriptor output_dir (filename pdf_file) (page_number pr)
                     (trimmed_blocks_path output_dir (filename pdf_file) m).
Proof.
  revert a vertex_path page_results w.
  induction k as [|k IH]; intros a vertex_path page_results w Hv H.
  - cbn in H. inversion H. exists []. rewrite app_nil_r. repeat split. intros pr [].
  - cbn [seq pages_loop] in H.
    apply bind_ret_inv in H. destruct H as ([vp1 pr] & w1 & Hp & H).
    apply process_page_returns in Hp. destruct Hp as (vp & -> & -> & Hvp).
    cbn [fst snd] in H.
    assert (Hm : exists m, m <= a
                   /\ vp = trimmed_blocks_path output_dir (filename pdf_file) m).
    { destruct Hvp as [->|Hvp]; [now exists a|].
      destruct Hv as [->|(m & Hlt & ->)]; [discriminate|].
      inversion Hvp. exists m. split; [lia | reflexivity]. }
    destruct Hm as (m & Hle & ->).
    apply IH in H.
    + destruct H as (new & -> & Hn & Hall).
      exists (page_descriptor output_dir (filename pdf_file) a
                (trimmed_blocks_path output_dir (filename pdf_file) m) :: new).
      split; [now rewrite <- app_assoc|]. split; [cbn; now rewrite Hn|].
      intros pr [<-|Hin]; [|now apply Hall].
      exists m. split; [exact Hle | reflexivity].
    + right. exists m. split; [lia | reflexivity].
Qed.

Lemma request_try_returns (w : world) (page_results : list page_result)
    (temp_pdf : option string) (w1 : world) :
  request_try env pdf_file w = (Ret page_results, temp_pdf, w1) ->
  exists data pdf,
    read pdf_file = Ret data
    /\ fitz_open env data = Ret pdf
    /\ map page_number page_results = seq 0 (List.length pdf)
    /\ forall pr, In pr page_results ->
         exists m, m <= page_number pr
           /\ pr = page_descriptor (output_dir_of env pdf_file) (filename pdf_file)
                     (page_number pr)
                     (trimmed_blocks_path (output_dir_of env pdf_file)
                        (filename pdf_file) m).
Proof.
  unfold request_try. intros H.
  destruct ((os_makedirs env (output_dir_of env pdf_file) ;;;
             log INFO ("Created output directory: " +++ output_dir_of env pdf_file)) w)
    as [[[]|e] w0]; [|discriminate].
  destruct (new_temp_file env w0) as [[name|e] w2]; [|discriminate].
  destruct (request_pages env pdf_file (output_dir_of env pdf_file) name w2)
    as [r w3] eqn:Hp.
  inversion H; subst r temp_pdf w1. clear H.
  unfold request_pages in Hp.
  apply bind_ret_inv in Hp. destruct Hp as (data & w4 & Hr & Hp).
  apply bind_ret_inv in Hp. destruct Hp as (? & w5 & Hw & Hp).
  apply bind_ret_inv in Hp. destruct Hp as (? & w6 & Hl & Hp).
  apply bind_ret_inv in Hp. destruct Hp as (pdf & w7 & Ho & Hp).
  unfold lift in Hr. inversion Hr; subst w4.
  unfold write_file in Hw. destruct (open_error env name); [discriminate|].
  cbn in Hw. inversion Hw; subst w5. clear Hw.
  cbn in Hl. inversion Hl; subst w6. clear Hl.
  unfold open_document in Ho. cbn [files] in Ho.
  unfold file_get, file_set in Ho.
  rewrite (od_get_set_same String.eqb String.eqb_eq) in Ho.
  inversion Ho as [[Hf Hw7]]. clear Ho.
  apply pages_loop_returns in Hp; [|now left].
  destruct Hp as (new & -> & Hn & Hall).
  exists data, pdf. split; [assumption|]. split; [exact Hf|].
  split; [exact Hn | exact Hall].
Qed.

End RequestShape.

(** X14. Whatever the surroundings, a request that returns has one of two
    shapes.  With status success there is no errors entry, and the results
    hold exactly one descriptor for every page of the uploaded document, in
    page order from 0, the message counting them; the image, block and
    metadata paths of a descriptor are those of its own page, and its
    trimmed path is the trimmed file of its own page or of a page before
    it.  Otherwise the result is the error result of one exception. *)
Theorem request_result_shape {RT : PyRuntime} (env : environment) (pdf_file : upload)
    (w : world) (r : request_result) (w' : world) :
  process_tts_request env pdf_file w = (Ret r, w') ->
  (status r = "success"
   /\ errors r = None
   /\ exists data pdf page_results,
        read pdf_file = Ret data
        /\ fitz_open env data = Ret pdf
        /\ results r = Some page_results
        /\ message r = "Processed " +++ Text.of_nat (List.length pdf) +++ " page(s)."
        /\ map page_number page_results = seq 0 (List.length pdf)
        /\ forall pr, In pr page_results ->
             exists m, m <= page_number pr
               /\ pr = page_descriptor (output_dir_of env pdf_file) (filename pdf_file)
                         (page_number pr)
                         (trimmed_blocks_path (output_dir_of env pdf_file)
                            (filename pdf_file) m))
  \/ (exists e, r = error_result e).
Proof.
  unfold process_tts_request. intros H.
  destruct (request_try env pdf_file w) as [[[page_results|e] temp_pdf] w1] eqn:Ht.
  - left. cbn in H.
    destruct (request_finally env temp_pdf w1) as [[[]|e] w3]; [|discriminate].
    inversion H; subst r w'. clear H.
    apply request_try_returns in Ht. destruct Ht as (data & pdf & Hr & Hf & Hn & Hall).
    split; [reflexivity|]. split; [reflexivity|].
    exists data, pdf, page_results. cbn [results message].
    split; [exact Hr|]. split; [exact Hf|]. split; [reflexivity|].
    split; [|split; [exact Hn | exact Hall]].
    rewrite <- (length_map page_number page_results), Hn, length_seq. reflexivity.
  - right. cbn in H.
    match type of H with
    | match ?f with _ => _ end = _ => destruct f as [[[]|e'] w3]; [|discriminate]
    end.
    inversion H. now exists e.
Qed.

(* ================================================================== *)
(** * Requests that end before or at the first page *)
(* ================================================================== *)

Section RequestStart.
Context {RT : PyRuntime}.
Variable env : environment.
Variable pdf_file : upload.

Lemma request_try_opens (name data : string) (pdf : list page) (w : world) :
  request_opens env pdf_file name data pdf ->
  request_try env pdf_file w
  = (let '(r, w3) :=
       pages_loop env pdf_file name (output_dir_of env pdf_file) pdf
                  (seq 0 (List.length pdf)) None []
                  (world_after_upload env pdf_file name data w) in
     (r, Some name, w3)).
Proof.
  intros (Hd & Ht & Hr & Ho & Hf).
  unfold request_try, bind, os_makedirs, new_temp_file, request_pages, bind, lift,
    write_file, open_document. rewrite Hd. cbn [log set_files fst snd files logs].
  rewrite Ht, Hr, Ho. cbn [log set_files fst snd files logs sleeps llm_calls].
  unfold file_get, file_set. rewrite (od_get_set_same String.eqb String.eqb_eq), Hf.
  unfold world_after_upload, file_set. rewrite <- app_assoc. reflexivity.
Qed.

Lemma request_returns (w : world) (r : result (list page_result))
    (temp_pdf : option string) (w1 : world) :
  request_try env pdf_file w = (r, temp_pdf, w1) ->
  cleanup_quiet env temp_pdf ->
  exists w',
    process_tts_request env pdf_file w = (fst (request_outcome r w1), w')
    /\ llm_calls w' = llm_calls w1 /\ sleeps w' = sleeps w1.
Proof.
  intros Ht Hq.
  rewrite (process_tts_request_unfold env pdf_file w r temp_pdf w1
             (fst (request_outcome r w1)) (snd (request_outcome r w1)) Ht)
    by (now destruct (request_outcome r w1)).
  assert (Hw : llm_calls (snd (request_outcome r w1)) = llm_calls w1
               /\ sleeps (snd (request_outcome r w1)) = sleeps w1)
    by (destruct r; split; reflexivity).
  destruct temp_pdf as [name|]; cbn [request_finally].
  - unfold os_remove. destruct (remove_error env name) as [e|] eqn:E.
    + rewrite (Hq name e eq_refl E). eexists. split; [reflexivity | exact Hw].
    + eexists. split; [reflexivity | exact Hw].
  - eexists. split; [reflexivity | exact Hw].
Qed.

End RequestStart.

(** X15. A document with no page is processed with success: the result
    lists no page and its message counts zero pages; the enrichment
    provider is not called and nothing is waited for. *)
Theorem empty_document_succeeds {RT : PyRuntime} (env : environment) (pdf_file : upload)
    (name data : string) (w : world) :
  request_opens env pdf_file name data [] ->
  cleanup_quiet env (Some name) ->
  exists w',
    process_tts_request env pdf_file w
    = (Ret (mk_request_result "success" "Processed 0 page(s)." (Some []) None), w')
    /\ llm_calls w' = llm_calls w
    /\ sleeps w' = sleeps w.
Proof.
  intros Ho Hq.
  pose proof (request_try_opens env pdf_file name data [] w Ho) as Ht.
  cbn in Ht.
  destruct (request_returns env pdf_file w _ _ _ Ht Hq) as (w' & E & L & S).
  exists w'. split; [exact E|]. split; [exact L | exact S].
Qed.

(** X16. Failures before the first page.  When the output directory
    cannot be made, or the temporary file cannot be created, the request
    returns the error result of that exception, changes no file and
    attempts no deletion, however the deletion would behave.  When the
    upload cannot be read, the temporary file was created before: it is
    deleted again and the error result of the read failure is returned. *)
Theorem early_failure_returns_error_result {RT : PyRuntime} (env : environment)
    (pdf_file : upload) (w : world) :
  (forall e,
     makedirs_error env (output_dir_of env pdf_file) = Some e ->
     exists w',
       process_tts_request env pdf_file w = (Ret (error_result e), w')
       /\ files w' = files w)
  /\ (forall e,
        makedirs_error env (output_dir_of env pdf_file) = None ->
        named_temporary_file env = Raise e ->
        exists w',
          process_tts_request env pdf_file w = (Ret (error_result e), w')
          /\ files w' = files w)
  /\ (forall name e,
        makedirs_error env (output_dir_of env pdf_file) = None ->
        named_temporary_file env = Ret name ->
        read pdf_file = Raise e ->
        remove_error env name = None ->
        exists w',
          process_tts_request env pdf_file w = (Ret (error_result e), w')
          /\ file_get name (files w') = None).
Proof.
  split; [|split].
  - intros e Hd. unfold process_tts_request, request_try, bind, os_makedirs.
    rewrite Hd. cbn. eexists. split; reflexivity.
  - intros e Hd Ht. unfold process_tts_request, request_try, bind, os_makedirs,
      new_temp_file.
    rewrite Hd. cbn [log fst snd]. rewrite Ht. cbn. eexists. split; reflexivity.
  - intros name e Hd Ht Hr Hx.
    unfold process_tts_request, request_try, bind, os_makedirs, new_temp_file,
      request_pages, bind, lift.
    rewrite Hd. cbn [log fst snd set_files]. rewrite Ht, Hr.
    cbn [request_outcome bind log fst snd request_finally].
    unfold os_remove, bind. cbn [log files]. rewrite Hx. cbn [set_files log files].
    eexists. split; [reflexivity|]. cbn [files].
    unfold file_get, file_remove, file_set, od_remove.
    generalize (files w). intros fs.
    induction fs as [|[k v] fs IH]; cbn.
    + now rewrite String.eqb_refl.
    + destruct (String.eqb k name) eqn:E; cbn.
      * rewrite E. cbn.
        clear IH. induction fs as [|[k' v'] fs IH]; cbn; [reflexivity|].
        destruct (String.eqb k' name) eqn:E'; cbn; [exact IH|]. now rewrite E'.
      * rewrite E. cbn. rewrite E. exact IH.
Qed.

Lemma dict_key_get (k : string) (d : dict) :
  In k (dict_keys d) -> exists v, dict_get k d = Some v /\ In (k, v) d.
Proof.
  unfold dict_keys, dict_get. induction d as [|[k' v'] d IH]; cbn; [intros []|].
  destruct (String.eqb k' k) eqn:E.
  - apply String.eqb_eq in E. subst k'. intros _. exists v'. split; [reflexivity | now left].
  - intros [->|H]; [now rewrite String.eqb_refl in E|].
    destruct (IH H) as (v & Hg & Hin). exists v. split; [exact Hg | now right].
Qed.

Section FirstPage.
Context {RT : PyRuntime}.
Variable env : environment.

Lemma generate_block_json_out_of_order (img : string) (block_details : block_table)
    (w : world) :
  enrichment_out_of_order env img (InputTable block_details) (List.length (llm_calls w)) ->
  exists w', generate_block_json env img (InputTable block_details) w = (Ret PyNone, w').
Proof.
  intros [[e He]|(Hp & Hm & Hf)].
  - exists w. now apply generate_block_json_fallback_of_table with (e := e).
  - unfold generate_block_json. rewrite Hp, Hm.
    change (seq 0 MAX_RETRIES) with [0; 1; 2].
    set (prompt := construct_gemini_prompt env (blocks_input_str (InputTable block_details))) in *.
    assert (L1 : List.length (llm_calls (after_sleep (after_call prompt w)))
                 = List.length (llm_calls w) + 1)
      by (cbn; rewrite length_app; reflexivity).
    assert (L2 : List.length (llm_calls (after_sleep (after_call prompt
                    (after_sleep (after_call prompt w)))))
                 = List.length (llm_calls w) + 2)
      by (cbn; rewrite !length_app; cbn; lia).
    pose proof (Hf 0 ltac:(unfold MAX_RETRIES; lia)) as F0.
    pose proof (Hf 1 ltac:(unfold MAX_RETRIES; lia)) as F1.
    pose proof (Hf 2 ltac:(unfold MAX_RETRIES; lia)) as F2.
    rewrite Nat.add_0_r in F0. rewrite <- L1 in F1. rewrite <- L2 in F2.
    rewrite (attempt_loop_retry env prompt 0 _ w) by (unfold MAX_RETRIES; lia || exact F0).
    rewrite (attempt_loop_retry env prompt 1) by (unfold MAX_RETRIES; lia || exact F1).
    destruct (attempt_loop_give_up env prompt 2 _ ltac:(unfold MAX_RETRIES; lia) F2)
      as [E|E]; rewrite E; eexists; reflexivity.
Qed.

End FirstPage.

(** X17. When the enrichment of the first page cannot give a result
    (the provider cannot be set up, so that the fallback is taken on the
    block table the service hands over as it is, or all three attempts
    fail), the request ends in the error result of the TypeError raised by
    iterating [None]: no page is reported, whatever the document holds. *)
Theorem request_fails_when_enrichment_is_out_of_order {RT : PyRuntime}
    (env : environment) (pdf_file : upload) (name data : string)
    (pg : page) (rest : list page) (w : world) :
  request_opens env pdf_file name data (pg :: rest) ->
  open_error env (page_image_path (output_dir_of env pdf_file) (filename pdf_file) 0) = None ->
  open_error env (page_json_path (output_dir_of env pdf_file) (filename pdf_file) 0) = None ->
  enrichment_out_of_order env (b64encode (page_png pg)) (InputTable (page_blocks pg))
    (List.length (llm_calls w)) ->
  cleanup_quiet env (Some name) ->
  exists w',
    process_tts_request env pdf_file w
    = (Ret (error_result (mk_exn TypeError "'NoneType' object is not iterable")), w')
    /\ List.length (llm_calls w') <= List.length (llm_calls w) + MAX_RETRIES.
Proof.
  intros Ho Hi Hj He Hq.
  pose proof (request_try_opens env pdf_file name data (pg :: rest) w Ho) as Ht.
  destruct Ho as (Hd & _ & _ & _ & Hf).
  assert (Hp : exists w2,
             process_page env pdf_file name (output_dir_of env pdf_file) (pg :: rest) 0 None
               (world_after_upload env pdf_file name data w)
             = (Raise (mk_exn TypeError "'NoneType' object is not iterable"), w2)
             /\ List.length (llm_calls w2) <= List.length (llm_calls w) + MAX_RETRIES).
  { rewrite (process_page_setup env pdf_file name (output_dir_of env pdf_file) data
               (pg :: rest) 0 pg None _ eq_refl Hd) by
      (try assumption; apply (od_get_set_same String.eqb String.eqb_eq)).
    destruct (generate_block_json_out_of_order env (b64encode (page_png pg))
                (page_blocks pg)
                (world_before_enrichment (output_dir_of env pdf_file) (filename pdf_file)
                   0 pg (world_after_upload env pdf_file name data w)) He)
      as [w2 Hg].
    exists w2. unfold bind at 1. rewrite Hg. split; [reflexivity|].
    destruct (attempt_loop_calls env
                (construct_gemini_prompt env (blocks_input_str (InputTable (page_blocks pg))))
                (seq 0 MAX_RETRIES)
                (world_before_enrichment (output_dir_of env pdf_file) (filename pdf_file)
                   0 pg (world_after_upload env pdf_file name data w)))
      as (r & w3 & Ea & La).
    unfold generate_block_json in Hg.
    destruct (part_from_data_error env (b64encode (page_png pg))).
    - inversion Hg. cbn. lia.
    - destruct (generative_model_error env); [discriminate|].
      rewrite Ea in Hg. inversion Hg; subst. cbn in La. exact La. }
  destruct Hp as (w2 & Hp & Hl).
  cbn [List.length seq pages_loop] in Ht. unfold bind in Ht. rewrite Hp in Ht.
  destruct (request_returns env pdf_file w _ _ _ Ht Hq) as (w' & E & L & _).
  exists w'. split; [exact E|]. rewrite L. exact Hl.
Qed.

(** X4. [vertex_path] is a local variable of the whole request, bound only
    when a block is synthesized.  A page whose enrichment result holds no
    block with [ssml] therefore reports as its trimmed file whatever an
    earlier page left in the variable, and fails with UnboundLocalError
    when no earlier page bound it; its metadata file, an empty mapping,
    is written in both cases. *)
Theorem page_without_ssml_keeps_vertex_path {RT : PyRuntime} (env : environment)
    (pdf_file : upload) (pdf_path output_dir data : string) (pdf : list page)
    (page_number : nat) (pg : page) (vertex_path : option string) (d : dict) (w : world) :
  nth_error pdf page_number = Some pg ->
  makedirs_error env output_dir = None ->
  file_get pdf_path (files w) = Some (FileBytes data) ->
  fitz_open env data = Ret pdf ->
  (forall path, open_error env path = None) ->
  part_from_data_error env (b64encode (page_png pg)) = None ->
  generative_model_error env = None ->
  attempt_yields
    (generate_content env (List.length (llm_calls w))
       (construct_gemini_prompt env (blocks_input_str (InputTable (page_blocks pg)))))
    (PyDict d) ->
  no_block_with_ssml d ->
  exists w',
    process_page env pdf_file pdf_path output_dir pdf page_number vertex_path w
    = (match vertex_path with
       | Some vp =>
           Ret (Some vp, page_descriptor output_dir (filename pdf_file) page_number vp)
       | None =>
           Raise (mk_exn UnboundLocalError
                    "cannot access local variable 'vertex_path' where it is not associated with a value")
       end, w')
    /\ file_get (page_metadata_path output_dir page_number) (files w')
       = Some (FileJson 4 (PyDict [])).
Proof.
  intros Hn Hd Hf Hr Ho Hp Hm Hy Hs.
  rewrite (process_page_setup env pdf_file pdf_path output_dir data pdf page_number pg
             vertex_path w Hn Hd Hf Hr (Ho _) (Ho _)).
  unfold bind at 1. unfold generate_block_json. rewrite Hp, Hm.
  change (seq 0 MAX_RETRIES) with [0; 1; 2].
  rewrite (attempt_loop_success env _ 0 [1; 2] _ (PyDict d)) by exact Hy.
  unfold bind at 1. cbn [lift entry_keys].
  match goal with
  | |- exists w', bind (blocks_loop ?e ?o ?f ?n ?ks ?bj ?am ?vp) _ ?w0 = _ /\ _ =>
      destruct (blocks_loop_skips e o f n ks bj am vp w0) as (w3 & E & F & _)
  end.
  { intros k Hk. apply in_map_iff in Hk. destruct Hk as (s & <- & Hin).
    destruct (dict_key_get s d Hin) as (v & Hg & Hv).
    destruct (Hs s v Hv) as (record & -> & Ht).
    exists record. split; [exact Hg | exact Ht]. }
  unfold bind at 1. rewrite E. cbn [fst snd].
  unfold bind at 1, write_file at 1. rewrite Ho. cbn [set_files].
  unfold bind at 1. cbn [log].
  destruct vertex_path as [vp|]; cbn [raise ret]; eexists;
    (split; [reflexivity | cbn [files]; apply (od_get_set_same String.eqb String.eqb_eq)]).
Qed.

(** X18. A failure to construct the model is neither retried nor turned
    into [None]: it leaves [generate_block_json] as an exception, before
    any call to the provider and any delay; [chunk_and_process_json]
    swallows it at the first chunk and returns [None]. *)
Theorem model_construction_failure_is_not_retried {RT : PyRuntime} (env : environment)
    (img : string) (input : blocks_input) (w : world) (e : exn) :
  part_from_data_error env img = None ->
  generative_model_error env = Some e ->
  generate_block_json env img input w = (Raise e, w)
  /\ forall s all_blocks chunk_size,
       json_loads s = Some (PyDict all_blocks) ->
       all_blocks <> [] ->
       (0 < chunk_size)%Z ->
       chunk_and_process_json env img s chunk_size w = (Ret PyNone, w).
Proof.
  intros Hp Hm.
  assert (Hg : forall input0 w0, generate_block_json env img input0 w0 = (Raise e, w0)).
  { intros input0 w0. unfold generate_block_json. now rewrite Hp, Hm. }
  split; [apply Hg|].
  intros s all_blocks chunk_size Hs Hne Hc.
  unfold chunk_and_process_json. rewrite Hs.
  rewrite py_range_step_positive by exact Hc.
  destruct all_blocks as [|kv all_blocks]; [congruence|].
  cbn [dict_keys map List.length].
  assert (Hq : exists q, (S (List.length (map fst all_blocks)) + Z.to_nat chunk_size - 1)
                         / Z.to_nat chunk_size = S q).
  { destruct ((S (List.length (map fst all_blocks)) + Z.to_nat chunk_size - 1)
              / Z.to_nat chunk_size) as [|q] eqn:E; [|now exists q].
    exfalso. apply Nat.div_small_iff in E; lia. }
  destruct Hq as [q ->]. cbn [seq map chunk_loop]. unfold bind. now rewrite Hg.
Qed.

(** ** On the document of the scenario *)

(** The enriched page: one descriptor, for page 0. *)
Lemma request_result_shape_on_enriched_page :
  exists r w',
    process_tts_request (RT := SmallRuntime.runtime) Scenario.env_enriched Scenario.book world0
    = (Ret r, w')
    /\ status r = "success"
    /\ exists page_results,
         results r = Some page_results /\ map page_number page_results = [0].
Proof.
  destruct (process_tts_request (RT := SmallRuntime.runtime) Scenario.env_enriched
              Scenario.book world0) as [[r|e] w'] eqn:E.
  - exists r, w'. split; [reflexivity|].
    destruct (request_result_shape _ _ _ _ _ E)
      as [(Hs & _ & data & pdf & prs & _ & Hf & Hr & _ & Hn & _)|[e He]].
    + split; [exact Hs|]. exists prs. split; [exact Hr|].
      cbn in Hf. inversion Hf; subst pdf. exact Hn.
    + exfalso. subst r. vm_compute in E. discriminate.
  - exfalso. vm_compute in E. discriminate.
Defined.

(** An upload that the renderer opens as a document without pages. *)
Lemma empty_document_on_blank_upload :
  exists w',
    process_tts_request (RT := SmallRuntime.runtime)
      (Scenario.with_pages Scenario.env_enriched []) Scenario.book world0
    = (Ret (mk_request_result "success" "Processed 0 page(s)." (Some []) None), w')
    /\ llm_calls w' = [].
Proof.
  destruct (empty_document_succeeds (RT := SmallRuntime.runtime)
              (Scenario.with_pages Scenario.env_enriched []) Scenario.book
              "/tmp/tmpa1b2c3.pdf" "%PDF-1.7" world0)
    as (w' & E & L & _).
  - repeat split.
  - intros name e _ H. discriminate.
  - exists w'. split; [exact E | exact L].
Defined.

(** The provider cannot be set up: the request on the book fails. *)
Lemma request_fails_on_fallback :
  exists w',
    process_tts_request (RT := SmallRuntime.runtime) Scenario.env_fallback Scenario.book world0
    = (Ret (mk_request_result "error" "'NoneType' object is not iterable" None
              (Some [("process_tts_request", "'NoneType' object is not iterable")])), w')
    /\ List.length (llm_calls w') <= 3.
Proof.
  destruct (request_fails_when_enrichment_is_out_of_order (RT := SmallRuntime.runtime)
              Scenario.env_fallback Scenario.book "/tmp/tmpa1b2c3.pdf" "%PDF-1.7"
              Scenario.page_one [] world0)
    as (w' & E & L).
  - repeat split.
  - reflexivity.
  - reflexivity.
  - left. eexists. reflexivity.
  - intros name e _ H. discriminate.
  - exists w'. split; [exact E | exact L].
Defined.

(** The second page of a two-page book is answered without [ssml]: its
    descriptor names the trimmed file of the first page. *)
Lemma page_without_ssml_on_second_page :
  exists w',
    process_page (RT := SmallRuntime.runtime)
      (Scenario.with_pages (Scenario.env_of None [Scenario.answer Scenario.plain_heading] None)
         [Scenario.page_one; Scenario.page_one])
      Scenario.book "/tmp/tmpa1b2c3.pdf" "output/book"
      [Scenario.page_one; Scenario.page_one] 1
      (Some "output/book/book.pdf_page_0_trimmed_blocks.json") Scenario.world_with_copy
    = (Ret (Some "output/book/book.pdf_page_0_trimmed_blocks.json",
            mk_page_result 1
              "output/book/book.pdf_annotated_page_1_blocks.png"
              "output/book/book.pdf_page_1_blocks.json"
              "output/book/book.pdf_page_0_trimmed_blocks.json"
              "output/book/page_1_audio_speech_marks_metadata.json"), w').
Proof.
  destruct (page_without_ssml_keeps_vertex_path (RT := SmallRuntime.runtime)
              (Scenario.with_pages
                 (Scenario.env_of None [Scenario.answer Scenario.plain_heading] None)
                 [Scenario.page_one; Scenario.page_one])
              Scenario.book "/tmp/tmpa1b2c3.pdf" "output/book" "%PDF-1.7"
              [Scenario.page_one; Scenario.page_one] 1 Scenario.page_one
              (Some "output/book/book.pdf_page_0_trimmed_blocks.json")
              (as_record Scenario.plain_heading) Scenario.world_with_copy)
    as (w' & E & _).
  - reflexivity.
  - reflexivity.
  - reflexivity.
  - reflexivity.
  - reflexivity.
  - reflexivity.
  - reflexivity.
  - eexists. split; [reflexivity|]. split; vm_compute; reflexivity.
  - intros k v [H|[]]. injection H as <- <-. eexists. split; reflexivity.
  - exists w'. exact E.
Defined.

(** A model that cannot be constructed, on the blocks of the page. *)
Lemma model_construction_failure_on_page_one :
  generate_block_json (RT := SmallRuntime.runtime)
    (Scenario.without_model Scenario.env_enriched) "UE5H"
    (InputText Scenario.raw_blocks_text) world0
  = (Raise (mk_exn ValueError "Model not found"), world0)
  /\ chunk_and_process_json (RT := SmallRuntime.runtime)
       (Scenario.without_model Scenario.env_enriched) "UE5H"
       Scenario.raw_blocks_text 1 world0
     = (Ret PyNone, world0).
Proof.
  destruct (model_construction_failure_is_not_retried (RT := SmallRuntime.runtime)
              (Scenario.without_model Scenario.env_enriched) "UE5H"
              (InputText Scenario.raw_blocks_text) world0
              (mk_exn ValueError "Model not found") eq_refl eq_refl)
    as [G C].
  split; [exact G|].
  apply (C Scenario.raw_blocks_text Scenario.raw_blocks).
  - vm_compute. reflexivity.
  - discriminate.
  - reflexivity.
Defined.

(** A disk that is read-only and a deletion that would fail: the request
    returns the error of [os.makedirs] and nothing is deleted. *)
Lemma early_failure_on_read_only_disk :
  exists w',
    process_tts_request (RT := SmallRuntime.runtime)
      (Scenario.read_only_disk Scenario.env_enriched) Scenario.book world0
    = (Ret (error_result (mk_exn OSError "[Errno 30] Read-only file system")), w')
    /\ files w' = [].
Proof.
  destruct (proj1 (early_failure_returns_error_result (RT := SmallRuntime.runtime)
                     (Scenario.read_only_disk Scenario.env_enriched) Scenario.book world0)
              (mk_exn OSError "[Errno 30] Read-only file system") eq_refl)
    as (w' & E & F).
  exists w'. split; [exact E | exact F].
Defined.

(* ================================================================== *)
(** * The synthesis loop over a list *)
(* ================================================================== *)

Lemma no_text_among_records (s : string) (items : list pyval) :
  (forall v, In v items -> exists record, v = PyDict record) ->
  existsb (fun v => match v with PyStr t => String.eqb t s | _ => false end) items = false.
Proof.
  induction items as [|v items IH]; intros H; [reflexivity|].
  cbn. destruct (H v (or_introl eq_refl)) as [record ->].
  apply IH. intros v' Hv'. apply H. now right.
Qed.

Section SynthesisLoopOverList.
Context {RT : PyRuntime}.
Variable env : environment.
Variables output_dir fname : string.
Variable page_number : nat.
Hypothesis no_client : polly_client env = None.
Hypothesis writable : forall path, open_error env path = None.

Lemma blocks_loop_item_step (i : nat) (rest : list py_key) (items : list pyval)
    (record : dict) (audio_metadata : audio_metadata_t) (vertex_path : option string)
    (w : world) :
  (forall v, In v items -> exists r, v = PyDict r) ->
  nth_error items i = Some (PyDict record) ->
  truthy (dict_get_default "ssml" PyNone record) = true ->
  exists w1,
    blocks_loop env output_dir fname page_number (KeyInt i :: rest) (PyList items)
                audio_metadata vertex_path w
    = blocks_loop env output_dir fname page_number rest (PyList items)
        (od_set key_eqb (KeyInt i) (block_files output_dir page_number (Text.of_nat i))
           audio_metadata)
        (Some (trimmed_blocks_path output_dir fname page_number)) w1
    /\ file_get (trimmed_blocks_path output_dir fname page_number) (files w1)
       = Some (FileJson 4 (PyList items))
    /\ llm_calls w1 = llm_calls w
    /\ sleeps w1 = sleeps w.
Proof.
  intros Hr Hn Hs. eexists. split; [|split; [|split]].
  - cbn [blocks_loop entry_data]. rewrite Hn, Hs. cbn [negb].
    unfold bind at 1. rewrite no_client.
    unfold save_audio_and_speech_marks, bind, write_file, lift, add_timing.
    rewrite !writable. cbn [set_files fst snd key_str py_contains_str].
    rewrite (no_text_among_records _ _ Hr).
    cbn [ret log fst snd files logs sleeps llm_calls]. reflexivity.
  - cbn [files]. apply (od_get_set_same String.eqb String.eqb_eq).
  - reflexivity.
  - reflexivity.
Qed.

Lemma blocks_loop_items (positions : list nat) (items : list pyval)
    (audio_metadata : audio_metadata_t) (vertex_path : option string) (w : world) :
  all_items_with_ssml items ->
  (forall i, In i positions -> i < List.length items) ->
  exists w',
    blocks_loop env output_dir fname page_number (map KeyInt positions) (PyList items)
                audio_metadata vertex_path w
    = (Ret (PyList items,
            record_items output_dir page_number positions audio_metadata,
            match positions with
            | [] => vertex_path
            | _ :: _ => Some (trimmed_blocks_path output_dir fname page_number)
            end), w')
    /\ (positions <> [] ->
        file_get (trimmed_blocks_path output_dir fname page_number) (files w')
        = Some (FileJson 4 (PyList items)))
    /\ llm_calls w' = llm_calls w
    /\ sleeps w' = sleeps w.
Proof.
  intros Hall. revert audio_metadata vertex_path w.
  induction positions as [|i positions IH]; intros audio_metadata vertex_path w Hb.
  - exists w. cbn. split; [reflexivity|]. split; [|split; reflexivity].
    intros H. now contradiction H.
  - assert (Hi : i < List.length items) by (apply Hb; now left).
    destruct (nth_error items i) as [v|] eqn:En.
    2:{ apply nth_error_None in En. lia. }
    destruct (Hall v (nth_error_In _ _ En)) as (record & -> & Hs).
    destruct (blocks_loop_item_step i (map KeyInt positions) items record
                audio_metadata vertex_path w) as (w1 & E1 & F1 & L1 & S1).
    { intros v Hv. destruct (Hall v Hv) as (r & -> & _). now exists r. }
    { exact En. }
    { exact Hs. }
    destruct (IH (od_set key_eqb (KeyInt i)
                    (block_files output_dir page_number (Text.of_nat i)) audio_metadata)
                 (Some (trimmed_blocks_path output_dir fname page_number)) w1)
      as (w' & E2 & F2 & L2 & S2).
    { intros j Hj. apply Hb. now right. }
    exists w'. cbn [map]. rewrite E1, E2. split; [|split; [|split]].
    + destruct positions; reflexivity.
    + intros _. destruct positions as [|j positions'].
      * apply (f_equal snd) in E2. cbn in E2. subst w'. exact F1.
      * apply F2. discriminate.
    + congruence.
    + congruence.
Qed.

(** X19. When the enrichment result is a list, the loop visits its items
    by position.  Without a synthesis client and with every file
    writable, a list of records that all carry a truthy [ssml] gets its
    placeholder files and one audio metadata entry per position, but no
    [timing]: the position, as text, is no member of the list, so the list
    is left and written to the trimmed file as it came. *)
Theorem synthesis_loop_over_list (items : list pyval)
    (audio_metadata : audio_metadata_t) (vertex_path : option string) (w : world) :
  all_items_with_ssml items ->
  exists keys w',
    entry_keys (PyList items) = Ret keys
    /\ blocks_loop env output_dir fname page_number keys (PyList items)
                   audio_metadata vertex_path w
       = (Ret (PyList items,
               record_items output_dir page_number (seq 0 (List.length items))
                            audio_metadata,
               match items with
               | [] => vertex_path
               | _ :: _ => Some (trimmed_blocks_path output_dir fname page_number)
               end), w')
    /\ (items <> [] ->
        file_get (trimmed_blocks_path output_dir fname page_number) (files w')
        = Some (FileJson 4 (PyList items)))
    /\ llm_calls w' = llm_calls w.
Proof.
  intros Hall.
  destruct (blocks_loop_items (seq 0 (List.length items)) items audio_metadata
              vertex_path w Hall) as (w' & E & F & L & _).
  { intros i Hi. apply in_seq in Hi. lia. }
  exists (map KeyInt (seq 0 (List.length items))), w'.
  split; [reflexivity|]. split; [|split; [|exact L]].
  - rewrite E. destruct items; reflexivity.
  - intros Hne. apply F. destruct items; [congruence | discriminate].
Qed.
End SynthesisLoopOverList.

(** Two records in a list: both are synthesized, neither gets a timing. *)
Lemma synthesis_loop_over_two_items :
  exists w',
    blocks_loop (RT := SmallRuntime.runtime) Scenario.env_fallback "output/book" "book.pdf" 0
      [KeyInt 0; KeyInt 1]
      (PyList [PyDict [("ssml", PyStr "<speak>Chapter One</speak>")];
               PyDict [("ssml", PyStr "<speak>Once upon a time</speak>")]])
      [] None world0
    = (Ret (PyList [PyDict [("ssml", PyStr "<speak>Chapter One</speak>")];
                    PyDict [("ssml", PyStr "<speak>Once upon a time</speak>")]],
            [(KeyInt 0, ("output/book/block_0_0_audio.mp3",
                         "output/book/block_0_0_speech_marks.json"));
             (KeyInt 1, ("output/book/block_0_1_audio.mp3",
                         "output/book/block_0_1_speech_marks.json"))],
            Some "output/book/book.pdf_page_0_trimmed_blocks.json"), w').
Proof.
  destruct (synthesis_loop_over_list (RT := SmallRuntime.runtime)
              Scenario.env_fallback "output/book" "book.pdf" 0 eq_refl (fun _ => eq_refl)
              [PyDict [("ssml", PyStr "<speak>Chapter One</speak>")];
               PyDict [("ssml", PyStr "<speak>Once upon a time</speak>")]]
              [] None world0)
    as (keys & w' & K & E & _).
  - intros v [<-|[<-|[]]]; eexists; split; reflexivity.
  - cbn in K. inversion K; subst keys. exists w'. exact E.
Defined.

(* ================================================================== *)
(** * Enrichment: degenerate inputs, cost, and the fallback in chunks *)
(* ================================================================== *)

(** X20. Inputs on which [chunk_and_process_json] calls no provider.
    Text that does not decode, or decodes to something that is no
    mapping, gives [None]; so does a chunk size of zero, whatever the
    text.  The empty mapping gives the empty mapping (for a chunk size
    other than zero), and a negative chunk size gives the empty mapping
    for every mapping: all blocks are dropped without a failure. *)
Theorem chunking_degenerate_inputs {RT : PyRuntime} (env : environment)
    (img s : string) (chunk_size : Z) (w : world) :
  (json_loads s = None ->
   chunk_and_process_json env img s chunk_size w = (Ret PyNone, w))
  /\ (forall v, json_loads s = Some v -> (forall d, v <> PyDict d) ->
        chunk_and_process_json env img s chunk_size w = (Ret PyNone, w))
  /\ (chunk_size = 0%Z ->
      chunk_and_process_json env img s chunk_size w = (Ret PyNone, w))
  /\ (json_loads s = Some (PyDict []) -> chunk_size <> 0%Z ->
      chunk_and_process_json env img s chunk_size w = (Ret (PyDict []), w))
  /\ (forall all_blocks, json_loads s = Some (PyDict all_blocks) -> (chunk_size < 0)%Z ->
        chunk_and_process_json env img s chunk_size w = (Ret (PyDict []), w)).
Proof.
  split; [|split; [|split; [|split]]].
  - intros H. unfold chunk_and_process_json. now rewrite H.
  - intros v H Hv. unfold chunk_and_process_json. rewrite H.
    destruct v; try reflexivity. now contradiction (Hv d).
  - intros ->. apply chunk_and_process_json_zero_size.
  - intros H Hc. destruct (Z_lt_dec chunk_size 0) as [Hn|Hn].
    + now apply chunk_and_process_json_negative_size with (all_blocks := []).
    + unfold chunk_and_process_json. rewrite H.
      rewrite py_range_step_positive by lia. cbn [dict_keys map List.length].
      replace ((0 + Z.to_nat chunk_size - 1) / Z.to_nat chunk_size) with 0
        by (symmetry; apply Nat.div_small; lia).
      reflexivity.
  - intros all_blocks H Hc. now apply chunk_and_process_json_negative_size with (all_blocks := all_blocks).
Qed.

(** X21. The fallback enrichment never raises and gives [None] for every
    malformed input: a block table handed over as it is, text that does
    not decode, text that decodes to something that is no mapping, and a
    mapping of which a single block is no record, whatever the other
    blocks are.  The empty mapping gives the empty mapping. *)
Theorem fallback_rejects_malformed_input {RT : PyRuntime} (s : string) :
  (forall block_details, create_fallback_block_json (InputTable block_details) = PyNone)
  /\ (json_loads s = None -> create_fallback_block_json (InputText s) = PyNone)
  /\ (forall v, json_loads s = Some v -> (forall d, v <> PyDict d) ->
        create_fallback_block_json (InputText s) = PyNone)
  /\ (forall blocks k v,
        json_loads s = Some (PyDict blocks) -> In (k, v) blocks ->
        (forall d, v <> PyDict d) ->
        create_fallback_block_json (InputText s) = PyNone)
  /\ (json_loads s = Some (PyDict []) ->
      create_fallback_block_json (InputText s) = PyDict []).
Proof.
  split; [reflexivity|]. split; [|split; [|split]].
  - intros H. unfold create_fallback_block_json, py_json_loads. now rewrite H.
  - intros v H Hv. unfold create_fallback_block_json, py_json_loads. rewrite H.
    destruct v; try reflexivity. now contradiction (Hv d).
  - intros blocks k v H Hin Hv. unfold create_fallback_block_json, py_json_loads.
    rewrite H.
    assert (Hl : forall acc, fallback_loop blocks acc = None).
    { clear H. induction blocks as [|[k' v'] blocks IH]; [contradiction|]. intros acc.
      cbn [fallback_loop]. destruct Hin as [Heq|Hin].
      - inversion Heq; subst k' v'. destruct v; try reflexivity.
        now contradiction (Hv d).
      - destruct v'; try reflexivity. now apply IH. }
    now rewrite Hl.
  - intros H. unfold create_fallback_block_json, py_json_loads. now rewrite H.
Qed.

(** ** What an enrichment costs *)

Section Budget.
Context {RT : PyRuntime}.
Variable env : environment.

Lemma attempt_loop_budget (prompt : string) (attempts : list nat) (w : world)
    (r : result pyval) (w' : world) :
  attempt_loop env prompt attempts w = (r, w') ->
  exists calls delays,
    calls <= List.length attempts
    /\ delays <= calls
    /\ llm_calls w' = llm_calls w ++ repeat prompt calls
    /\ sleeps w' = sleeps w ++ repeat RETRY_DELAY_SECONDS delays
    /\ files w' = files w
    /\ logs w' = logs w
    /\ exists v, r = Ret v.
Proof.
  revert w. induction attempts as [|attempt rest IH]; intros w H.
  - cbn in H. inversion H; subst. exists 0, 0. cbn. rewrite !app_nil_r.
    repeat split; try lia. now exists PyNone.
  - assert (Hstop : forall v,
              (@Ret pyval v, after_call prompt w) = (r, w') ->
              exists calls delays,
                calls <= List.length (attempt :: rest)
                /\ delays <= calls
                /\ llm_calls w' = llm_calls w ++ repeat prompt calls
                /\ sleeps w' = sleeps w ++ repeat RETRY_DELAY_SECONDS delays
                /\ files w' = files w
                /\ logs w' = logs w
                /\ exists v, r = Ret v).
    { intros v E. inversion E; subst. exists 1, 0. cbn. rewrite app_nil_r.
      repeat split; try lia. now exists v. }
    assert (Hgo : attempt_loop env prompt rest (after_sleep (after_call prompt w)) = (r, w') ->
              exists calls delays,
                calls <= List.length (attempt :: rest)
                /\ delays <= calls
                /\ llm_calls w' = llm_calls w ++ repeat prompt calls
                /\ sleeps w' = sleeps w ++ repeat RETRY_DELAY_SECONDS delays
                /\ files w' = files w
                /\ logs w' = logs w
                /\ exists v, r = Ret v).
    { intros E. destruct (IH _ E) as (calls & delays & Hc & Hd & Lc & Ls & Lf & Ll & Hv).
      exists (S calls), (S delays). cbn in Lc, Ls, Lf, Ll. cbn [List.length repeat].
      rewrite <- app_assoc in Lc, Ls. cbn [app] in Lc, Ls.
      repeat split; try lia; assumption. }
    cbn [attempt_loop] in H. unfold bind, call_provider in H.
    fold (after_call prompt w) in H.
    destruct (generate_content env (List.length (llm_calls w)) prompt) as [e| |raw].
    + destruct (attempt <? MAX_RETRIES - 1); [apply Hgo | apply (Hstop PyNone)]; exact H.
    + apply Hgo. exact H.
    + destruct (negb (Text.nonempty (clean_llm_response_to_json_string raw))).
      * apply Hgo. exact H.
      * destruct (json_loads (clean_llm_response_to_json_string raw)) as [v|].
        -- apply (Hstop v). exact H.
        -- destruct (attempt <? MAX_RETRIES - 1); [apply Hgo | apply (Hstop PyNone)];
             exact H.
Qed.

Lemma generate_block_json_budget (img : string) (input : blocks_input) (w : world)
    (r : result pyval) (w' : world) :
  generate_block_json env img input w = (r, w') ->
  exists calls delays,
    calls <= MAX_RETRIES
    /\ delays <= calls
    /\ llm_calls w'
       = llm_calls w ++ repeat (construct_gemini_prompt env (blocks_input_str input)) calls
    /\ sleeps w' = sleeps w ++ repeat RETRY_DELAY_SECONDS delays
    /\ files w' = files w
    /\ logs w' = logs w.
Proof.
  unfold generate_block_json. intros H.
  assert (Hnone : (r, w') = (r, w) ->
            exists calls delays,
              calls <= MAX_RETRIES /\ delays <= calls
              /\ llm_calls w'
                 = llm_calls w
                   ++ repeat (construct_gemini_prompt env (blocks_input_str input)) calls
              /\ sleeps w' = sleeps w ++ repeat RETRY_DELAY_SECONDS delays
              /\ files w' = files w /\ logs w' = logs w).
  { intros E. inversion E; subst. exists 0, 0. cbn. rewrite !app_nil_r.
    repeat split; lia. }
  destruct (part_from_data_error env img).
  - apply Hnone. cbn in H. now inversion H.
  - destruct (generative_model_error env).
    + apply Hnone. cbn in H. now inversion H.
    + destruct (attempt_loop_budget _ _ _ _ _ H)
        as (calls & delays & Hc & Hd & Lc & Ls & Lf & Ll & _).
      exists calls, delays. rewrite length_seq in Hc. repeat split; assumption.
Qed.

Lemma chunk_loop_budget (img : string) (all_blocks : dict) (block_keys : list string)
    (chunk_size : Z) (starts : list nat) (acc : dict) (w : world)
    (r : result (option dict)) (w' : world) :
  chunk_loop env img all_blocks block_keys chunk_size starts acc w = (r, w') ->
  List.length (llm_calls w') <= List.length (llm_calls w) + MAX_RETRIES * List.length starts
  /\ List.length (sleeps w') <= List.length (sleeps w) + MAX_RETRIES * List.length starts
  /\ files w' = files w
  /\ logs w' = logs w.
Proof.
  revert acc w. induction starts as [|i starts IH]; intros acc w H.
  - cbn in H. inversion H; subst. repeat split; lia.
  - cbn [chunk_loop] in H. unfold bind in H.
    destruct (generate_block_json env img
                (InputText (json_dumps (PyDict (current_chunk_of all_blocks
                                                  (chunk_keys_at block_keys i chunk_size)))))
                w) as [[p|e] w1] eqn:G.
    + apply generate_block_json_budget in G.
      destruct G as (calls & delays & Hc & Hd & Lc & Ls & Lf & Ll).
      assert (Hw1 : List.length (llm_calls w1) <= List.length (llm_calls w) + MAX_RETRIES
                    /\ List.length (sleeps w1) <= List.length (sleeps w) + MAX_RETRIES).
      { rewrite Lc, Ls, !length_app, !repeat_length. lia. }
      cbn [List.length].
      destruct (truthy p).
      * destruct (update_final_output acc p) as [acc1|].
        -- apply IH in H. destruct H as (Hl & Hs & Hf & Hg).
           repeat split; try congruence; lia.
        -- cbn in H. inversion H; subst. repeat split; try assumption; lia.
      * cbn in H. inversion H; subst. repeat split; try assumption; lia.
    + apply generate_block_json_budget in G.
      destruct G as (calls & delays & Hc & Hd & Lc & Ls & Lf & Ll).
      inversion H; subst. cbn [List.length].
      rewrite Lc, Ls, !length_app, !repeat_length. repeat split; try assumption; lia.
Qed.

End Budget.

(** X22. One enrichment makes at most three provider calls, all with the
    same prompt, and waits at most once after each call, two seconds each
    time; it writes no file and nothing to the log of the service. *)
Theorem enrichment_budget {RT : PyRuntime} (env : environment) (img : string)
    (input : blocks_input) (w : world) (r : result pyval) (w' : world) :
  generate_block_json env img input w = (r, w') ->
  exists calls delays,
    calls <= MAX_RETRIES
    /\ delays <= calls
    /\ llm_calls w'
       = llm_calls w ++ repeat (construct_gemini_prompt env (blocks_input_str input)) calls
    /\ sleeps w' = sleeps w ++ repeat RETRY_DELAY_SECONDS delays
    /\ files w' = files w
    /\ logs w' = logs w.
Proof.
  unfold generate_block_json. intros H.
  assert (Hnone : (r, w') = (r, w) ->
            exists calls delays,
              calls <= MAX_RETRIES /\ delays <= calls
              /\ llm_calls w'
                 = llm_calls w
                   ++ repeat (construct_gemini_prompt env (blocks_input_str input)) calls
              /\ sleeps w' = sleeps w ++ repeat RETRY_DELAY_SECONDS delays
              /\ files w' = files w /\ logs w' = logs w).
  { intros E. inversion E; subst. exists 0, 0. cbn. rewrite !app_nil_r.
    repeat split; lia. }
  destruct (part_from_data_error env img).
  - apply Hnone. cbn in H. now inversion H.
  - destruct (generative_model_error env).
    + apply Hnone. cbn in H. now inversion H.
    + destruct (attempt_loop_budget _ _ _ _ _ _ H)
        as (calls & delays & Hc & Hd & Lc & Ls & Lf & Ll & _).
      exists calls, delays. rewrite length_seq in Hc. repeat split; assumption.
Qed.

(** X23. Chunked enrichment of a mapping of [n] blocks with a positive
    chunk size makes at most three provider calls and three delays for
    each of its [ceil (n / chunk_size)] chunks, and writes no file,
    whether it ends in a mapping or in [None]. *)
Theorem chunking_budget {RT : PyRuntime} (env : environment) (img s : string)
    (chunk_size : Z) (all_blocks : dict) (w : world) (r : result pyval) (w' : world) :
  json_loads s = Some (PyDict all_blocks) ->
  (0 < chunk_size)%Z ->
  chunk_and_process_json env img s chunk_size w = (r, w') ->
  let chunks := (List.length all_blocks + Z.to_nat chunk_size - 1) / Z.to_nat chunk_size in
  List.length (llm_calls w') <= List.length (llm_calls w) + MAX_RETRIES * chunks
  /\ List.length (sleeps w') <= List.length (sleeps w) + MAX_RETRIES * chunks
  /\ files w' = files w.
Proof.
  intros Hs Hc H chunks. unfold chunk_and_process_json in H. rewrite Hs in H.
  rewrite py_range_step_positive in H by exact Hc.
  destruct (chunk_loop env img all_blocks (dict_keys all_blocks) chunk_size
              (map (fun j => j * Z.to_nat chunk_size)
                 (seq 0 ((List.length (dict_keys all_blocks) + Z.to_nat chunk_size - 1)
                         / Z.to_nat chunk_size))) [] w) as [r0 w0] eqn:E.
  apply chunk_loop_budget in E. rewrite length_map, length_seq in E.
  unfold dict_keys in E. rewrite length_map in E. fold chunks in E.
  destruct E as (Hl & Hd & Hf & _).
  assert (w0 = w') by (destruct r0 as [[m|]|e]; now inversion H). subst w0.
  repeat split; assumption.
Qed.

(** ** Chunks are slices of the mapping *)

Lemma nodup_skipn {A : Type} (i : nat) (l : list A) : NoDup l -> NoDup (skipn i l).
Proof.
  intros H. rewrite <- (firstn_skipn i l) in H. now apply NoDup_app_remove_l in H.
Qed.

Lemma nodup_firstn {A : Type} (k : nat) (l : list A) : NoDup l -> NoDup (firstn k l).
Proof.
  intros H. rewrite <- (firstn_skipn k l) in H. now apply NoDup_app_remove_r in H.
Qed.

Lemma in_slice {A : Type} (k i : nat) (l : list A) (x : A) :
  In x (firstn k (skipn i l)) -> In x l.
Proof.
  intros H. rewrite <- (firstn_skipn i l). apply in_or_app. right.
  rewrite <- (firstn_skipn k (skipn i l)). apply in_or_app. now left.
Qed.

Lemma comprehension_of_slice (all_blocks sl acc : dict) :
  (forall kv, In kv sl -> dict_get (fst kv) all_blocks = Some (snd kv)) ->
  NoDup (dict_keys acc ++ dict_keys sl) ->
  fold_left (fun acc key =>
               match dict_get key all_blocks with
               | Some v => dict_set key v acc
               | None => acc
               end) (dict_keys sl) acc
  = acc ++ sl.
Proof.
  revert acc. induction sl as [|[k v] sl IH]; intros acc Hg Hn.
  - cbn. now rewrite app_nil_r.
  - pose proof (Hg (k, v) (or_introl eq_refl)) as Hkv. cbn [fst snd] in Hkv.
    unfold dict_keys. cbn [map fst fold_left]. rewrite Hkv.
    assert (Hk : ~ In k (dict_keys acc)).
    { cbn in Hn. apply NoDup_remove_2 in Hn. intros H. apply Hn.
      apply in_or_app. now left. }
    rewrite dict_set_fresh by exact Hk.
    fold (dict_keys sl). rewrite IH.
    + now rewrite <- app_assoc.
    + intros kv Hin. apply Hg. now right.
    + unfold dict_keys in *. rewrite map_app, <- app_assoc. exact Hn.
Qed.

Lemma current_chunk_slice (all_blocks : dict) (i : nat) (chunk_size : Z) :
  NoDup (dict_keys all_blocks) ->
  current_chunk_of all_blocks (chunk_keys_at (dict_keys all_blocks) i chunk_size)
  = firstn (Z.to_nat chunk_size) (skipn i all_blocks).
Proof.
  intros Hn. unfold current_chunk_of, chunk_keys_at, dict_keys.
  rewrite skipn_map, firstn_map.
  apply (comprehension_of_slice all_blocks _ []).
  - intros [k v] Hin. apply (od_get_in String.eqb String.eqb_eq); [exact Hn|].
    now apply in_slice in Hin.
  - cbn [dict_keys map app]. unfold dict_keys. rewrite <- firstn_map, <- skipn_map.
    now apply nodup_firstn, nodup_skipn.
Qed.

(** X24. For a mapping with distinct keys, the chunk that starts at
    position [i] is the slice of [chunk_size] entries of the mapping from
    [i] on, each block with its record as it is.  With the default chunk
    size the chunks start at every position, and each block is sent to
    the enrichment alone. *)
Theorem chunks_are_slices {RT : PyRuntime} (all_blocks : dict) (chunk_size : Z) :
  NoDup (dict_keys all_blocks) ->
  (forall i,
     chunk_text all_blocks chunk_size i
     = json_dumps (PyDict (firstn (Z.to_nat chunk_size) (skipn i all_blocks))))
  /\ py_range_step (List.length (dict_keys all_blocks)) OUTPUT_CHUNK_SIZE
     = Ret (seq 0 (List.length all_blocks))
  /\ (forall i k v,
        nth_error all_blocks i = Some (k, v) ->
        chunk_text all_blocks OUTPUT_CHUNK_SIZE i = json_dumps (PyDict [(k, v)])).
Proof.
  intros Hn.
  assert (Hs : forall size i,
            chunk_text all_blocks size i
            = json_dumps (PyDict (firstn (Z.to_nat size) (skipn i all_blocks)))).
  { intros size i. unfold chunk_text. now rewrite current_chunk_slice. }
  split; [apply Hs|]. split.
  - rewrite py_range_step_positive by reflexivity.
    unfold OUTPUT_CHUNK_SIZE, dict_keys. change (Z.to_nat 1) with 1.
    rewrite length_map, Nat.add_sub, Nat.div_1_r. f_equal.
    rewrite <- (map_id (seq 0 (List.length all_blocks))) at 2.
    apply map_ext. intros j. apply Nat.mul_1_r.
  - intros i k v Hi. rewrite Hs. unfold OUTPUT_CHUNK_SIZE. change (Z.to_nat 1) with 1.
    do 2 f_equal. clear Hs Hn.
    revert i Hi. induction all_blocks as [|kv l IH]; intros i Hi.
    + destruct i; discriminate.
    + destruct i as [|i].
      * cbn in Hi. inversion Hi; subst. reflexivity.
      * cbn [skipn]. apply IH. exact Hi.
Qed.

(** ** The fallback, chunk by chunk *)

Lemma dict_update_fresh (other acc : dict) :
  NoDup (dict_keys acc ++ dict_keys other) -> dict_update acc other = acc ++ other.
Proof.
  unfold dict_update. revert acc. induction other as [|[k v] other IH]; intros acc Hn.
  - cbn. now rewrite app_nil_r.
  - cbn [fold_left fst snd].
    assert (Hk : ~ In k (dict_keys acc)).
    { cbn in Hn. apply NoDup_remove_2 in Hn. intros H. apply Hn.
      apply in_or_app. now left. }
    rewrite dict_set_fresh by exact Hk. rewrite IH.
    + now rewrite <- app_assoc.
    + unfold dict_keys in *. rewrite map_app, <- app_assoc. exact Hn.
Qed.

Lemma nodup_app_assoc_l {A : Type} (a b c : list A) :
  NoDup (a ++ b ++ c) -> NoDup (a ++ b).
Proof. rewrite app_assoc. apply NoDup_app_remove_r. Qed.

Section FallbackChunks.
Context {RT : PyRuntime}.
Variable env : environment.
Variable img : string.
Variable all_blocks : dict.
Variable chunk_size : Z.
Variable e : exn.
Hypothesis unavailable : part_from_data_error env img = Some e.
Hypothesis distinct : NoDup (dict_keys all_blocks).
Hypothesis records : all_records all_blocks.
Hypothesis positive : (0 < chunk_size)%Z.
Hypothesis round_trip :
  forall i, i < List.length all_blocks ->
    json_loads (json_dumps (PyDict (firstn (Z.to_nat chunk_size) (skipn i all_blocks))))
    = Some (PyDict (firstn (Z.to_nat chunk_size) (skipn i all_blocks))).

Lemma fallback_of_chunk (i : nat) (w : world) :
  i < List.length all_blocks ->
  generate_block_json env img
    (InputText (json_dumps (PyDict (current_chunk_of all_blocks
                                      (chunk_keys_at (dict_keys all_blocks) i chunk_size)))))
    w
  = (Ret (PyDict (map fallback_entry
                    (firstn (Z.to_nat chunk_size) (skipn i all_blocks)))), w)
  /\ firstn (Z.to_nat chunk_size) (skipn i all_blocks) <> [].
Proof.
  intros Hi. split.
  - unfold generate_block_json. rewrite unavailable.
    rewrite current_chunk_slice by exact distinct.
    rewrite (create_fallback_map _ _ (round_trip i Hi)); [reflexivity | |].
    + unfold dict_keys in *. rewrite <- firstn_map, <- skipn_map.
      now apply nodup_firstn, nodup_skipn.
    + intros k v Hin. apply (records k v). now apply in_slice in Hin.
  - destruct (skipn i all_blocks) as [|kv l] eqn:Es.
    + apply (f_equal (@List.length _)) in Es. rewrite length_skipn in Es. cbn in Es. lia.
    + destruct (Z.to_nat chunk_size) eqn:Ek; [lia | discriminate].
Qed.

Lemma fallback_chunk_loop (js : list nat) (acc : dict) (w : world) :
  (forall j, In j js -> j * Z.to_nat chunk_size < List.length all_blocks) ->
  NoDup (dict_keys acc
         ++ dict_keys (List.concat
                         (map (fun j => firstn (Z.to_nat chunk_size)
                                          (skipn (j * Z.to_nat chunk_size) all_blocks)) js))) ->
  chunk_loop env img all_blocks (dict_keys all_blocks) chunk_size
             (map (fun j => j * Z.to_nat chunk_size) js) acc w
  = (Ret (Some (acc ++ map fallback_entry
                         (List.concat
                            (map (fun j => firstn (Z.to_nat chunk_size)
                                             (skipn (j * Z.to_nat chunk_size) all_blocks))
                                 js)))), w).
Proof.
  revert acc. induction js as [|j js IH]; intros acc Hb Hn.
  - cbn. now rewrite app_nil_r.
  - cbn [map chunk_loop List.concat]. unfold bind.
    destruct (fallback_of_chunk (j * Z.to_nat chunk_size) w (Hb j (or_introl eq_refl)))
      as [Hg Hne].
    rewrite Hg.
    cbn [List.concat map] in Hn. unfold dict_keys in Hn. rewrite map_app in Hn.
    fold (dict_keys acc) in Hn.
    replace (truthy (PyDict (map fallback_entry
                               (firstn (Z.to_nat chunk_size)
                                  (skipn (j * Z.to_nat chunk_size) all_blocks))))) with true
      by (destruct (firstn (Z.to_nat chunk_size)
                      (skipn (j * Z.to_nat chunk_size) all_blocks)); [congruence | reflexivity]).
    cbn [update_final_output].
    rewrite dict_update_fresh.
    2:{ rewrite fallback_entry_keys. unfold dict_keys at 2.
        now apply nodup_app_assoc_l in Hn. }
    rewrite IH.
    + rewrite map_app, <- app_assoc. reflexivity.
    + intros j' Hj'. apply Hb. now right.
    + unfold dict_keys. rewrite map_app, map_map. cbn [fst fallback_entry].
      rewrite <- app_assoc. exact Hn.
Qed.

(** X25. When the provider cannot be set up, chunking is transparent:
    for a mapping of records with distinct keys, every positive chunk
    size and a JSON library that reads back the chunks it wrote,
    [chunk_and_process_json] returns what the fallback enrichment
    returns for the whole text, the fallback record of every block in
    key order, without calling the provider or waiting. *)
Theorem chunking_in_fallback_mode (s : string) (w : world) :
  json_loads s = Some (PyDict all_blocks) ->
  chunk_and_process_json env img s chunk_size w
  = (Ret (create_fallback_block_json (InputText s)), w)
  /\ create_fallback_block_json (InputText s) = PyDict (map fallback_entry all_blocks).
Proof.
  intros Hs.
  rewrite (create_fallback_map s all_blocks Hs distinct records).
  split; [|reflexivity].
  unfold chunk_and_process_json. rewrite Hs.
  rewrite py_range_step_positive by exact positive.
  assert (Hk : 0 < Z.to_nat chunk_size) by lia.
  assert (Hcov : List.concat
                   (map (fun j => firstn (Z.to_nat chunk_size)
                                    (skipn (j * Z.to_nat chunk_size) all_blocks))
                      (seq 0 ((List.length (dict_keys all_blocks) + Z.to_nat chunk_size - 1)
                              / Z.to_nat chunk_size)))
                 = all_blocks).
  { apply chunks_cover. unfold dict_keys. rewrite length_map.
    apply range_covers. exact Hk. }
  rewrite fallback_chunk_loop.
  - rewrite Hcov. reflexivity.
  - intros j Hj. apply in_seq in Hj. unfold dict_keys in Hj. rewrite length_map in Hj.
    destruct Hj as [_ Hj]. cbn in Hj.
    pose proof (Nat.Div0.mul_div_le (List.length all_blocks + Z.to_nat chunk_size - 1)
                  (Z.to_nat chunk_size)) as Hm.
    nia.
  - rewrite Hcov. exact distinct.
Qed.
End FallbackChunks.

(** ** On the blocks of the scenario *)

Lemma raw_blocks_distinct : NoDup (dict_keys Scenario.raw_blocks).
Proof. repeat constructor; simpl; intuition discriminate. Qed.

(** A provider that is busy, then cut short, then answers: three calls. *)
Lemma enrichment_budget_on_scripts :
  exists r w',
    generate_block_json (RT := SmallRuntime.runtime)
      (Scenario.env_of None [Scenario.busy; Scenario.truncated;
                             Scenario.answer Scenario.enriched_page] None)
      "UE5H" (InputText Scenario.raw_blocks_text) world0
    = (r, w')
    /\ List.length (llm_calls w') <= 3
    /\ List.length (sleeps w') <= 3
    /\ files w' = [].
Proof.
  destruct (generate_block_json (RT := SmallRuntime.runtime)
              (Scenario.env_of None [Scenario.busy; Scenario.truncated;
                                     Scenario.answer Scenario.enriched_page] None)
              "UE5H" (InputText Scenario.raw_blocks_text) world0) as [r w'] eqn:E.
  exists r, w'. split; [reflexivity|].
  destruct (enrichment_budget _ _ _ _ _ _ E) as (calls & delays & Hc & Hd & Lc & Ls & Lf & _).
  rewrite Lc, Ls, Lf. cbn [llm_calls sleeps files world0 app].
  rewrite !repeat_length. unfold MAX_RETRIES in Hc. repeat split; lia.
Defined.

(** The two blocks of the page, one block per chunk: at most six calls. *)
Lemma chunking_budget_on_page_one :
  exists r w',
    chunk_and_process_json (RT := SmallRuntime.runtime) Scenario.env_enriched
      "UE5H" Scenario.raw_blocks_text 1 world0
    = (r, w')
    /\ List.length (llm_calls w') <= 6
    /\ files w' = [].
Proof.
  destruct (chunk_and_process_json (RT := SmallRuntime.runtime) Scenario.env_enriched
              "UE5H" Scenario.raw_blocks_text 1 world0) as [r w'] eqn:E.
  exists r, w'. split; [reflexivity|].
  assert (Hs : json_loads (PyRuntime := SmallRuntime.runtime) Scenario.raw_blocks_text
               = Some (PyDict Scenario.raw_blocks)) by (vm_compute; reflexivity).
  destruct (chunking_budget (RT := SmallRuntime.runtime) Scenario.env_enriched "UE5H"
              Scenario.raw_blocks_text 1 Scenario.raw_blocks world0 r w' Hs eq_refl E)
    as (Hl & _ & Hf).
  split; [exact Hl | exact Hf].
Defined.

(** With the default chunk size the sentence of the page travels alone. *)
Lemma chunks_of_page_one :
  py_range_step 2 OUTPUT_CHUNK_SIZE = Ret [0; 1]
  /\ chunk_text (RT := SmallRuntime.runtime) Scenario.raw_blocks OUTPUT_CHUNK_SIZE 1
     = SmallRuntime.dumps
         (PyDict [("1", PyDict [("text", PyStr "Once upon a time");
                                ("words", PyList [PyStr "Once"; PyStr "upon";
                                                  PyStr "a"; PyStr "time"])])]).
Proof.
  destruct (chunks_are_slices (RT := SmallRuntime.runtime) Scenario.raw_blocks 1
              raw_blocks_distinct) as (_ & R & S).
  split; [exact R|]. exact (S 1 "1" _ eq_refl).
Defined.

(** The blocks of the page, chunk by chunk, with no provider: the
    fallback records of both blocks. *)
Lemma chunking_in_fallback_mode_on_page_one :
  chunk_and_process_json (RT := SmallRuntime.runtime) Scenario.env_fallback
    "UE5H" Scenario.raw_blocks_text 1 world0
  = (Ret (create_fallback_block_json (RT := SmallRuntime.runtime)
            (InputText Scenario.raw_blocks_text)), world0)
  /\ create_fallback_block_json (RT := SmallRuntime.runtime)
       (InputText Scenario.raw_blocks_text)
     = PyDict (map (fallback_entry (RT := SmallRuntime.runtime)) Scenario.raw_blocks).
Proof.
  apply (chunking_in_fallback_mode (RT := SmallRuntime.runtime) Scenario.env_fallback
           "UE5H" Scenario.raw_blocks 1
           (mk_exn ImportError "Vertex AI not available") eq_refl raw_blocks_distinct).
  - intros k v [H|[H|[]]]; injection H as <- <-; eexists; reflexivity.
  - reflexivity.
  - intros i Hi. destruct i as [|[|i]]; [vm_compute; reflexivity | vm_compute; reflexivity |].
    cbn in Hi. lia.
  - vm_compute. reflexivity.
Defined.

(* ================================================================== *)
(** * The route *)
(* ================================================================== *)

Section Route.
Context {RT : PyRuntime}.
Variable env : environment.
Variable pdf_file : upload.

Lemma request_try_temp (w : world) (r : result (list page_result)) (name : string)
    (w1 : world) :
  request_try env pdf_file w = (r, Some name, w1) ->
  named_temporary_file env = Ret name.
Proof.
  unfold request_try. intros H.
  destruct ((os_makedirs env (output_dir_of env pdf_file) ;;;
             log INFO ("Created output directory: " +++ output_dir_of env pdf_file)) w)
    as [[[]|e] w0]; [|discriminate].
  unfold new_temp_file in H.
  destruct (named_temporary_file env) as [name'|e]; [|discriminate].
  destruct (request_pages env pdf_file (output_dir_of env pdf_file) name' _) as [r' w3].
  now inversion H.
Qed.

Lemma process_tts_request_raises (w : world) (e : exn) (w' : world) :
  process_tts_request env pdf_file w = (Raise e, w') ->
  exists name,
    named_temporary_file env = Ret name
    /\ remove_error env name = Some e
    /\ is_PermissionError e = false.
Proof.
  unfold process_tts_request. intros H.
  destruct (request_try env pdf_file w) as [[r temp_pdf] w1] eqn:Ht.
  destruct (request_outcome r w1) as [pending w2] eqn:Ho.
  assert (Hp : exists x, pending = Ret x).
  { destruct r; cbn in Ho; inversion Ho; eauto. }
  destruct Hp as [x ->].
  destruct temp_pdf as [name|]; cbn [request_finally] in H; [|discriminate].
  apply request_try_temp in Ht. exists name. split; [exact Ht|].
  unfold os_remove in H. destruct (remove_error env name) as [e'|]; [|discriminate].
  destruct (is_PermissionError e') eqn:Ep; [discriminate|].
  inversion H; subst. now split.
Qed.

End Route.

(** X26. What the route answers.  When the service returns, its
    dictionary is the body of the answer, also when its status is error,
    and the controller logs the processing as completed successfully.
    Otherwise the answer is an HTTP error 500 with a fixed detail that
    holds nothing of the exception; this happens only when the deletion
    of the temporary file raised something other than PermissionError. *)
Theorem route_answers {RT : PyRuntime} (env : environment) (pdf_file : upload)
    (w : world) (answer : request_result + http_exception) (w' : world) :
  tts_service env pdf_file w = (answer, w') ->
  match answer with
  | inl response_data =>
      (exists w1,
         process_tts_request env pdf_file w = (Ret response_data, w1)
         /\ logs w' = logs w1 ++ [(INFO, "TTS processing completed successfully for file: "
                                         +++ filename pdf_file)])
      /\ (status response_data = "success" \/ exists e, response_data = error_result e)
  | inr http_error =>
      http_error = mk_http_exception 500 "An error occurred during TTS processing."
      /\ exists name e,
           named_temporary_file env = Ret name
           /\ remove_error env name = Some e
           /\ is_PermissionError e = false
  end.
Proof.
  unfold tts_service. intros H.
  destruct (process_tts_request env pdf_file w) as [[r|e] w1] eqn:E;
    inversion H; subst answer w'; clear H.
  - split.
    + exists w1. split; reflexivity.
    + unfold process_tts_request in E.
      destruct (request_try env pdf_file w) as [[r0 temp_pdf] w0].
      destruct r0 as [page_results|e0]; cbn in E.
      * destruct (request_finally env temp_pdf w0) as [[[]|e'] w3]; [|discriminate].
        inversion E. now left.
      * match type of E with
        | match ?f with _ => _ end = _ => destruct f as [[[]|e'] w3]; [|discriminate]
        end.
        inversion E. right. now exists e0.
  - split; [reflexivity|].
    destruct (process_tts_request_raises env pdf_file w e w1 E) as (name & Hn & Hr & Hp).
    now exists name, e.
Qed.

(** The fallback request: answered with the error dictionary, logged as
    completed. *)
Lemma route_answers_on_fallback :
  exists response_data w',
    tts_service (RT := SmallRuntime.runtime) Scenario.env_fallback Scenario.book world0
    = (inl response_data, w')
    /\ status response_data = "error"
    /\ message response_data = "'NoneType' object is not iterable".
Proof.
  destruct (tts_service (RT := SmallRuntime.runtime) Scenario.env_fallback Scenario.book
              world0) as [[r|h] w'] eqn:E.
  - exists r, w'. split; [reflexivity|].
    pose proof (route_answers _ _ _ _ _ E) as [(w1 & P & _) _].
    vm_compute in P. inversion P. split; reflexivity.
  - exfalso. vm_compute in E. discriminate.
Defined.

(* ================================================================== *)
(** * The page image *)
(* ================================================================== *)

(** X27. For a document on disk that the renderer opens, extracting a
    page that exists writes the PNG bytes of the page to the image file
    of the page and returns the base64 text of those very bytes with the
    path and the page; extracting a page past the end raises ValueError
    and leaves the files as they were. *)
Theorem extract_page_writes_what_it_encodes {RT : PyRuntime} (env : environment)
    (pdf_path : string) (page_number : nat) (output_dir output_name data : string)
    (pdf : list page) (w : world) :
  makedirs_error env output_dir = None ->
  file_get pdf_path (files w) = Some (FileBytes data) ->
  fitz_open env data = Ret pdf ->
  (forall pg,
     nth_error pdf page_number = Some pg ->
     open_error env (page_image_path output_dir output_name page_number) = None ->
     exists w',
       extract_page_as_base64 env pdf_path page_number output_dir output_name w
       = (Ret (b64encode (page_png pg),
               page_image_path output_dir output_name page_number, pg), w')
       /\ file_get (page_image_path output_dir output_name page_number) (files w')
          = Some (FileBytes (page_png pg))
       /\ (forall path, path <> page_image_path output_dir output_name page_number ->
             file_get path (files w') = file_get path (files w))
       /\ logs w' = logs w)
  /\ (List.length pdf <= page_number ->
      extract_page_as_base64 env pdf_path page_number output_dir output_name w
      = (Raise (mk_exn ValueError "page not in document"), w)).
Proof.
  intros Hd Hf Hr. split.
  - intros pg Hn Ho.
    unfold extract_page_as_base64, bind, os_makedirs, open_document, lift, load_page,
      write_file.
    rewrite Hd, Hf, Hr, Hn. fold (page_image_path output_dir output_name page_number).
    rewrite Ho. cbn [set_files ret fst snd]. eexists. split; [reflexivity|].
    cbn [files logs]. split; [apply (od_get_set_same String.eqb String.eqb_eq)|].
    split; [|reflexivity].
    intros path Hp. apply (od_get_set_other String.eqb String.eqb_eq). congruence.
  - intros Hl. apply nth_error_None in Hl.
    unfold extract_page_as_base64, bind, os_makedirs, open_document, lift, load_page.
    now rewrite Hd, Hf, Hr, Hl.
Qed.

(** The only page of the book, and the page after it. *)
Lemma extract_page_on_book :
  (exists w',
     extract_page_as_base64 (RT := SmallRuntime.runtime) Scenario.env_fallback
       "/tmp/tmpa1b2c3.pdf" 0 "output/book" "book.pdf" Scenario.world_with_copy
     = (Ret (b64encode (PyRuntime := SmallRuntime.runtime) "PNG",
             "output/book/book.pdf_page_0.png", Scenario.page_one), w')
     /\ file_get "output/book/book.pdf_page_0.png" (files w') = Some (FileBytes "PNG"))
  /\ extract_page_as_base64 (RT := SmallRuntime.runtime) Scenario.env_fallback
       "/tmp/tmpa1b2c3.pdf" 1 "output/book" "book.pdf" Scenario.world_with_copy
     = (Raise (mk_exn ValueError "page not in document"), Scenario.world_with_copy).
Proof.
  split.
  - destruct (proj1 (extract_page_writes_what_it_encodes (RT := SmallRuntime.runtime)
                Scenario.env_fallback "/tmp/tmpa1b2c3.pdf" 0 "output/book" "book.pdf"
                "%PDF-1.7" [Scenario.page_one] Scenario.world_with_copy
                eq_refl eq_refl eq_refl) Scenario.page_one eq_refl eq_refl)
      as (w' & E & F & _).
    exists w'. split; [exact E | exact F].
  - apply (proj2 (extract_page_writes_what_it_encodes (RT := SmallRuntime.runtime)
             Scenario.env_fallback "/tmp/tmpa1b2c3.pdf" 1 "output/book" "book.pdf"
             "%PDF-1.7" [Scenario.page_one] Scenario.world_with_copy
             eq_refl eq_refl eq_refl)).
    cbn. lia.
Defined.

(* ================================================================== *)
(** * A document whose pages are all enriched *)
(* ================================================================== *)

Lemma bind_inv {A B : Type} (m : M A) (k : A -> M B) (w : world)
    (r : result B) (w' : world) :
  bind m k w = (r, w') ->
  (exists a w1, m w = (Ret a, w1) /\ k a w1 = (r, w'))
  \/ (exists e, m w = (Raise e, w') /\ r = Raise e).
Proof.
  unfold bind. destruct (m w) as [[a|e] w1]; intros H.
  - left. eauto.
  - right. inversion H; subst. eauto.
Qed.

(** A relative file name stays relative when a suffix is appended, and
    the names that start with [block_] or [page_] are relative. *)
Lemma startswith_slash_app (a b : string) :
  Text.startswith a "/" = false -> Text.startswith (a +++ b) "/" = Text.startswith b "/"
  \/ Text.startswith (a +++ b) "/" = false.
Proof.
  intros H. destruct a as [|c a]; [left; reflexivity|].
  right. cbn in *. exact H.
Qed.

Lemma relative_page_file (fname rest : string) :
  Text.startswith fname "/" = false ->
  Text.startswith (fname +++ "_page_" +++ rest) "/" = false.
Proof.
  intros H. destruct (startswith_slash_app fname ("_page_" +++ rest) H) as [E|E].
  - rewrite E. reflexivity.
  - exact E.
Qed.

Section OutsideOutputDir.
Context {RT : PyRuntime}.
Variable env : environment.
Variable output_dir : string.
Variable kept : string.
Variable fname : string.
Hypothesis outside : outside_directory output_dir kept.
Hypothesis relative : Text.startswith fname "/" = false.

Lemma file_set_keeps (x : string) (content : file_content)
    (fs : list (string * file_content)) :
  Text.startswith x "/" = false ->
  file_get kept (file_set (os_path_join output_dir x) content fs) = file_get kept fs.
Proof.
  intros Hx. apply (od_get_set_other String.eqb String.eqb_eq).
  intros Heq. apply (outside x Hx). now symmetry.
Qed.

Lemma write_file_keeps (x : string) (content : file_content) (w : world)
    (r : result unit) (w' : world) :
  Text.startswith x "/" = false ->
  write_file env (os_path_join output_dir x) content w = (r, w') ->
  file_get kept (files w') = file_get kept (files w).
Proof.
  intros Hx. unfold write_file.
  destruct (open_error env (os_path_join output_dir x)); intros H.
  - now inversion H.
  - cbn in H. inversion H; subst. cbn [files]. now apply file_set_keeps.
Qed.

Lemma write_stream_keeps (x : string) (stream : result string) (w : world)
    (r : result unit) (w' : world) :
  Text.startswith x "/" = false ->
  write_stream env (os_path_join output_dir x) stream w = (r, w') ->
  file_get kept (files w') = file_get kept (files w).
Proof.
  intros Hx. destruct stream as [bytes|e]; cbn [write_stream]; intros H.
  - now apply write_file_keeps in H.
  - apply bind_inv in H. destruct H as [(? & w1 & Hw & H)|(e' & Hw & _)].
    + apply write_file_keeps in Hw; [|exact Hx]. inversion H; subst. exact Hw.
    + now apply write_file_keeps in Hw.
Qed.

Lemma save_audio_and_speech_marks_keeps (client : option polly) (block_id : string)
    (ssml_output person_type block_json : pyval) (block_key : py_key) (w : world)
    (r : result (string * string * pyval)) (w' : world) :
  save_audio_and_speech_marks env client block_id ssml_output output_dir person_type
                              block_json block_key w = (r, w') ->
  file_get kept (files w') = file_get kept (files w).
Proof.
  unfold save_audio_and_speech_marks. destruct client as [client|]; intros H.
  - apply bind_inv in H. destruct H as [(voice & w1 & Hv & H)|(e & Hv & _)];
      [|now inversion Hv].
    inversion Hv; subst w1. clear Hv.
    apply bind_inv in H. destruct H as [(audio & w1 & Ha & H)|(e & Ha & _)];
      [|now inversion Ha].
    inversion Ha; subst w1. clear Ha.
    apply bind_inv in H. destruct H as [(? & w1 & Hw & H)|(e & Hw & _)];
      [|now apply write_stream_keeps in Hw].
    apply write_stream_keeps in Hw; [|reflexivity].
    apply bind_inv in H. destruct H as [(stream & w2 & Hs & H)|(e & Hs & _)];
      [|inversion Hs; now subst].
    inversion Hs; subst w2. clear Hs.
    apply bind_inv in H. destruct H as [(? & w2 & Hm & H)|(e & Hm & _)];
      [|apply write_file_keeps in Hm; [congruence | reflexivity]].
    apply write_file_keeps in Hm; [|reflexivity].
    apply bind_inv in H. destruct H as [(bj & w3 & Ht & H)|(e & Ht & _)];
      [|inversion Ht; subst; congruence].
    inversion Ht; subst w3. inversion H; subst. congruence.
  - apply bind_inv in H. destruct H as [(? & w1 & Hw & H)|(e & Hw & _)];
      [|now apply write_file_keeps in Hw].
    apply write_file_keeps in Hw; [|reflexivity].
    apply bind_inv in H. destruct H as [(? & w2 & Hm & H)|(e & Hm & _)];
      [|apply write_file_keeps in Hm; [congruence | reflexivity]].
    apply write_file_keeps in Hm; [|reflexivity].
    apply bind_inv in H. destruct H as [(bj & w3 & Ht & H)|(e & Ht & _)];
      [|inversion Ht; subst; congruence].
    inversion Ht; subst w3. inversion H; subst. congruence.
Qed.

Lemma blocks_loop_keeps (page_number : nat) (keys : list py_key)
    (block_json : pyval) (audio_metadata : audio_metadata_t)
    (vertex_path : option string) (w : world)
    (r : result (pyval * audio_metadata_t * option string)) (w' : world) :
  blocks_loop env output_dir fname page_number keys block_json audio_metadata
              vertex_path w = (r, w') ->
  file_get kept (files w') = file_get kept (files w).
Proof.
  revert block_json audio_metadata vertex_path w.
  induction keys as [|k keys IH]; intros block_json audio_metadata vertex_path w H.
  - cbn in H. now inversion H.
  - cbn [blocks_loop] in H.
    destruct (entry_data block_json k) as [[| | | | | |record]|];
      try (cbn in H; now inversion H).
    destruct (negb (truthy (dict_get_default "ssml" PyNone record))).
    + apply bind_inv in H. destruct H as [(? & w1 & Hl & H)|(e & Hl & _)];
        [|discriminate].
      cbn in Hl. inversion Hl; subst w1. apply IH in H. exact H.
    + apply bind_inv in H. destruct H as [(saved & w1 & Hs & H)|(e & Hs & _)];
        [|now apply save_audio_and_speech_marks_keeps in Hs].
      apply save_audio_and_speech_marks_keeps in Hs.
      unfold trimmed_blocks_path in H.
      apply bind_inv in H. destruct H as [(? & w2 & Hw & H)|(e & Hw & _)];
        [|apply write_file_keeps in Hw;
          [congruence | now apply relative_page_file]].
      apply write_file_keeps in Hw; [|now apply relative_page_file].
      apply bind_inv in H. destruct H as [(? & w3 & Hl & H)|(e & Hl & _)];
        [|discriminate].
      cbn in Hl. inversion Hl; subst w3. clear Hl.
      apply bind_inv in H. destruct H as [(? & w4 & Hl & H)|(e & Hl & _)];
        [|discriminate].
      cbn in Hl. inversion Hl; subst w4. clear Hl.
      apply IH in H. cbn [files] in H. congruence.
Qed.

End OutsideOutputDir.

Section EnrichedPages.
Context {RT : PyRuntime}.
Variable env : environment.
Variable pdf_file : upload.
Variables pdf_path output_dir data : string.
Variable pdf : list page.
Hypothesis dir_ok : makedirs_error env output_dir = None.
Hypothesis renders : fitz_open env data = Ret pdf.
Hypothesis writable : forall path, open_error env path = None.
Hypothesis outside : outside_directory output_dir pdf_path.
Hypothesis relative : Text.startswith (filename pdf_file) "/" = false.
Hypothesis no_client : polly_client env = None.
Hypothesis model_ok : generative_model_error env = None.

Lemma process_page_enriched (page_number : nat) (pg : page)
    (vertex_path : option string) (d : dict) (w : world) :
  nth_error pdf page_number = Some pg ->
  file_get pdf_path (files w) = Some (FileBytes data) ->
  part_from_data_error env (b64encode (page_png pg)) = None ->
  attempt_yields
    (generate_content env (List.length (llm_calls w))
       (construct_gemini_prompt env (blocks_input_str (InputTable (page_blocks pg)))))
    (PyDict d) ->
  NoDup (dict_keys d) ->
  all_with_ssml d ->
  d <> [] ->
  exists w',
    process_page env pdf_file pdf_path output_dir pdf page_number vertex_path w
    = (Ret (Some (trimmed_blocks_path output_dir (filename pdf_file) page_number),
            own_descriptor output_dir (filename pdf_file) page_number), w')
    /\ List.length (llm_calls w') = S (List.length (llm_calls w))
    /\ sleeps w' = sleeps w
    /\ file_get pdf_path (files w') = Some (FileBytes data).
Proof.
  intros Hn Hf Hp Hy Hd Hs Hne.
  rewrite (process_page_setup env pdf_file pdf_path output_dir data pdf page_number pg
             vertex_path w Hn dir_ok Hf renders (writable _) (writable _)).
  unfold bind at 1. unfold generate_block_json. rewrite Hp, model_ok.
  change (seq 0 MAX_RETRIES) with [0; 1; 2].
  rewrite (attempt_loop_success env _ 0 [1; 2] _ (PyDict d)) by exact Hy.
  unfold bind at 1. cbn [lift entry_keys].
  match goal with
  | |- exists w', bind (blocks_loop ?e ?o ?f ?n ?ks ?bj ?am ?vp) _ ?w0 = _ /\ _ =>
      destruct (blocks_loop_all e o f n no_client writable d [] am vp w0 Hd Hs)
        as (w3 & E & _ & L & Sl);
      pose proof (blocks_loop_keeps e o pdf_path f outside relative n ks bj am vp w0 _ _ E) as K
  end.
  cbn [map app] in E. unfold bind at 1. rewrite E. cbn [fst snd].
  unfold bind at 1, write_file at 1. rewrite writable. cbn [set_files].
  unfold bind at 1. cbn [log].
  destruct d as [|kv d']; [congruence|]. cbn [ret].
  eexists. split; [reflexivity|]. cbn [files logs sleeps llm_calls].
  split; [|split].
  - rewrite L. cbn. rewrite length_app. cbn. lia.
  - rewrite Sl. reflexivity.
  - unfold page_metadata_path.
    rewrite (file_set_keeps output_dir pdf_path outside) by reflexivity.
    rewrite K. cbn [files world_before_enrichment after_call].
    unfold page_json_path, page_image_path.
    rewrite !(file_set_keeps output_dir pdf_path outside)
      by (now apply relative_page_file).
    exact Hf.
Qed.

Lemma pages_loop_enriched (first_call : nat) (answers : nat -> dict) (k a : nat)
    (vertex_path : option string) (page_results : list page_result) (w : world) :
  pages_enriched env first_call pdf answers ->
  a + k <= List.length pdf ->
  file_get pdf_path (files w) = Some (FileBytes data) ->
  List.length (llm_calls w) = first_call + a ->
  exists w',
    pages_loop env pdf_file pdf_path output_dir pdf (seq a k) vertex_path page_results w
    = (Ret (page_results
            ++ map (own_descriptor output_dir (filename pdf_file)) (seq a k)), w')
    /\ List.length (llm_calls w') = first_call + a + k
    /\ sleeps w' = sleeps w.
Proof.
  intros He. revert a vertex_path page_results w.
  induction k as [|k IH]; intros a vertex_path page_results w Hb Hf Hc.
  - exists w. cbn. rewrite app_nil_r. repeat split. lia.
  - destruct (nth_error pdf a) as [pg|] eqn:En.
    2:{ apply nth_error_None in En. lia. }
    destruct (He a pg En) as (Hp & Hy & Hd & Hs & Hne).
    rewrite <- Hc in Hy.
    destruct (process_page_enriched a pg vertex_path (answers a) w En Hf Hp Hy Hd Hs Hne)
      as (w1 & E & L & Sl & F).
    destruct (IH (S a)
                (Some (trimmed_blocks_path output_dir (filename pdf_file) a))
                (page_results ++ [own_descriptor output_dir (filename pdf_file) a]) w1)
      as (w' & E' & L' & Sl'); [lia | exact F | lia |].
    exists w'. cbn [seq pages_loop map]. unfold bind. rewrite E. cbn [fst snd].
    rewrite E', <- app_assoc. cbn [app].
    split; [reflexivity|]. split; [lia | congruence].
Qed.

End EnrichedPages.

(** X28. The whole request, for any document.  When the upload can be
    stored and opened, every file can be written, the name of the upload
    is relative, the temporary file is no file of the output directory,
    no synthesis client is configured, and
    the provider answers every page at the first attempt with a mapping of
    distinct keys whose blocks all carry [ssml], the request succeeds:
    the results hold, in page order, the descriptor of every page with
    the trimmed file of that very page, the provider was called exactly
    once per page, and nothing was waited for. *)
Theorem request_succeeds_when_every_page_is_enriched {RT : PyRuntime}
    (env : environment) (pdf_file : upload) (name data : string) (pdf : list page)
    (answers : nat -> dict) (w : world) :
  request_opens env pdf_file name data pdf ->
  (forall path, open_error env path = None) ->
  Text.startswith (filename pdf_file) "/" = false ->
  outside_directory (output_dir_of env pdf_file) name ->
  polly_client env = None ->
  generative_model_error env = None ->
  pages_enriched env (List.length (llm_calls w)) pdf answers ->
  cleanup_quiet env (Some name) ->
  exists w',
    process_tts_request env pdf_file w
    = (Ret (mk_request_result "success"
              ("Processed " +++ Text.of_nat (List.length pdf) +++ " page(s).")
              (Some (map (own_descriptor (output_dir_of env pdf_file) (filename pdf_file))
                         (seq 0 (List.length pdf))))
              None), w')
    /\ List.length (llm_calls w') = List.length (llm_calls w) + List.length pdf
    /\ sleeps w' = sleeps w.
Proof.
  intros Ho Hw Hrel Hout Hc Hm He Hq.
  pose proof (request_try_opens env pdf_file name data pdf w Ho) as Ht.
  destruct Ho as (Hd & _ & _ & _ & Hf).
  destruct (pages_loop_enriched env pdf_file name (output_dir_of env pdf_file) data pdf
              Hd Hf Hw Hout Hrel Hc Hm (List.length (llm_calls w)) answers
              (List.length pdf) 0 None []
              (world_after_upload env pdf_file name data w) He)
    as (w1 & E & L & Sl).
  { cbn. lia. }
  { apply (od_get_set_same String.eqb String.eqb_eq). }
  { cbn. lia. }
  rewrite E in Ht. cbn [app] in Ht.
  destruct (request_returns env pdf_file w _ _ _ Ht Hq) as (w' & E' & L' & Sl').
  exists w'. cbn [request_outcome ret fst] in E'.
  rewrite length_map, length_seq in E'.
  split; [exact E'|]. split.
  - rewrite L', L. lia.
  - rewrite Sl', Sl. reflexivity.
Qed.

(** The book of the scenario, answered with both blocks enriched. *)
Lemma request_succeeds_on_enriched_book :
  exists w',
    process_tts_request (RT := SmallRuntime.runtime) Scenario.env_enriched Scenario.book world0
    = (Ret (mk_request_result "success" "Processed 1 page(s)."
              (Some [own_descriptor (RT := SmallRuntime.runtime)
                       "output/book-01-02-2025-10-00-00" "book.pdf" 0])
              None), w')
    /\ List.length (llm_calls w') = 1.
Proof.
  destruct (request_succeeds_when_every_page_is_enriched (RT := SmallRuntime.runtime)
              Scenario.env_enriched Scenario.book "/tmp/tmpa1b2c3.pdf" "%PDF-1.7"
              [Scenario.page_one] (fun _ => as_record Scenario.enriched_page) world0)
    as (w' & E & L & _).
  - repeat split.
  - intros path. reflexivity.
  - reflexivity.
  - intros x Hx H. cbn in H. unfold SmallRuntime.path_join in H.
    rewrite Hx in H. cbn in H. discriminate.
  - reflexivity.
  - reflexivity.
  - intros i pg Hn. destruct i as [|i]; [|destruct i; discriminate].
    injection Hn as <-. split; [reflexivity|]. split.
    + eexists. split; [reflexivity|]. split; vm_compute; reflexivity.
    + split; [|split].
      * vm_compute. repeat constructor; simpl; intuition discriminate.
      * intros k v H. vm_compute in H.
        destruct H as [H|[H|[]]]; injection H as <- <-; eexists; split; reflexivity.
      * vm_compute. discriminate.
  - intros name e _ H. discriminate.
  - exists w'. split; [exact E | exact L].
Defined.

(* ================================================================== *)
(** * Enrichment in chunks: what a chunk holds, and the keys of the result *)
(* ================================================================== *)

Lemma dict_keys_set_iff (k : string) (v : pyval) (d : dict) (x : string) :
  In x (dict_keys (dict_set k v d)) <-> In x (dict_keys d) \/ x = k.
Proof.
  split; [apply dict_keys_set_incl|].
  unfold dict_keys, dict_set. rewrite (od_keys_set String.eqb).
  destruct (od_has String.eqb k d) eqn:E.
  - intros [H| ->]; [exact H|].
    now apply (od_has_in String.eqb String.eqb_eq).
  - intros [H| ->]; apply in_or_app; [now left | right; now left].
Qed.

Lemma dict_keys_update_iff (other d : dict) (x : string) :
  In x (dict_keys (dict_update d other))
  <-> In x (dict_keys d) \/ In x (dict_keys other).
Proof.
  split; [apply dict_keys_update_incl|].
  unfold dict_update. revert d. induction other as [|[k v] other IH]; intros d H.
  - destruct H as [H|[]]. exact H.
  - cbn [fold_left fst snd]. apply IH.
    destruct H as [H|[H|H]].
    + left. apply dict_keys_set_iff. now left.
    + left. apply dict_keys_set_iff. right. now symmetry.
    + now right.
Qed.

Lemma dict_keys_updates (ds : list dict) (acc : dict) (x : string) :
  In x (dict_keys (fold_left dict_update ds acc))
  <-> In x (dict_keys acc) \/ exists d, In d ds /\ In x (dict_keys d).
Proof.
  revert acc. induction ds as [|d ds IH]; intros acc; cbn [fold_left].
  - split; [now left | intros [H|(d & [] & _)]; exact H].
  - rewrite IH, dict_keys_update_iff. split.
    + intros [[H|H]|(d' & Hd & H)].
      * now left.
      * right. exists d. split; [now left | exact H].
      * right. exists d'. split; [now right | exact H].
    + intros [H|(d' & [<-|Hd] & H)].
      * left. now left.
      * left. now right.
      * right. exists d'. now split.
Qed.

(** C5. For a block mapping of distinct keys and a positive chunk size,
    the keys are cut, in key order, into consecutive chunks of
    [chunk_size] keys (the last one may be shorter); the chunk that starts
    at [i] holds the [chunk_size] entries of the mapping from [i] on, as
    they are, and its JSON text is what the enrichment is handed; the
    chunks put end to end are the mapping.  The call returns a mapping
    exactly when every chunk, one after the other, was enriched with a
    truthy output and merged into the accumulated mapping; for dictionary
    outputs the result is their successive [update], so that its keys are
    the keys of the outputs: original block ids when each output keeps to
    the keys of its chunk, and only then all of them.  As soon as a chunk
    comes back falsy the call returns [None]; it never returns anything
    but [None] or a mapping, and never raises.  A chunk size of zero gives
    [None], and a negative one the empty mapping, with no chunk
    processed. *)
Theorem chunk_and_process_json_all_or_nothing {RT : PyRuntime} (env : environment)
    (img s : string) (chunk_size : Z) (all_blocks : dict) (w : world) :
  json_loads s = Some (PyDict all_blocks) ->
  NoDup (dict_keys all_blocks) ->
  ((0 < chunk_size)%Z ->
   exists starts,
     py_range_step (List.length (dict_keys all_blocks)) chunk_size = Ret starts
     /\ List.concat (map (fun i => chunk_keys_at (dict_keys all_blocks) i chunk_size) starts)
        = dict_keys all_blocks
     /\ (forall i, In i starts ->
           List.length (chunk_keys_at (dict_keys all_blocks) i chunk_size)
           = Nat.min (Z.to_nat chunk_size) (List.length (dict_keys all_blocks) - i))
     /\ (forall i,
           current_chunk_of all_blocks (chunk_keys_at (dict_keys all_blocks) i chunk_size)
           = firstn (Z.to_nat chunk_size) (skipn i all_blocks)
           /\ chunk_text all_blocks chunk_size i
              = json_dumps (PyDict (firstn (Z.to_nat chunk_size) (skipn i all_blocks))))
     /\ List.concat (map (fun i => firstn (Z.to_nat chunk_size) (skipn i all_blocks)) starts)
        = all_blocks
     /\ (forall m w',
           chunk_and_process_json env img s chunk_size w = (Ret (PyDict m), w')
           <-> exists outs,
                 chunks_merged env img all_blocks chunk_size starts [] w outs m w')
     /\ (forall outs m w',
           chunks_merged env img all_blocks chunk_size starts [] w outs m w' ->
           List.length outs = List.length starts
           /\ Forall (fun p => truthy p = true) outs)
     /\ (forall outs m w' ds,
           chunks_merged env img all_blocks chunk_size starts [] w outs m w' ->
           outs = map PyDict ds ->
           m = fold_left dict_update ds []
           /\ (forall x, In x (dict_keys m) <-> exists d, In d ds /\ In x (dict_keys d))
           /\ (incl (dict_keys m) (dict_keys all_blocks)
               <-> Forall (fun d => incl (dict_keys d) (dict_keys all_blocks)) ds))
     /\ (forall outs m w',
           chunks_merged env img all_blocks chunk_size starts [] w outs m w' ->
           Forall2 (fun i out =>
                      exists d, out = PyDict d
                                /\ incl (dict_keys d)
                                        (chunk_keys_at (dict_keys all_blocks) i chunk_size))
                   starts outs ->
           incl (dict_keys m) (dict_keys all_blocks))
     /\ (forall pre i post outs acc w1 p w2,
           starts = pre ++ i :: post ->
           chunks_merged env img all_blocks chunk_size pre [] w outs acc w1 ->
           generate_block_json env img (InputText (chunk_text all_blocks chunk_size i)) w1
           = (Ret p, w2) ->
           truthy p = false ->
           chunk_and_process_json env img s chunk_size w = (Ret PyNone, w2))
     /\ (forall r w',
           chunk_and_process_json env img s chunk_size w = (r, w') ->
           r = Ret PyNone \/ exists m, r = Ret (PyDict m)))
  /\ (chunk_size = 0%Z ->
      chunk_and_process_json env img s chunk_size w = (Ret PyNone, w))
  /\ ((chunk_size < 0)%Z ->
      chunk_and_process_json env img s chunk_size w = (Ret (PyDict []), w)).
Proof.
  intros Hs Hn.
  split; [|split;
           [intros ->; apply chunk_and_process_json_zero_size
           |intros Hc; now apply chunk_and_process_json_negative_size
                         with (all_blocks := all_blocks)]].
  intros Hc. eexists. split; [now apply py_range_step_positive|].
  set (k := Z.to_nat chunk_size).
  set (n := List.length (dict_keys all_blocks)).
  set (starts := map (fun j => j * k) (seq 0 ((n + k - 1) / k))).
  assert (Hk : 0 < k) by (unfold k; lia).
  assert (Hcall : forall w0,
            chunk_and_process_json env img s chunk_size w0
            = match chunk_loop env img all_blocks (dict_keys all_blocks)
                               chunk_size starts [] w0 with
              | (Ret (Some final_output), w') => (Ret (PyDict final_output), w')
              | (Ret None, w') => (Ret PyNone, w')
              | (Raise _, w') => (Ret PyNone, w')
              end).
  { intros w0. unfold chunk_and_process_json. rewrite Hs.
    now rewrite py_range_step_positive. }
  split; [|split; [|split; [|split; [|split; [|split; [|split; [|split; [|split]]]]]]]].
  - unfold starts, chunk_keys_at. rewrite map_map. fold k.
    apply chunks_cover. unfold n. apply range_covers. exact Hk.
  - intros i _. unfold chunk_keys_at. fold k n.
    rewrite length_firstn, length_skipn. reflexivity.
  - intros i. split.
    + now apply current_chunk_slice.
    + unfold chunk_text. now rewrite current_chunk_slice.
  - unfold starts. rewrite map_map.
    apply chunks_cover.
    replace (List.length all_blocks) with n
      by (unfold n, dict_keys; apply length_map).
    apply range_covers. exact Hk.
  - intros m w'. rewrite Hcall, <- chunk_loop_merged.
    destruct (chunk_loop env img all_blocks (dict_keys all_blocks) chunk_size
                         starts [] w) as [[[m0|]|e] w0].
    + split; intros H; inversion H; subst; reflexivity.
    + split; intros H; discriminate.
    + split; intros H; discriminate.
  - intros outs m w' M. exact (chunks_merged_outputs _ _ _ _ _ _ _ _ _ _ M).
  - intros outs m w' ds M E.
    pose proof (chunks_merged_dicts _ _ _ _ _ _ _ _ _ _ _ M E) as Hm.
    assert (Hkeys : forall x, In x (dict_keys m)
                              <-> exists d, In d ds /\ In x (dict_keys d)).
    { intros x. rewrite Hm, dict_keys_updates. split.
      - intros [[]|H]. exact H.
      - intros H. now right. }
    split; [exact Hm|]. split; [exact Hkeys|].
    rewrite Forall_forall. split.
    + intros Hi d Hd x Hx. apply Hi, Hkeys. exists d. now split.
    + intros Hf x Hx. apply Hkeys in Hx. destruct Hx as (d & Hd & Hx).
      exact (Hf d Hd x Hx).
  - intros outs m w' M F. apply (chunks_merged_keys _ _ _ _ _ _ _ _ _ _ M F).
    intros x [].
  - intros pre i post outs acc w1 p w2 E M G T. rewrite Hcall, E.
    now rewrite (chunk_loop_falsy env img all_blocks chunk_size pre i post
                   [] w outs acc w1 p w2 M G T).
  - intros r w' H. rewrite Hcall in H.
    destruct (chunk_loop env img all_blocks (dict_keys all_blocks) chunk_size
                         starts [] w) as [[[m0|]|e] w0];
      inversion H; subst; eauto.
Qed.

(** Two chunks of one block each, both enriched: the mapping of both. *)
Lemma chunk_and_process_json_on_two_blocks :
  SmallRuntime.loads Scenario.raw_blocks_text = Some (PyDict Scenario.raw_blocks)
  /\ NoDup (dict_keys Scenario.raw_blocks)
  /\ (0 < OUTPUT_CHUNK_SIZE)%Z
  /\ exists w',
       chunk_and_process_json (RT := SmallRuntime.runtime)
         (Scenario.env_of None [Scenario.answer Scenario.enriched_heading;
                                Scenario.answer Scenario.enriched_sentence] None)
         "UE5H" Scenario.raw_blocks_text OUTPUT_CHUNK_SIZE world0
       = (Ret (PyDict (as_record Scenario.enriched_heading
                       ++ as_record Scenario.enriched_sentence)), w').
Proof.
  split; [reflexivity|]. split; [exact raw_blocks_distinct|]. split; [reflexivity|].
  destruct (proj1 (chunk_and_process_json_all_or_nothing (RT := SmallRuntime.runtime)
              (Scenario.env_of None [Scenario.answer Scenario.enriched_heading;
                                     Scenario.answer Scenario.enriched_sentence] None)
              "UE5H" Scenario.raw_blocks_text OUTPUT_CHUNK_SIZE Scenario.raw_blocks
              world0 eq_refl raw_blocks_distinct) eq_refl)
    as (starts & Hr & _ & _ & _ & _ & Hiff & _).
  cbv in Hr. injection Hr as <-.
  eexists. apply Hiff. eexists.
  eapply merged_cons; [vm_compute; reflexivity | reflexivity | reflexivity |].
  eapply merged_cons; [vm_compute; reflexivity | reflexivity | reflexivity |].
  apply merged_nil.
Defined.

(** C5 as stated fails.  The blocks of the page are [0] and [1]; a
    provider that answers both chunks under the key [zzz] gives a result
    whose only key is [zzz], no block of the page.  With a chunk size of
    [-1] no chunk is cut and nothing is enriched, and the call returns the
    empty mapping, not [None]. *)
Lemma chunk_result_has_the_keys_of_the_outputs :
  dict_keys Scenario.raw_blocks = ["0"; "1"]
  /\ fst (chunk_and_process_json (RT := SmallRuntime.runtime)
            (Scenario.env_of None [Scenario.answer Scenario.misnamed_heading;
                                   Scenario.answer Scenario.misnamed_heading] None)
            "UE5H" Scenario.raw_blocks_text OUTPUT_CHUNK_SIZE world0)
     = Ret Scenario.misnamed_heading
  /\ chunk_and_process_json (RT := SmallRuntime.runtime)
       (Scenario.env_of None [Scenario.answer Scenario.enriched_heading;
                              Scenario.answer Scenario.enriched_sentence] None)
       "UE5H" Scenario.raw_blocks_text (-1) world0
     = (Ret (PyDict []), world0).
Proof.
  split; [reflexivity|]. split; vm_compute; reflexivity.
Qed.
